(** * opencode-chatbot: supervision and delivery layer, embedded in Rocq

    A shallow embedding of the three Python modules of the repository

      - [opencode_client.py]  (module [Client] below),
      - [opencode_runner.py]  (module [Runner] below),
      - [bot_core.py]         (module [BotCore] below),

    followed by the theorems that relate the written specification to them.

    Conventions of the embedding.

    - A Python [str] is a [string]; every [ascii] stands for one code point
      below 256, and the whitespace test is Python's [str.isspace] on that
      range.  Message literals of the source are kept byte for byte.
    - Durations and clock readings are integers in milliseconds
      ([time.sleep(0.5)] is [sleep 500]).
    - An exception is a value of [exn]; a call that may raise returns a
      [result].  The three classes [handle_message] tells apart are separate
      constructors.
    - The outside world (the backend behind HTTP, the operating system) is an
      abstract state threaded through every call; each primitive also appends
      an event to a log, so that statements such as "performs zero spawns" are
      statements about that log.
    - JSON values are read at the shapes the external interface fixes: a
      session is an object with optional [id], [title] and [time]; a message
      is an object with an optional list of parts; a part has an optional
      [type] and an optional [text], both strings. *)

From Stdlib Require Import ZArith List String Ascii Bool Arith Lia.
From Stdlib Require Import DecimalString DecimalPos Sorted.
Import ListNotations.

Local Open Scope string_scope.
Local Open Scope list_scope.
Local Open Scope Z_scope.

(* ===================================================================== *)
(** * Part I. Definitions                                                 *)
(* ===================================================================== *)

(** ** Exceptions and results *)

Inductive exn : Type :=
| TimeoutException (msg : string)            (* httpx.TimeoutException *)
| HTTPStatusError (status_code : Z) (msg : string)   (* httpx.HTTPStatusError *)
| ValueError (msg : string)
| KeyError (msg : string)
| OtherException (msg : string).

(** [str(e)], as the f-strings of the source print an exception. *)
Definition exn_str (e : exn) : string :=
  match e with
  | TimeoutException m => m
  | HTTPStatusError _ m => m
  | ValueError m => m
  | KeyError m => m
  | OtherException m => m
  end.

Inductive result (A : Type) : Type :=
| Ok (a : A)
| Err (e : exn).
Arguments Ok {A} a.
Arguments Err {A} e.

Definition is_ok {A : Type} (r : result A) : bool :=
  match r with Ok _ => true | Err _ => false end.

(** ** Python strings *)

Module Py.

(** [str.isspace] on the code points below 256. *)
Definition isspace (c : ascii) : bool :=
  let n := nat_of_ascii c in
  (((9 <=? n) && (n <=? 13)) || ((28 <=? n) && (n <=? 32))
   || (n =? 133) || (n =? 160))%nat.

Fixpoint lstrip (s : string) : string :=
  match s with
  | EmptyString => EmptyString
  | String c s' => if isspace c then lstrip s' else s
  end.

Fixpoint rstrip (s : string) : string :=
  match s with
  | EmptyString => EmptyString
  | String c s' =>
      match rstrip s' with
      | EmptyString => if isspace c then EmptyString else String c EmptyString
      | r => String c r
      end
  end.

(** [s.strip()] *)
Definition strip (s : string) : string := rstrip (lstrip s).

(** Truth value of a string: [bool(s)]. *)
Definition truthy (s : string) : bool :=
  match s with EmptyString => false | _ => true end.

(** [s[n:]] for [0 <= n]. *)
Fixpoint drop (n : nat) (s : string) : string :=
  match n, s with
  | O, _ => s
  | S n', EmptyString => EmptyString
  | S n', String _ s' => drop n' s'
  end.

(** [s[lo:hi]] for [0 <= lo]; an empty slice when [hi <= lo]. *)
Definition slice (s : string) (lo hi : Z) : string :=
  substring (Z.to_nat lo) (Z.to_nat (hi - lo)) s.

Definition len (s : string) : Z := Z.of_nat (String.length s).

(** [s.startswith(p)] *)
Definition startswith (s p : string) : bool := String.prefix p s.

(** [needle in hay] *)
Fixpoint contains (hay needle : string) : bool :=
  String.prefix needle hay
  || match hay with
     | EmptyString => false
     | String _ hay' => contains hay' needle
     end.

(** [s.split(sep)[0]]: what stands before the first [sep]. *)
Fixpoint split_first (sep : ascii) (s : string) : string :=
  match s with
  | EmptyString => EmptyString
  | String c s' =>
      if Ascii.eqb c sep then EmptyString else String c (split_first sep s')
  end.

(** [s.split(sep)[-1]]: what stands after the last [sep]. *)
Fixpoint split_last (sep : ascii) (s : string) : string :=
  match s with
  | EmptyString => EmptyString
  | String c s' =>
      if Ascii.eqb c sep then split_last sep s'
      else if contains s' (String sep EmptyString) then split_last sep s'
      else s
  end.

(** [s.replace(a, b)] for single characters. *)
Fixpoint replace_char (a b : ascii) (s : string) : string :=
  match s with
  | EmptyString => EmptyString
  | String c s' =>
      String (if Ascii.eqb c a then b else c) (replace_char a b s')
  end.

(** [str(n)] for an integer. *)
Definition str_of_int (n : Z) : string := NilZero.string_of_int (Z.to_int n).

Definition is_digit (c : ascii) : bool :=
  let n := nat_of_ascii c in ((48 <=? n) && (n <=? 57))%nat.

Definition digit_value (c : ascii) : Z := Z.of_nat (nat_of_ascii c) - 48.

(** The digit part of an integer literal: decimal digits, with single
    underscores allowed between two digits.  [after_digit] tells whether the
    previous character was a digit. *)
Fixpoint int_digits (acc : Z) (after_digit : bool) (s : string) : option Z :=
  match s with
  | EmptyString => if after_digit then Some acc else None
  | String c s' =>
      if is_digit c then int_digits (10 * acc + digit_value c) true s'
      else if Ascii.eqb c "_"%char then
             if after_digit then int_digits acc false s' else None
      else None
  end.

(** [int(s)]: [None] stands for ValueError. *)
Definition int (s : string) : option Z :=
  match strip s with
  | String "+"%char r => int_digits 0 false r
  | String "-"%char r => option_map Z.opp (int_digits 0 false r)
  | t => int_digits 0 false t
  end.

(** [range(start, stop, step)] for a non-zero step. *)
Definition range (start stop step : Z) : list Z :=
  let n :=
    if 0 <? step then (stop - start + step - 1) / step
    else (start - stop - step - 1) / (- step) in
  map (fun k => start + Z.of_nat k * step) (seq 0 (Z.to_nat n)).

(** ["".join(l)] *)
Definition join (l : list string) : string := fold_right String.append "" l.

End Py.

(** ** State and failure: the monad every effectful function lives in *)

(** A computation over a state [S] that returns an [A] or raises. *)
Definition M (S A : Type) : Type := S -> S * result A.

Definition ret {S A : Type} (a : A) : M S A := fun s => (s, Ok a).

Definition raise {S A : Type} (e : exn) : M S A := fun s => (s, Err e).

Definition bind {S A B : Type} (c : M S A) (k : A -> M S B) : M S B :=
  fun s =>
    match c s with
    | (s', Ok a) => k a s'
    | (s', Err e) => (s', Err e)
    end.

(** [try: c except Exception as e: h e] *)
Definition try_except {S A : Type} (c : M S A) (h : exn -> M S A) : M S A :=
  fun s =>
    match c s with
    | (s', Ok a) => (s', Ok a)
    | (s', Err e) => h e s'
    end.

(** Lift a pure [result]. *)
Definition lift {S A : Type} (r : result A) : M S A := fun s => (s, r).

Declare Scope eff_scope.
Delimit Scope eff_scope with eff.
Notation "x <- c ;; k" := (bind c (fun x => k))
  (at level 61, c at next level, right associativity) : eff_scope.
Notation "c ;;; k" := (bind c (fun _ => k))
  (at level 61, right associativity) : eff_scope.
Local Open Scope eff_scope.

(** ** opencode_client.py *)

Module Client.

(** One part of a message: [{type?, text?}]. *)
Record part : Type := { part_type : option string; part_text : option string }.

(** A message object: [{parts?: [...]}]. *)
Record message : Type := { parts : option (list part) }.

(** A session object: [{id?, title?, time?}]; the activity time is a number. *)
Record session : Type :=
  { sess_id : option string; sess_title : option string; sess_time : option Z }.

(** What [_parse_json] reads of an [httpx.Response]. *)
Record response : Type := { status_code : Z; text : string }.

Inductive json_body : Type :=
| BodyEmpty                       (* {} *)
| BodyTitle (title : string)      (* {"title": title} *)
| BodyPrompt (prompt : string).   (* {"parts": [{"type": "text", "text": prompt}]} *)

Inductive http_request : Type :=
| GET (path : string) (limit : option Z)
| POST (path : string) (body : json_body).

Definition DEFAULT_BASE_URL : string := "http://127.0.0.1:4096".

(** The backend as the client sees it.  [http tmo req] is one
    [httpx.AsyncClient] exchange with client timeout [tmo] followed by
    [r.raise_for_status()]: it answers with a response, or raises
    ([HTTPStatusError] for a status that [raise_for_status] rejects,
    [TimeoutException] when [tmo] runs out, another exception otherwise).
    The [loads_*] fields are [json.loads] read at the type the caller
    expects, [inr] carrying the text of the JSONDecodeError. *)
Class Backend (W : Type) : Type :=
  { base_url : string;                      (* _get_base_url() *)
    OPENCODE_MESSAGE_TIMEOUT : string;      (* the variable's text, empty when unset *)
    OPENCODE_USE_ASYNC : string;
    float_ms : string -> option Z;          (* float(t), in milliseconds; None = ValueError *)
    monotonic : W -> Z;                     (* time.monotonic(), in milliseconds *)
    sleep : Z -> W -> W;                    (* asyncio.sleep *)
    http : Z -> http_request -> W -> W * result response;
    loads_health : string -> (option bool) + string;
    loads_sessions : string -> list session + string;
    loads_session : string -> session + string;
    loads_messages : string -> list message + string;
    loads_message : string -> message + string }.

Inductive event : Type :=
| EvRequest (tmo : Z) (req : http_request) (res : result response)
| EvSleep (ms : Z).

Record state (W : Type) : Type := { world : W; log : list event }.
Arguments world {W} _.
Arguments log {W} _.

Section Operations.
Context {W : Type} `{Backend W}.

Definition request (tmo : Z) (req : http_request) : M (state W) response :=
  fun st =>
    let '(w', r) := http tmo req (world st) in
    ({| world := w'; log := log st ++ [EvRequest tmo req r] |}, r).

Definition do_sleep (ms : Z) : M (state W) unit :=
  fun st =>
    ({| world := sleep ms (world st); log := log st ++ [EvSleep ms] |}, Ok tt).

Definition _parse_json {A : Type} (loads : string -> A + string)
    (r : response) : result A :=
  let text := Py.strip (text r) in
  if negb (Py.truthy text) then
    Err (ValueError
           ("OpenCode 返回空内容 (HTTP " ++ Py.str_of_int (status_code r)
            ++ ")，请确认服务已启动且地址正确: " ++ base_url))
  else
    match loads text with
    | inl v => Ok v
    | inr e =>
        let preview := Py.replace_char "010"%char " "%char (substring 0 200 text) in
        Err (ValueError
               ("OpenCode 返回非 JSON (HTTP " ++ Py.str_of_int (status_code r)
                ++ ")，内容预览: " ++ preview ++ "。错误: " ++ e))
    end.

Definition _message_timeout : Z :=
  let t := OPENCODE_MESSAGE_TIMEOUT in
  if Py.truthy t then
    match float_ms t with
    | Some v => Z.max 60000 v
    | None => 600000
    end
  else 600000.

Definition _get_base_url : string := base_url.

Definition is_text_part (p : part) : bool :=
  match part_type p, part_text p with
  | Some ty, Some _ => String.eqb ty "text"
  | _, _ => false
  end.

(** [data.get("parts") or []] *)
Definition parts_or_empty (data : message) : list part :=
  match parts data with Some l => l | None => [] end.

(** [[p.get("text") for p in parts if p.get("type") == "text" and "text" in p]] *)
Definition text_parts (l : list part) : list string :=
  flat_map (fun p => if is_text_part p
                     then match part_text p with Some t => [t] | None => [] end
                     else []) l.

Definition _extract_final_result (data : message) : string :=
  match rev (text_parts (parts_or_empty data)) with
  | [] => ""                      (* if not text_parts: return "" *)
  | t :: _ => Py.strip t          (* text_parts[-1].strip() *)
  end.


Definition list_sessions : M (state W) (list session) :=
  r <- request 10000 (GET "/session" None) ;;
  lift (_parse_json loads_sessions r).

Definition create_session (title : option string) : M (state W) session :=
  let body := match title with
              | Some t => if Py.truthy t then BodyTitle t else BodyEmpty
              | None => BodyEmpty
              end in
  r <- request 10000 (POST "/session" body) ;;
  lift (_parse_json loads_session r).

Definition _get_messages (session_id : string) (limit : Z)
  : M (state W) (list message) :=
  r <- request 15000 (GET ("/session/" ++ session_id ++ "/message") (Some limit)) ;;
  lift (_parse_json loads_messages r).


(** The [while time.monotonic() < deadline] loop of
    [send_message_async_poll]; one unit of [fuel] per evaluation of the loop
    test, [None] when the fuel runs out first. *)
Fixpoint poll_loop (fuel : nat) (session_id : string) (n_before deadline : Z)
    (st : state W) : option (state W * result string) :=
  match fuel with
  | O => None
  | S fuel' =>
      if monotonic (world st) <? deadline then
        let '(st1, _) := do_sleep 3000 st in
        match _get_messages session_id 10 st1 with
        | (st2, Err e) => Some (st2, Err e)
        | (st2, Ok messages) =>
            if n_before <? Z.of_nat (List.length messages) then
              let result := _extract_final_result
                              (last messages {| parts := None |}) in
              if Py.truthy result then Some (st2, Ok result)
              else poll_loop fuel' session_id n_before deadline st2
            else poll_loop fuel' session_id n_before deadline st2
        end
      else Some (st, Err (TimeoutException "轮询等待结果超时"))
  end.

Definition send_message_async_poll (fuel : nat) (session_id text : string)
    (st : state W) : option (state W * result string) :=
  let timeout := _message_timeout in
  match request 15000
          (POST ("/session/" ++ session_id ++ "/prompt_async") (BodyPrompt text)) st with
  | (st1, Err e) => Some (st1, Err e)
  | (st1, Ok _) =>
      match _get_messages session_id 10 st1 with
      | (st2, Err e) => Some (st2, Err e)
      | (st2, Ok before) =>
          let n_before := Z.of_nat (List.length before) in
          let deadline := monotonic (world st2) + timeout in
          poll_loop fuel session_id n_before deadline st2
      end
  end.

Definition use_async : bool :=
  let v := Py.strip OPENCODE_USE_ASYNC in
  String.eqb v "1" || String.eqb v "true" || String.eqb v "yes".

Definition send_message (fuel : nat) (session_id text : string)
    (st : state W) : option (state W * result string) :=
  if use_async then send_message_async_poll fuel session_id text st
  else
    let timeout := _message_timeout in
    Some ((r <- request timeout
                  (POST ("/session/" ++ session_id ++ "/message") (BodyPrompt text)) ;;
           data <- lift (_parse_json loads_message r) ;;
           ret (_extract_final_result data)) st).

End Operations.

End Client.

(** ** opencode_runner.py *)

Module Runner.

Definition DEFAULT_PORT : Z := 4096.
Definition DEFAULT_HOST : string := "127.0.0.1".
Definition OPENCODE_SERVE_CMD : list string := ["opencode"; "serve"].

(** [rest.split("/")[0]], with [rest] the URL after its scheme. *)
Definition host_port_of (url : string) : string :=
  let rest :=
    if Py.startswith url "http://" then Py.drop 7 url
    else if Py.startswith url "https://" then Py.drop 8 url
    else url in
  Py.split_first "/"%char rest.

(** The body of the [try] in [_parse_port_from_base_url]; the only statement
    of it that can raise is [int(...)]. *)
Definition _parse_port_body (url : string) : result Z :=
  let host_port := host_port_of url in
  if Py.contains host_port ":" then
    match Py.int (Py.split_last ":"%char host_port) with
    | Some n => Ok n
    | None => Err (ValueError "invalid literal for int() with base 10")
    end
  else Ok (if Py.contains url "https" then 80 else 80).

Definition _parse_port_from_base_url (url : string) : Z :=
  match _parse_port_body url with
  | Ok n => n
  | Err _ => DEFAULT_PORT
  end.

(** What [httpx.get(.../global/health)] and [r.json()] give: nothing usable
    (an exception on the way), or a status with the body's boolean
    ["healthy"] field when the body is a JSON object that has one. *)
Inductive health_reply : Type :=
| NoReply
| Reply (status : Z) (healthy : option bool).

Inductive popen_result : Type :=
| Spawned (pid : Z)
| PopenFileNotFound
| PopenFailed (msg : string).

Inductive kill_result : Type :=
| Signalled
| ProcessLookupError
| KillFailed.

(** The operating system as the supervisor sees it. *)
Class OS (W : Type) : Type :=
  { base_url : string;                     (* get_base_url() *)
    _default_cwd : W -> string;
    resolve_dir : string -> string;        (* os.path.abspath(os.path.expanduser(cwd)) *)
    connect : Z -> W -> W * bool;          (* the TCP connect of check_port *)
    _get_process_on_port : Z -> W -> W * (option Z * option string);
    http_get_health : W -> W * health_reply;
    makedirs : string -> W -> W * option string;   (* Some e: OSError e *)
    popen : list string -> option string -> string -> W -> W * popen_result;
    kill : Z -> Z -> W -> W * kill_result;         (* os.kill(pid, sig) *)
    sleep : Z -> W -> W }.

Inductive event : Type :=
| EvHealth (healthy : bool)
| EvCheckPort (port : Z) (in_use : bool) (pid : option Z)
| EvMakedirs (dir : string) (err : option string)
| EvSpawn (args : list string) (log_path : option string) (cwd : string)
    (detached : bool) (r : popen_result)
| EvKill (pid : Z) (sig : Z) (r : kill_result)
| EvSleep (ms : Z).

Record state (W : Type) : Type := { world : W; log : list event }.
Arguments world {W} _.
Arguments log {W} _.

Definition emit {W : Type} (w : W) (st : state W) (ev : event) : state W :=
  {| world := w; log := log st ++ [ev] |}.

Definition SIGTERM : Z := 15.
Definition SIGKILL : Z := 9.

Definition truthy_int (o : option Z) : bool :=
  match o with Some n => negb (n =? 0) | None => false end.

Definition truthy_str (o : option string) : bool :=
  match o with Some s => Py.truthy s | None => false end.

Definition str_of_opt_int (o : option Z) : string :=
  match o with Some n => Py.str_of_int n | None => "None" end.

Section Operations.
Context {W : Type} `{OS W}.

Definition get_base_url : string := base_url.

Definition check_port (port : Z) (st : state W)
  : state W * (bool * option Z * option string) :=
  let '(w1, connected) := connect port (world st) in
  if connected then
    let '(w2, (pid, cmd)) := _get_process_on_port port w1 in
    (emit w2 st (EvCheckPort port true pid), (true, pid, cmd))
  else (emit w1 st (EvCheckPort port false None), (false, None, None)).

Definition is_opencode_healthy (st : state W) : state W * bool :=
  let '(w1, reply) := http_get_health (world st) in
  let healthy :=
    match reply with
    | Reply status (Some true) => status =? 200
    | _ => false
    end in
  (emit w1 st (EvHealth healthy), healthy).

Definition do_sleep (ms : Z) (st : state W) : state W :=
  emit (sleep ms (world st)) st (EvSleep ms).

(** [port = port or _parse_port_from_base_url(get_base_url())] followed by
    [if port == 80: port = DEFAULT_PORT]. *)
Definition resolve_port (port : option Z) : Z :=
  let port :=
    match port with
    | Some p => if p =? 0 then _parse_port_from_base_url get_base_url else p
    | None => _parse_port_from_base_url get_base_url
    end in
  if port =? 80 then DEFAULT_PORT else port.

(** [os.path.abspath(os.path.expanduser(cwd)) if cwd else _default_cwd()] *)
Definition work_dir_of (cwd : option string) (w : W) : string :=
  match cwd with
  | Some c => if Py.truthy c then resolve_dir c else _default_cwd w
  | None => _default_cwd w
  end.

(** [list(OPENCODE_SERVE_CMD) + ["--port", str(port), "--hostname", hostname]] *)
Definition serve_args (port : Z) (hostname : string) : list string :=
  OPENCODE_SERVE_CMD ++ ["--port"; Py.str_of_int port; "--hostname"; hostname].

(** [open(log_path, "a") if log_path else subprocess.DEVNULL]: [None] is
    the null device. *)
Definition log_target (log_path : option string) : option string :=
  if truthy_str log_path then log_path else None.

Definition start_opencode (port : option Z) (hostname log_path cwd : option string)
    (st : state W) : state W * (bool * string) :=
  let port := resolve_port port in
  let hostname :=
    match hostname with
    | Some h => if Py.truthy h then h else DEFAULT_HOST
    | None => DEFAULT_HOST
    end in
  let work_dir := work_dir_of cwd (world st) in
  let '(w1, mk) := makedirs work_dir (world st) in
  let st1 := emit w1 st (EvMakedirs work_dir mk) in
  match mk with
  | Some e => (st1, (false, ("无法创建目录 " ++ work_dir ++ ": " ++ e)%string))
  | None =>
      let args := serve_args port hostname in
      let log_path := log_target log_path in
      let '(w2, p) := popen args log_path work_dir (world st1) in
      let st2 := emit w2 st1 (EvSpawn args log_path work_dir true p) in
      match p with
      | PopenFileNotFound =>
          (st2, (false, "未找到 opencode 命令，请确认已安装并在 PATH 中"))
      | PopenFailed e => (st2, (false, e))
      | Spawned pid =>
          (st2, (true, ("已启动 opencode serve (pid=" ++ Py.str_of_int pid ++ ", "
                       ++ hostname ++ ":" ++ Py.str_of_int port
                       ++ ", cwd=" ++ work_dir ++ ")")%string))
      end
  end.

(** [for _ in range(n): time.sleep(0.5); if not check_port(port)[0]: return True];
    the result tells whether the loop returned. *)
Fixpoint wait_port_free (n : nat) (port : Z) (st : state W) : state W * bool :=
  match n with
  | O => (st, false)
  | S n' =>
      let st1 := do_sleep 500 st in
      let '(st2, (in_use2, _, _)) := check_port port st1 in
      if negb in_use2 then (st2, true) else wait_port_free n' port st2
  end.

Definition do_kill (pid sig : Z) (st : state W) : state W * kill_result :=
  let '(w1, r) := kill pid sig (world st) in
  (emit w1 st (EvKill pid sig r), r).

Definition _kill_port_process (port : Z) (st : state W) : state W * bool :=
  let '(st1, (in_use, pid, _)) := check_port port st in
  if negb in_use || negb (truthy_int pid) then (st1, true)
  else
    let pid := match pid with Some p => p | None => 0 end in
    match do_kill pid SIGTERM st1 with
    | (st2, ProcessLookupError) => (st2, true)
    | (st2, KillFailed) => (st2, false)
    | (st2, Signalled) =>
        let '(st3, freed) := wait_port_free 10 port st2 in
        if freed then (st3, true)
        else
          match do_kill pid SIGKILL st3 with
          | (st4, ProcessLookupError) => (st4, true)
          | (st4, KillFailed) => (st4, false)
          | (st4, Signalled) => (do_sleep 500 st4, true)
          end
    end.

(** [for _ in range(n): time.sleep(1); if is_opencode_healthy(): return ...];
    the result tells whether the loop returned. *)
Fixpoint wait_healthy (n : nat) (st : state W) : state W * bool :=
  match n with
  | O => (st, false)
  | S n' =>
      let st1 := do_sleep 1000 st in
      let '(st2, healthy) := is_opencode_healthy st1 in
      if healthy then (st2, true) else wait_healthy n' st2
  end.

Definition restart_opencode (port : option Z) (log_path cwd : option string)
    (st : state W) : state W * (bool * string) :=
  let port := resolve_port port in
  let '(st1, killed) := _kill_port_process port st in
  if negb killed then
    (st1, (false, ("无法终止端口 " ++ Py.str_of_int port ++ " 上的进程")%string))
  else
    let st2 := do_sleep 1000 st1 in
    let '(st3, (ok, msg)) := start_opencode (Some port) None log_path cwd st2 in
    if negb ok then (st3, (false, msg))
    else
      let '(st4, healthy) := wait_healthy 15 st3 in
      if healthy then (st4, (true, ("已重启 OpenCode: " ++ msg)%string))
      else (st4, (false, ("已启动但健康检查未通过: " ++ msg)%string)).

Definition ensure_opencode_running (port : option Z) (log_path cwd : option string)
    (st : state W) : state W * (bool * string) :=
  let '(st1, healthy) := is_opencode_healthy st in
  if healthy then (st1, (true, "OpenCode 已在运行"))
  else
    let port := resolve_port port in
    let '(st2, (in_use, pid, cmd)) := check_port port st1 in
    if in_use then
      (* [in_use and not is_opencode_healthy()], then [if in_use] *)
      let '(st3, healthy2) := is_opencode_healthy st2 in
      if negb healthy2 then
        (st3, (false, ("端口 " ++ Py.str_of_int port ++ " 已被占用 (pid="
                      ++ str_of_opt_int pid ++ ", "
                      ++ (if truthy_str cmd
                          then match cmd with Some c => c | None => "?" end
                          else "?")
                      ++ ")，但非 OpenCode")%string))
      else (st3, (true, "OpenCode 已在运行"))
    else
      let '(st3, (ok, msg)) := start_opencode (Some port) None log_path cwd st2 in
      if negb ok then (st3, (false, msg))
      else
        let '(st4, healthy3) := wait_healthy 10 st3 in
        if healthy3 then (st4, (true, msg))
        else (st4, (false, "已启动但健康检查未通过，请稍后重试")).

End Operations.

End Runner.

(** ** bot_core.py *)

Module BotCore.

Import Client.

Definition MAX_MESSAGE_LENGTH : Z := 4096.

(** The two modules [bot_core] imports, as it calls them:
    [opencode_client] ([opencode.*]) and [opencode_runner] ([runner.*]). *)
Class Deps (W : Type) : Type :=
  { list_sessions : W -> W * result (list session);
    create_session : W -> W * result session;
    send_message : string -> string -> W -> W * result string;
    restart_opencode : option string -> string -> W -> W * (bool * string);
    ensure_opencode_running : option string -> W -> W * (bool * string);
    _default_cwd : W -> string;
    expanduser : string -> string }.

Inductive event : Type :=
| EvListSessions (r : result (list session))
| EvCreateSession (r : result session)
| EvSendMessage (session_id text : string) (r : result string)
| EvRestart (log_path : option string) (cwd : string) (ok : bool)
| EvEnsure (log_path : option string) (ok : bool).

(** The module's globals, the world behind its imports, and the call log. *)
Record state (W : Type) : Type :=
  { world : W;
    current_session_id : option string;
    _last_opencode_cwd : option string;
    log : list event }.
Arguments world {W} _.
Arguments current_session_id {W} _.
Arguments _last_opencode_cwd {W} _.
Arguments log {W} _.

Definition set_current {W : Type} (v : option string) (st : state W) : state W :=
  {| world := world st; current_session_id := v;
     _last_opencode_cwd := _last_opencode_cwd st; log := log st |}.

Definition set_cwd {W : Type} (v : option string) (st : state W) : state W :=
  {| world := world st; current_session_id := current_session_id st;
     _last_opencode_cwd := v; log := log st |}.

Definition emit {W : Type} (w : W) (st : state W) (ev : event) : state W :=
  {| world := w; current_session_id := current_session_id st;
     _last_opencode_cwd := _last_opencode_cwd st; log := log st ++ [ev] |}.

(** Truth value of an optional string ([None] and the empty string are false). *)
Definition truthy_opt (o : option string) : bool :=
  match o with Some s => Py.truthy s | None => false end.

(** [[s.get("id") for s in sessions if s.get("id")]] *)
Definition listed_ids (sessions : list session) : list string :=
  flat_map (fun s => match sess_id s with
                     | Some i => if Py.truthy i then [i] else []
                     | None => []
                     end) sessions.

(** [x in ids] *)
Definition mem (x : string) (ids : list string) : bool :=
  existsb (String.eqb x) ids.

(** [s["id"]] *)
Definition subscript_id (s : session) : result string :=
  match sess_id s with
  | Some i => Ok i
  | None => Err (KeyError "'id'")
  end.

(** The sort key of [handle_restart_opencode]:
    [t = s.get("time") or ""; return (1 if t else 0, t)].  The second
    component is [None] for the empty string. *)
Definition sort_key (s : session) : Z * option Z :=
  match sess_time s with
  | Some t => if t =? 0 then (0, None) else (1, Some t)
  | None => (0, None)
  end.

(** [a < b] on such keys, as Python compares tuples.  Two keys whose first
    components agree carry second components of the same kind. *)
Definition key_lt (a b : Z * option Z) : bool :=
  (fst a <? fst b)
  || ((fst a =? fst b)
      && match snd a, snd b with
         | Some x, Some y => x <? y
         | _, _ => false
         end).

Section Sorting.
Context {A K : Type} (key : A -> K) (lt : K -> K -> bool).

(** Insertion before the first element that is not smaller: the sort is
    stable, and compares with [<] only, as [list.sort] does. *)
Fixpoint insert_sorted (x : A) (l : list A) : list A :=
  match l with
  | [] => [x]
  | y :: l' =>
      if lt (key y) (key x) then y :: insert_sorted x l' else x :: y :: l'
  end.

Definition stable_sort (l : list A) : list A :=
  fold_right insert_sorted [] l.

(** [sorted(l, key=key, reverse=reverse)]: with [reverse] the list is
    reversed, sorted and reversed again, which keeps equal keys in their
    original order. *)
Definition sorted (reverse : bool) (l : list A) : list A :=
  if reverse then rev (stable_sort (rev l)) else stable_sort l.

End Sorting.

Definition chunk_text (text : string) (size : Z) : result (list string) :=
  if Py.len text <=? size then Ok (if Py.truthy text then [text] else [])
  else if size =? 0 then Err (ValueError "range() arg 3 must not be zero")
  else Ok (map (fun i => Py.slice text i (i + size))
               (Py.range 0 (Py.len text) size)).

Definition bad_subdir_char (c : ascii) : bool :=
  let n := nat_of_ascii c in
  ((n =? 47) || (n =? 92) || (n =? 0) || (n =? 9) || (n =? 10) || (n =? 13)
   || (n <? 32))%nat.

Fixpoint any_char (f : ascii -> bool) (s : string) : bool :=
  match s with
  | EmptyString => false
  | String c s' => f c || any_char f s'
  end.

Definition _validate_proj_subdir (name : string) : option string :=
  if negb (Py.truthy name) || (64 <? Py.len name) then
    Some "子目录名长度须 1～64"
  else if any_char bad_subdir_char name then
    Some "子目录名不可含不可见字符或路径符号"
  else if Py.startswith name "." || Py.contains name ".." then
    Some "子目录名不可含 .. 或以 . 开头"
  else None.

Definition no_text_result : string := "(无文本结果)".

Definition timeout_guidance : string :=
  "请求超时（OpenCode 可能仍在执行），可稍后重试或发 /session 查看。可设置环境变量 OPENCODE_MESSAGE_TIMEOUT（秒）增大超时。".

Definition failure_report (e : exn) : string :=
  "调用 OpenCode 失败: " ++ exn_str e.

(** [if not result: return "(无文本结果)"; return result] *)
Definition render (result : string) : string :=
  if negb (Py.truthy result) then no_text_result else result.

Section Operations.
Context {W : Type} `{Deps W}.

Definition call_list_sessions : M (state W) (list session) :=
  fun st =>
    let '(w', r) := list_sessions (world st) in (emit w' st (EvListSessions r), r).

Definition call_create_session : M (state W) session :=
  fun st =>
    let '(w', r) := create_session (world st) in (emit w' st (EvCreateSession r), r).

Definition call_send_message (session_id text : string) : M (state W) string :=
  fun st =>
    let '(w', r) := send_message session_id text (world st) in
    (emit w' st (EvSendMessage session_id text r), r).

Definition call_restart (log_path : option string) (cwd : string)
    (st : state W) : state W * (bool * string) :=
  let '(w', (ok, msg)) := restart_opencode log_path cwd (world st) in
  (emit w' st (EvRestart log_path cwd ok), (ok, msg)).

Definition call_ensure (log_path : option string)
    (st : state W) : state W * (bool * string) :=
  let '(w', (ok, msg)) := ensure_opencode_running log_path (world st) in
  (emit w' st (EvEnsure log_path ok), (ok, msg)).

(** Lines 28-34 of [get_or_create_session]: what runs when there is no
    cached id, or after the cached one was dropped. *)
Definition obtain_session : M (state W) string :=
  sessions <- call_list_sessions ;;
  match sessions with
  | [] =>
      session <- call_create_session ;;
      i <- lift (subscript_id session) ;;
      fun st => (set_current (Some i) st, Ok i)
  | first :: _ =>
      i <- lift (subscript_id first) ;;
      fun st => (set_current (Some i) st, Ok i)
  end.

Definition get_or_create_session : M (state W) string :=
  fun st =>
    match current_session_id st with
    | Some cur =>
        if Py.truthy cur then
          match call_list_sessions st with
          | (st1, Ok sessions) =>
              if mem cur (listed_ids sessions) then (st1, Ok cur)
              else obtain_session (set_current None st1)
          | (st1, Err _) => obtain_session (set_current None st1)
          end
        else obtain_session st
    | None => obtain_session st
    end.

Definition switch_session (session_id : string) (st : state W) : state W :=
  set_current (Some session_id) st.

Definition set_last_opencode_cwd (cwd : string) (st : state W) : state W :=
  set_cwd (Some cwd) st.

Definition handle_new_session (st : state W) : state W * string :=
  match (session <- call_create_session ;; lift (subscript_id session)) st with
  | (st1, Ok i) => (set_current (Some i) st1, "已切换到新会话。")
  | (st1, Err e) => (st1, ("创建会话失败: " ++ exn_str e)%string)
  end.


Definition handle_start_opencode (log_path : option string)
    (st : state W) : state W * (bool * string) :=
  let '(st1, (ok, msg)) := call_ensure log_path st in
  match ok, _last_opencode_cwd st1 with
  | true, None => (set_cwd (Some (_default_cwd (world st1))) st1, (ok, msg))
  | _, _ => (st1, (ok, msg))
  end.

(** [_last_opencode_cwd or runner._default_cwd()] *)
Definition restart_cwd (st : state W) : string :=
  if truthy_opt (_last_opencode_cwd st)
  then match _last_opencode_cwd st with
       | Some c => c
       | None => _default_cwd (world st)
       end
  else _default_cwd (world st).

Definition handle_restart_opencode (log_path : option string)
    (st : state W) : state W * (bool * string) :=
  let cwd := restart_cwd st in
  let st0 := set_cwd (Some cwd) st in
  let '(st1, (ok, msg)) := call_restart log_path cwd st0 in
  if negb ok then (st1, (ok, msg))
  else
    let st2 := set_current None st1 in
    match call_list_sessions st2 with
    | (st3, Ok []) => (st3, (ok, msg))
    | (st3, Ok sessions) =>
        match sorted sort_key key_lt true sessions with
        | first :: _ => (set_current (sess_id first) st3, (ok, msg))
        | [] => (st3, (ok, msg))          (* sessions[0] of an empty list: IndexError, caught *)
        end
    | (st3, Err _) => (st3, (ok, msg))
    end.

Definition handle_switch_session (session_id : string)
    (st : state W) : state W * string :=
  match call_list_sessions st with
  | (st1, Ok sessions) =>
      let title :=
        match find (fun s => match sess_id s with
                             | Some i => String.eqb i session_id
                             | None => false
                             end) sessions with
        | Some s => match sess_title s with
                    | Some t => if Py.truthy t then t else "(无标题)"
                    | None => "(无标题)"
                    end
        | None => "(无标题)"
        end in
      (switch_session session_id st1, ("已切换到会话: " ++ title)%string)
  | (st1, Err e) => (st1, ("切换失败: " ++ exn_str e)%string)
  end.

(** The body of the outer [try] of [handle_message]. *)
Definition deliver (text : string) : M (state W) string :=
  session_id <- get_or_create_session ;;
  call_send_message session_id text.

Definition handle_message (text : string) (st : state W) : state W * string :=
  match deliver text st with
  | (st1, Ok result) => (st1, render result)
  | (st1, Err (TimeoutException _)) => (st1, timeout_guidance)
  | (st1, Err (HTTPStatusError code _ as e)) =>
      if code =? 404 then
        let st2 := set_current None st1 in
        match deliver text st2 with
        | (st3, Err retry_e) => (st3, failure_report retry_e)
        | (st3, Ok result) => (st3, render result)
        end
      else (st1, failure_report e)
  | (st1, Err e) => (st1, failure_report e)
  end.

End Operations.

End BotCore.

(** ** Vocabulary of the specification *)

Module Spec.

Import Client.

(** [x] occurs in the message [msg]. *)
Definition occurs (x msg : string) : Prop :=
  exists a b : string, msg = (a ++ x ++ b)%string.

(** "A part whose type is text", as the specification words it. *)
Definition has_type_text (p : part) : bool :=
  match part_type p with
  | Some ty => String.eqb ty "text"
  | None => false
  end.

(** "The last part whose type is text among the message's parts". *)
Definition last_part_of_type_text (m : message) : option part :=
  match rev (filter has_type_text (parts_or_empty m)) with
  | p :: _ => Some p
  | [] => None
  end.

(** The specification's [extract_final_result], word for word: the text of
    that part (stripped, as its own example has it), the empty string when
    there is none. *)
Definition extract_final_result (m : message) : string :=
  match last_part_of_type_text m with
  | Some p => match part_text p with Some t => Py.strip t | None => "" end
  | None => ""
  end.

End Spec.

(** ** Vocabulary for the supervisor's event log *)

Module Trace.

Import Runner.

Definition is_kill (ev : event) : bool :=
  match ev with EvKill _ _ _ => true | _ => false end.

Definition is_spawn (ev : event) : bool :=
  match ev with EvSpawn _ _ _ _ _ => true | _ => false end.


Definition count (f : event -> bool) (l : list event) : nat :=
  List.length (filter f l).

(** Health polls [ms] apart with the given observations, oldest first. *)
Definition health_rounds (ms : Z) (obs : list bool) : list event :=
  flat_map (fun b => [EvSleep ms; EvHealth b]) obs.

(** A poll of the health endpoint every [ms], at most [budget] times, that
    stops at the first healthy observation: [ok] tells whether one came. *)
Definition bounded_health_poll (budget : nat) (ms : Z) (evs : list event)
    (ok : bool) : Prop :=
  exists failed : nat,
    evs = health_rounds ms (repeat false failed ++ (if ok then [true] else []))
    /\ (if ok then (failed < budget)%nat else failed = budget).

(** Port polls [ms] apart: the owners seen while the port was busy, then,
    when [freed], one observation of the free port. *)
Definition port_rounds (ms port : Z) (busy : list (option Z)) (freed : bool)
  : list event :=
  flat_map (fun pid => [EvSleep ms; EvCheckPort port true pid]) busy
  ++ (if freed then [EvSleep ms; EvCheckPort port false None] else []).

Definition bounded_port_poll (budget : nat) (ms port : Z) (evs : list event)
    (freed : bool) : Prop :=
  exists busy : list (option Z),
    evs = port_rounds ms port busy freed
    /\ (if freed then (List.length busy < budget)%nat
        else List.length busy = budget).

(** What one call of [start_opencode] adds to the log: the directory is
    created first, then the backend is spawned detached in it; [started]
    tells whether a process was spawned. *)
Definition start_attempt (port : Z) (log_path : option string) (work_dir : string)
    (evs : list event) (started : bool) : Prop :=
  (exists e, evs = [EvMakedirs work_dir (Some e)] /\ started = false)
  \/ (exists p,
         evs = [EvMakedirs work_dir None;
                EvSpawn (serve_args port DEFAULT_HOST) log_path work_dir true p]
         /\ started = match p with Spawned _ => true | _ => false end).

(** What [_kill_port_process] adds to the log, and its answer.  The port's
    owner is resolved first.  Without a known owner nothing is signalled.
    Otherwise SIGTERM is sent; when the process is already gone the phase
    ends well, when the signal cannot be sent it ends badly; else the port is
    polled every half second, at most 10 times, and if it is still occupied
    SIGKILL is sent, followed by one more half second of sleep. *)
Inductive termination_phase (port : Z) : list event -> bool -> Prop :=
| no_owner (in_use : bool) (pid : option Z) :
    in_use = false \/ truthy_int pid = false ->
    termination_phase port [EvCheckPort port in_use pid] true
| term_already_gone (pid : Z) :
    termination_phase port
      [EvCheckPort port true (Some pid); EvKill pid SIGTERM ProcessLookupError] true
| term_refused (pid : Z) :
    termination_phase port
      [EvCheckPort port true (Some pid); EvKill pid SIGTERM KillFailed] false
| term_obeyed (pid : Z) (polls : list event) :
    bounded_port_poll 10 500 port polls true ->
    termination_phase port
      ([EvCheckPort port true (Some pid); EvKill pid SIGTERM Signalled] ++ polls) true
| term_ignored_then_kill (pid : Z) (polls : list event) (r : kill_result) :
    bounded_port_poll 10 500 port polls false ->
    termination_phase port
      ([EvCheckPort port true (Some pid); EvKill pid SIGTERM Signalled] ++ polls
       ++ [EvKill pid SIGKILL r]
       ++ match r with Signalled => [EvSleep 500] | _ => [] end)
      (match r with KillFailed => false | _ => true end).

End Trace.

(** ** Sample data *)

Module Sample.

Import Client.

Definition tool_part : part := {| part_type := Some "tool"; part_text := None |}.
Definition text_part (t : string) : part :=
  {| part_type := Some "text"; part_text := Some t |}.
Definition textless_text_part : part :=
  {| part_type := Some "text"; part_text := None |}.

(** The parts list of the specification's example. *)
Definition msg_tool_a_b : message :=
  {| parts := Some [tool_part; text_part "a"; text_part " b "] |}.

(** A text part followed by a part of type text that carries no text. *)
Definition msg_a_textless : message :=
  {| parts := Some [text_part "a"; textless_text_part] |}.

Definition msg_of (t : string) : message := {| parts := Some [text_part t] |}.
Definition msg_tool_only : message := {| parts := Some [tool_part] |}.

End Sample.

(** ** A simulated operating system, for running the supervisor *)

Module SimOS.

Import Runner.

Record sim : Type :=
  { up : bool;                  (* the backend answers its health probe *)
    busy : bool;                (* something listens on the port *)
    owner : option Z;           (* pid of the listener, when known *)
    boot : option nat;          (* a spawned backend: probes left before it is up *)
    boot_probes : nat;          (* probes a freshly spawned backend needs *)
    has_opencode : bool;        (* the executable is on PATH *)
    kill_answer : kill_result;  (* what os.kill answers *)
    obeys_term : bool }.        (* SIGTERM makes the listener leave *)

Definition sim_health (w : sim) : sim * health_reply :=
  match boot w with
  | Some O =>
      ({| up := true; busy := busy w; owner := owner w; boot := None;
          boot_probes := boot_probes w; has_opencode := has_opencode w;
          kill_answer := kill_answer w; obeys_term := obeys_term w |},
       Reply 200 (Some true))
  | Some (S k) =>
      ({| up := up w; busy := busy w; owner := owner w; boot := Some k;
          boot_probes := boot_probes w; has_opencode := has_opencode w;
          kill_answer := kill_answer w; obeys_term := obeys_term w |},
       NoReply)
  | None => (w, if up w then Reply 200 (Some true) else NoReply)
  end.

Definition sim_popen (args : list string) (log_path : option string)
    (cwd : string) (w : sim) : sim * popen_result :=
  if has_opencode w then
    ({| up := false; busy := true; owner := Some 4242;
        boot := Some (boot_probes w);
        boot_probes := boot_probes w; has_opencode := has_opencode w;
        kill_answer := kill_answer w; obeys_term := obeys_term w |},
     Spawned 4242)
  else (w, PopenFileNotFound).

Definition sim_kill (pid sig : Z) (w : sim) : sim * kill_result :=
  match kill_answer w with
  | Signalled =>
      if (sig =? 9) || obeys_term w then
        ({| up := false; busy := false; owner := None; boot := None;
            boot_probes := boot_probes w; has_opencode := has_opencode w;
            kill_answer := kill_answer w; obeys_term := obeys_term w |},
         Signalled)
      else (w, Signalled)
  | r => (w, r)
  end.

#[global] Instance sim_os : OS sim :=
  { base_url := "http://127.0.0.1:4096";
    _default_cwd := fun _ => "/home/bot/bots/2026-01-01";
    resolve_dir := fun d => d;
    connect := fun _ w => (w, busy w);
    _get_process_on_port := fun _ w => (w, (owner w, Some "opencode serve"));
    http_get_health := sim_health;
    makedirs := fun _ w => (w, None);
    popen := sim_popen;
    kill := sim_kill;
    sleep := fun _ w => w }.

Definition start (w : sim) : state sim := {| world := w; log := [] |}.

(** The backend is up and owns the port. *)
Definition healthy : sim :=
  {| up := true; busy := true; owner := Some 100; boot := None; boot_probes := 2;
     has_opencode := true; kill_answer := Signalled; obeys_term := true |}.

(** Another program listens on the port; the signal is delivered and obeyed. *)
Definition foreign : sim :=
  {| up := false; busy := true; owner := Some 77; boot := None; boot_probes := 2;
     has_opencode := true; kill_answer := Signalled; obeys_term := true |}.

(** Nothing listens; a spawned backend is up at its third probe. *)
Definition stopped : sim :=
  {| up := false; busy := false; owner := None; boot := None; boot_probes := 2;
     has_opencode := true; kill_answer := Signalled; obeys_term := true |}.

(** Nothing listens; a spawned backend needs more probes than any budget. *)
Definition slow : sim :=
  {| up := false; busy := false; owner := None; boot := None; boot_probes := 40;
     has_opencode := true; kill_answer := Signalled; obeys_term := true |}.

(** Nothing listens and the executable is missing. *)
Definition no_executable : sim :=
  {| up := false; busy := false; owner := None; boot := None; boot_probes := 2;
     has_opencode := false; kill_answer := Signalled; obeys_term := true |}.

(** The listener ignores SIGTERM. *)
Definition stubborn : sim :=
  {| up := true; busy := true; owner := Some 100; boot := None; boot_probes := 2;
     has_opencode := true; kill_answer := Signalled; obeys_term := false |}.


End SimOS.

(** ** Vocabulary for the orchestrator *)

Module Orchestrator.

Import Client BotCore.

Definition is_send (ev : event) : bool :=
  match ev with EvSendMessage _ _ _ => true | _ => false end.

(** Number of [send_message] calls in a log. *)
Definition sends (l : list event) : nat := List.length (filter is_send l).

(** The invariant of the specification: a non-empty current session id is
    one of the ids the backend lists when asked now. *)
Definition pointer_is_listed {W : Type} `{Deps W} (st : state W) : Prop :=
  forall cur,
    current_session_id st = Some cur -> Py.truthy cur = true ->
    exists sessions,
      snd (list_sessions (world st)) = Ok sessions
      /\ In cur (listed_ids sessions).

(** The log of a get-or-create fallback that ends with the id [i]: the
    backend listed sessions and [i] is the id of the first one, or it listed
    none and then created a session with id [i]. *)
Definition fresh_session (i : string) (evs : list event) : Prop :=
  (exists first rest,
      evs = [EvListSessions (Ok (first :: rest))] /\ sess_id first = Some i)
  \/ (exists s,
         evs = [EvListSessions (Ok []); EvCreateSession (Ok s)]
         /\ sess_id s = Some i).

(** The log of a failed verification of the cached id [cur]: the listing
    raised, or it answered without [cur] among its ids. *)
Definition verification_failed (cur : string) (ev : event) : Prop :=
  (exists e, ev = EvListSessions (Err e))
  \/ (exists ss, ev = EvListSessions (Ok ss) /\ ~ In cur (listed_ids ss)).

(** A session carries an activity timestamp, as the sort key reads it. *)
Definition has_time (s : session) : bool :=
  match sess_time s with Some t => negb (t =? 0) | None => false end.

Definition time_of (s : session) : Z :=
  match sess_time s with Some t => t | None => 0 end.

End Orchestrator.

(** ** Vocabulary for a delivery attempt, on the backend's own calls *)

Module Delivery.

Import Client BotCore.

Section WithDeps.
Context {W : Type} `{Deps W}.

(** The state [st] after calls that left the world [w], set the pointer to
    [cur] and logged [evs]. *)
Definition after (w : W) (cur : option string) (evs : list event)
    (st : state W) : state W :=
  {| world := w; current_session_id := cur;
     _last_opencode_cwd := _last_opencode_cwd st; log := log st ++ evs |}.





End WithDeps.

End Delivery.

(** ** A simulated backend, for running the orchestrator *)

Module SimBackend.

Import Client BotCore.

Record sim : Type :=
  { listed : list session;             (* what GET /session answers *)
    listing_fails : bool;              (* GET /session raises *)
    fresh : session;                   (* what POST /session creates *)
    send_script : list (result string);  (* outcomes of the next sends *)
    restart_ok : bool }.

Definition sim_list (w : sim) : sim * result (list session) :=
  (w, if listing_fails w then Err (OtherException "connection refused")
      else Ok (listed w)).

Definition sim_create (w : sim) : sim * result session :=
  ({| listed := listed w ++ [fresh w]; listing_fails := listing_fails w;
      fresh := fresh w; send_script := send_script w;
      restart_ok := restart_ok w |}, Ok (fresh w)).

Definition sim_send (session_id text : string) (w : sim) : sim * result string :=
  match send_script w with
  | [] => (w, Ok "done")
  | r :: rest =>
      ({| listed := listed w; listing_fails := listing_fails w;
          fresh := fresh w; send_script := rest;
          restart_ok := restart_ok w |}, r)
  end.

#[global] Instance sim_deps : Deps sim :=
  { list_sessions := sim_list;
    create_session := sim_create;
    send_message := sim_send;
    restart_opencode := fun _ _ w => (w, (restart_ok w, "restarted"));
    ensure_opencode_running := fun _ w => (w, (true, "running"));
    _default_cwd := fun _ => "/home/bot/bots/2026-01-01";
    expanduser := fun d => d }.

Definition ses (i : string) (t : option Z) : session :=
  {| sess_id := Some i; sess_title := None; sess_time := t |}.

Definition start (cur : option string) (w : sim) : state sim :=
  {| world := w; current_session_id := cur; _last_opencode_cwd := None; log := [] |}.

(** The backend lists nothing. *)
Definition empty : sim :=
  {| listed := []; listing_fails := false; fresh := ses "ses_new" (Some 1);
     send_script := []; restart_ok := true |}.

(** One listed session; the first send is answered 404, the next one works. *)
Definition stale : sim :=
  {| listed := [ses "ses_a" (Some 5)]; listing_fails := false;
     fresh := ses "ses_new" (Some 1);
     send_script := [Err (HTTPStatusError 404 "Client error '404 Not Found'");
                     Ok "hi"];
     restart_ok := true |}.

(** The first send is answered 404 and the retry runs into the timeout. *)
Definition stale_then_timeout : sim :=
  {| listed := [ses "ses_a" (Some 5)]; listing_fails := false;
     fresh := ses "ses_new" (Some 1);
     send_script := [Err (HTTPStatusError 404 "Client error '404 Not Found'");
                     Err (TimeoutException "timed out")];
     restart_ok := true |}.

(** The first send runs into the timeout. *)
Definition slow_prompt : sim :=
  {| listed := [ses "ses_a" (Some 5)]; listing_fails := false;
     fresh := ses "ses_new" (Some 1);
     send_script := [Err (TimeoutException "timed out"); Ok "late"];
     restart_ok := true |}.

(** Sessions with and without activity times, in backend order. *)
Definition mixed_times : sim :=
  {| listed := [ses "s0" None; ses "s1" (Some 5); ses "s2" (Some 9);
                ses "s3" (Some 9); ses "s4" (Some 0)];
     listing_fails := false; fresh := ses "ses_new" (Some 1);
     send_script := []; restart_ok := true |}.

End SimBackend.

(** ** Vocabulary for submit-and-poll delivery *)

Module Polling.

Import Client.

Section WithBackend.
Context {W : Type} `{Backend W}.

(** The message list a poll observes: [_get_messages] applied to the raw
    outcome of its request. *)
Definition observed (r : result response) : result (list message) :=
  match r with
  | Ok resp => _parse_json loads_messages resp
  | Err e => Err e
  end.

(** The text a poll returns, if any: the observed count exceeds the recorded
    one and the newest message has a non-empty final result. *)
Definition decisive (n_before : Z) (messages : list message) : option string :=
  if n_before <? Z.of_nat (List.length messages) then
    let result := _extract_final_result (last messages {| parts := None |}) in
    if Py.truthy result then Some result else None
  else None.

(** A poll that was answered and did not end the wait. *)
Definition quiet_poll (n_before : Z) (r : result response) : Prop :=
  exists messages, observed r = Ok messages /\ decisive n_before messages = None.

(** One round of the loop in the log: three seconds of sleep, then the
    message list is requested. *)
Definition poll_round (session_id : string) (r : result response) : list event :=
  [EvSleep 3000;
   EvRequest 15000 (GET ("/session/" ++ session_id ++ "/message") (Some 10)) r].

Definition poll_timeout : exn := TimeoutException "轮询等待结果超时".

(** What the polling loop did and answered: some quiet rounds, then either a
    round whose newest message carries the returned text, or a round whose
    request failed with the propagated exception, or no further round and the
    timeout once the clock has reached the deadline. *)
Definition poll_outcome (session_id : string) (n_before deadline : Z)
    (evs : list event) (clock_after : Z) (res : result string) : Prop :=
  exists (quiet final : list (result response)),
    evs = flat_map (poll_round session_id) (quiet ++ final)
    /\ Forall (quiet_poll n_before) quiet
    /\ match res with
       | Ok t =>
           exists r messages,
             final = [r] /\ observed r = Ok messages
             /\ n_before < Z.of_nat (List.length messages)
             /\ t = _extract_final_result (last messages {| parts := None |})
             /\ t <> ""
       | Err e =>
           (exists r, final = [r] /\ observed r = Err e)
           \/ (final = [] /\ e = poll_timeout /\ deadline <= clock_after)
       end.





End WithBackend.

End Polling.

(** ** A simulated backend behind HTTP, for running the client *)

Module SimHttp.

Import Client.

(** The clock, and the instants at which the session's message list grows:
    first by a message without text, then by the answer. *)
Record sim : Type := { now : Z; textless_at : Z; answer_at : Z; poll_fails_at : Z }.

Definition tick (d : Z) (w : sim) : sim :=
  {| now := now w + d; textless_at := textless_at w; answer_at := answer_at w;
     poll_fails_at := poll_fails_at w |}.

Definition sim_http (tmo : Z) (req : http_request) (w : sim) : sim * result response :=
  match req with
  | POST _ _ => (tick 10 w, Ok {| status_code := 204; text := "" |})
  | GET _ _ =>
      (tick 20 w,
       if poll_fails_at w <=? now w then
         Err (HTTPStatusError 500 "Server error '500 Internal Server Error'")
       else if answer_at w <=? now w then Ok {| status_code := 200; text := "[u,t,a]" |}
       else if textless_at w <=? now w then Ok {| status_code := 200; text := "[u,t]" |}
       else Ok {| status_code := 200; text := "[u]" |})
  end.

Definition user_msg : message :=
  {| parts := Some [{| part_type := Some "text"; part_text := Some "ping" |}] |}.
Definition tool_msg : message :=
  {| parts := Some [{| part_type := Some "tool"; part_text := None |}] |}.
Definition answer_msg : message :=
  {| parts := Some [{| part_type := Some "tool"; part_text := None |};
                    {| part_type := Some "text"; part_text := Some " pong " |}] |}.

Definition sim_loads_messages (body : string) : list message + string :=
  if String.eqb body "[u]" then inl [user_msg]
  else if String.eqb body "[u,t]" then inl [user_msg; tool_msg]
  else if String.eqb body "[u,t,a]" then inl [user_msg; tool_msg; answer_msg]
  else inr "Expecting value: line 1 column 1 (char 0)".

#[global] Instance sim_backend : Backend sim :=
  { base_url := DEFAULT_BASE_URL;
    OPENCODE_MESSAGE_TIMEOUT := "60";
    OPENCODE_USE_ASYNC := "1";
    float_ms := fun t => option_map (fun s => 1000 * s) (Py.int t);
    monotonic := now;
    sleep := tick;
    http := sim_http;
    loads_health := fun _ => inr "unused";
    loads_sessions := fun _ => inr "unused";
    loads_session := fun _ => inr "unused";
    loads_messages := sim_loads_messages;
    loads_message := fun _ => inr "unused" }.

Definition start (w : sim) : state sim := {| world := w; log := [] |}.

(** A textless message is appended after 4 s, the answer after 10 s. *)
Definition answers : sim :=
  {| now := 0; textless_at := 4000; answer_at := 10000; poll_fails_at := 10000000 |}.

(** Nothing is ever appended. *)
Definition silent : sim :=
  {| now := 0; textless_at := 10000000; answer_at := 10000000;
     poll_fails_at := 10000000 |}.

(** The message endpoint starts failing after 5 s. *)
Definition breaks : sim :=
  {| now := 0; textless_at := 10000000; answer_at := 10000000; poll_fails_at := 5000 |}.

End SimHttp.

(** ** A simulated backend that honours [limit] *)

Module SimLimit.

Import Client.

(** The clock, the number of messages the session holds from the start, and
    the instant at which the answer is appended to them. *)
Record sim : Type := { now : Z; stored : nat; answer_at : Z }.

Definition tick (d : Z) (w : sim) : sim :=
  {| now := now w + d; stored := stored w; answer_at := answer_at w |}.

Definition old_msg : message :=
  {| parts := Some [{| part_type := Some "text"; part_text := Some "earlier" |}] |}.
Definition answer_msg : message :=
  {| parts := Some [{| part_type := Some "text"; part_text := Some " pong " |}] |}.

(** All the messages of the session, oldest first. *)
Definition session_messages (w : sim) : list message :=
  repeat old_msg (stored w) ++ (if answer_at w <=? now w then [answer_msg] else []).

(** The last [limit] messages. *)
Definition window (limit : option Z) (l : list message) : list message :=
  match limit with
  | Some n => skipn (List.length l - Z.to_nat n) l
  | None => l
  end.

(** The body of a reading: one letter per message. *)
Fixpoint body_of (l : list message) : string :=
  match l with
  | [] => ""
  | m :: rest =>
      String (match parts m with
              | Some [{| part_text := Some " pong " |}] => "a"%char
              | _ => "o"%char
              end) (body_of rest)
  end.

Fixpoint messages_of (body : string) : list message + string :=
  match body with
  | EmptyString => inl []
  | String c rest =>
      match messages_of rest with
      | inl l =>
          if Ascii.eqb c "a" then inl (answer_msg :: l)
          else if Ascii.eqb c "o" then inl (old_msg :: l)
          else inr "Expecting value: line 1 column 1 (char 0)"
      | inr e => inr e
      end
  end.

Definition sim_http (tmo : Z) (req : http_request) (w : sim) : sim * result response :=
  match req with
  | POST _ _ => (tick 10 w, Ok {| status_code := 204; text := "" |})
  | GET _ limit =>
      (tick 20 w,
       Ok {| status_code := 200;
             text := ("[" ++ body_of (window limit (session_messages w)) ++ "]")%string |})
  end.

(** [json.loads] of such a body. *)
Definition sim_loads_messages (body : string) : list message + string :=
  match body with
  | String "["%char rest =>
      messages_of (substring 0 (String.length rest - 1) rest)
  | _ => inr "Expecting value: line 1 column 1 (char 0)"
  end.


Definition start (w : sim) : state sim := {| world := w; log := [] |}.



End SimLimit.

(** ** Shapes of the supervisor's runs *)

Module Shape.

Import Runner.

(** The events one call of [ensure_opencode_running] adds, with its answer. *)
Inductive ensure_run (p : Z) (log_path : option string) (work_dir : string)
  : list event -> bool -> Prop :=
| ensure_already_healthy :
    ensure_run p log_path work_dir [EvHealth true] true
| ensure_port_occupied (pid : option Z) (h2 : bool) :
    ensure_run p log_path work_dir
      [EvHealth false; EvCheckPort p true pid; EvHealth h2] h2
| ensure_start_failed (start_evs : list event) :
    Trace.start_attempt p log_path work_dir start_evs false ->
    ensure_run p log_path work_dir
      ([EvHealth false; EvCheckPort p false None] ++ start_evs) false
| ensure_started (start_evs poll_evs : list event) (ok : bool) :
    Trace.start_attempt p log_path work_dir start_evs true ->
    Trace.bounded_health_poll 10 1000 poll_evs ok ->
    ensure_run p log_path work_dir
      ([EvHealth false; EvCheckPort p false None] ++ start_evs ++ poll_evs) ok.

(** The events one call of [restart_opencode] adds, with its answer. *)
Inductive restart_run (p : Z) (log_path : option string) (work_dir : string)
  : list event -> bool -> Prop :=
| restart_signal_refused (kill_evs : list event) :
    Trace.termination_phase p kill_evs false ->
    restart_run p log_path work_dir kill_evs false
| restart_start_failed (kill_evs start_evs : list event) :
    Trace.termination_phase p kill_evs true ->
    Trace.start_attempt p log_path work_dir start_evs false ->
    restart_run p log_path work_dir
      (kill_evs ++ [EvSleep 1000] ++ start_evs) false
| restart_started (kill_evs start_evs poll_evs : list event) (ok : bool) :
    Trace.termination_phase p kill_evs true ->
    Trace.start_attempt p log_path work_dir start_evs true ->
    Trace.bounded_health_poll 15 1000 poll_evs ok ->
    restart_run p log_path work_dir
      (kill_evs ++ [EvSleep 1000] ++ start_evs ++ poll_evs) ok.

(** The last event of a log, if any. *)
Definition last_event (l : list event) : option event :=
  match rev l with
  | ev :: _ => Some ev
  | [] => None
  end.

(** The port an event works on, for the events that name one. *)
Definition port_of (ev : event) : option Z :=
  match ev with
  | EvCheckPort port _ _ => Some port
  | _ => None
  end.

(** A probe that found the port occupied. *)
Definition is_busy_probe (ev : event) : bool :=
  match ev with EvCheckPort _ true _ => true | _ => false end.

(** A signal that could not be sent. *)
Definition is_refused (ev : event) : bool :=
  match ev with EvKill _ _ KillFailed => true | _ => false end.

(** What the supervisor may do on port [p] with log target [log_path]: probe
    that port only, and spawn only the serve command for that port, detached,
    with that log target. *)
Definition on_port (p : Z) (log_path : option string) (ev : event) : Prop :=
  match ev with
  | EvCheckPort q _ _ => q = p
  | EvSpawn args lp _ detached _ =>
      args = serve_args p DEFAULT_HOST /\ lp = log_path /\ detached = true
  | _ => True
  end.

End Shape.

(** ** Vocabulary for the client's event log *)

Module ClientLog.

Import Client.

Definition is_sleep (ev : event) : bool :=
  match ev with EvSleep _ => true | _ => false end.

Definition is_request (ev : event) : bool :=
  match ev with EvRequest _ _ _ => true | _ => false end.

Definition sleeps (l : list event) : nat := List.length (filter is_sleep l).

Definition requests (l : list event) : nat := List.length (filter is_request l).


End ClientLog.

(** ** Sample runs of the client *)

Module SimRuns.

Import Client.

(** The state in which a run ended, the starting state when it ran out of
    fuel. *)
Definition final_state (start : state SimHttp.sim)
    (run : option (state SimHttp.sim * result string)) : state SimHttp.sim :=
  match run with
  | Some (st', _) => st'
  | None => start
  end.

Definition answers_final : state SimHttp.sim :=
  final_state (SimHttp.start SimHttp.answers)
    (send_message_async_poll 30 "ses_a" "ping" (SimHttp.start SimHttp.answers)).

End SimRuns.

(** ** Vocabulary for the project handlers *)

Module Project.

Import Client BotCore.



End Project.

(** ** The remaining handlers of [bot_core] *)

Module Handlers.

Import Client BotCore.

(** [MAX_MESSAGE_LENGTH], the default [size] of [chunk_text]. *)
Definition MAX_MESSAGE_LENGTH : Z := 4096.

(** The title [handle_switch_session] reports:
    [title = "(无标题)"], replaced by [s.get("title") or title] for the first
    listed session whose id is the requested one. *)
Definition reported_title (session_id : string) (sessions : list session)
  : string :=
  match find (fun s => match sess_id s with
                       | Some i => String.eqb i session_id
                       | None => false
                       end) sessions with
  | Some s => match sess_title s with
              | Some t => if Py.truthy t then t else "(无标题)"
              | None => "(无标题)"
              end
  | None => "(无标题)"
  end.

(** The line feed. *)
Definition nl : string := String "010"%char "".

(** [sep.join(l)] *)
Fixpoint join_with (sep : string) (l : list string) : string :=
  match l with
  | [] => ""
  | [x] => x
  | x :: r => x ++ sep ++ join_with sep r
  end.

(** [str.isprintable] on the code points below 256: everything but the
    control characters (0-31, 127-159), the no-break space (160) and the soft
    hyphen (173). *)
Definition isprintable (c : ascii) : bool :=
  let n := nat_of_ascii c in
  (((32 <=? n) && (n <=? 126)) || ((161 <=? n) && (n <=? 172)) || (174 <=? n))%nat.

(** [while s and not s[0].isprintable(): s = s[1:]] *)
Fixpoint drop_unprintable (s : string) : string :=
  match s with
  | EmptyString => EmptyString
  | String c s' => if isprintable c then s else drop_unprintable s'
  end.

(** [strip_leading_for_command]; [None] is the argument [None], which
    [(s or "")] turns into the empty string. *)
Definition strip_leading_for_command (s : option string) : string :=
  drop_unprintable (Py.lstrip (match s with Some v => v | None => "" end)).

(** The blocks [_format_session_messages] appends for the message at index
    [i]: the heading, then each non-empty stripped text of a text part
    followed by an empty block, then an empty block. *)
Definition message_blocks (i : nat) (msg : message) : list string :=
  [("## Message " ++ Py.str_of_int (Z.of_nat i + 1) ++ nl)%string]
  ++ flat_map (fun t => let text := Py.strip t in
                        if Py.truthy text then [text; ""] else [])
       (text_parts (parts_or_empty msg))
  ++ [""].

(** The loop over [enumerate(messages)], from index [i] on. *)
Fixpoint blocks_from (i : nat) (messages : list message) : list string :=
  match messages with
  | [] => []
  | msg :: rest => message_blocks i msg ++ blocks_from (S i) rest
  end.

Definition _format_session_messages (messages : list message) : string :=
  let out := Py.strip (join_with nl (blocks_from 0 messages)) in
  if Py.truthy out then out else "(无内容)".

(** One line of [handle_session_list]; a session without ["id"] has
    [sid = ""]. *)
Definition session_line (current : option string) (s : session) : string :=
  let sid := match sess_id s with Some i => i | None => "" end in
  let title := match sess_title s with
               | Some t => if Py.truthy t then t else "(无标题)"
               | None => "(无标题)"
               end in
  let mark := match current with
              | Some cur => if String.eqb sid cur then " [当前]" else ""
              | None => ""
              end in
  ("• " ++ substring 0 8 sid ++ "… " ++ title ++ mark)%string.

(** Counting the backend calls of a log. *)
Definition is_list (ev : event) : bool :=
  match ev with EvListSessions _ => true | _ => false end.

Definition is_create (ev : event) : bool :=
  match ev with EvCreateSession _ => true | _ => false end.

Definition is_send (ev : event) : bool :=
  match ev with EvSendMessage _ _ _ => true | _ => false end.

Definition is_supervision (ev : event) : bool :=
  match ev with EvRestart _ _ _ | EvEnsure _ _ => true | _ => false end.

Definition calls (p : event -> bool) (evs : list event) : nat :=
  List.length (filter p evs).

(** From [st] to [st'] the backend was asked at most [lists] times for the
    session list, at most [creates] times for a new session and was sent at
    most [sends] messages; the runner was not called and the remembered
    directory is the same. *)
Definition within_budget {W : Type} (lists creates sends : nat)
    (st st' : state W) : Prop :=
  exists evs,
    log st' = log st ++ evs
    /\ (calls is_list evs <= lists)%nat
    /\ (calls is_create evs <= creates)%nat
    /\ (calls is_send evs <= sends)%nat
    /\ calls is_supervision evs = 0%nat
    /\ _last_opencode_cwd st' = _last_opencode_cwd st.

Section Operations.
Context {W : Type} `{Deps W}.

Definition handle_session_list (st : state W) : state W * string :=
  match call_list_sessions st with
  | (st1, Err e) => (st1, ("获取会话失败: " ++ exn_str e)%string)
  | (st1, Ok []) => (st1, "当前无会话，发送任意消息将自动创建。")
  | (st1, Ok sessions) =>
      (st1, ("会话列表（点击下方按钮切换当前会话）:" ++ nl
             ++ join_with nl (map (session_line (current_session_id st1)) sessions))%string)
  end.

End Operations.

End Handlers.

(** ** [bot_core.handle_opencode_status], over the runner's world *)

Module Status.

Import Runner.

Definition yes_no (b : bool) : string := if b then "是" else "否".

Section Operations.
Context {W : Type} `{OS W}.

(** [port = runner._parse_port_from_base_url(base)] followed by
    [if port in (80, 443): port = runner.DEFAULT_PORT]. *)
Definition status_port : Z :=
  let port := _parse_port_from_base_url get_base_url in
  if (port =? 80) || (port =? 443) then DEFAULT_PORT else port.

Definition handle_opencode_status (st : state W) : state W * string :=
  let port := status_port in
  let '(st1, (in_use, pid, cmd)) := check_port port st in
  let '(st2, healthy) := is_opencode_healthy st1 in
  let lines :=
    [("端口: " ++ Py.str_of_int port)%string;
     ("占用: " ++ yes_no in_use)%string;
     ("健康: " ++ yes_no healthy)%string]
    ++ (if truthy_int pid then [("进程: pid=" ++ str_of_opt_int pid)%string] else [])
    ++ (if truthy_str cmd
        then [("命令: " ++ match cmd with Some c => c | None => "" end)%string]
        else []) in
  (st2, ("OpenCode 状态:" ++ Handlers.nl ++ Handlers.join_with Handlers.nl lines)%string).

End Operations.

End Status.

(* ===================================================================== *)
(** * Part II. Theorems                                                   *)
(* ===================================================================== *)

(** ** Python strings: sanity checks and lemmas *)

Example strip_example : Py.strip " b " = "b".
Proof. reflexivity. Qed.

Example int_examples :
  Py.int "4096" = Some 4096 /\ Py.int " 80 " = Some 80 /\ Py.int "" = None
  /\ Py.int "1_0" = Some 10 /\ Py.int "_1" = None /\ Py.int "-7" = Some (-7)
  /\ Py.int "80a" = None.
Proof. repeat split; reflexivity. Qed.

Example range_examples :
  Py.range 0 10 4 = [0; 4; 8] /\ Py.range 0 8 4 = [0; 4] /\ Py.range 0 5 (-2) = [].
Proof. repeat split; reflexivity. Qed.

Example split_examples :
  Py.split_first "/" "127.0.0.1:4096/x/y" = "127.0.0.1:4096"
  /\ Py.split_last ":" "a:b:4096" = "4096"
  /\ Py.split_last ":" "abc" = "abc"
  /\ Py.split_last ":" "abc:" = "".
Proof. repeat split; reflexivity. Qed.

Lemma truthy_true_iff (s : string) : Py.truthy s = true <-> s <> "".
Proof. destruct s; simpl; split; congruence. Qed.

Lemma truthy_false_iff (s : string) : Py.truthy s = false <-> s = "".
Proof. destruct s; simpl; split; congruence. Qed.

Lemma substring_drop (a b c : nat) (s : string) :
  substring (a + b) c s = substring b c (Py.drop a s).
Proof.
  revert s; induction a as [|a IH]; intros s; simpl; [reflexivity|].
  destruct s as [|ch s].
  - destruct b, c; reflexivity.
  - apply IH.
Qed.

Lemma substring_length_le (a k : nat) (s : string) :
  (String.length (substring a k s) <= k)%nat.
Proof.
  revert a s; induction k as [|k IH]; intros a s.
  - revert s; induction a as [|a IHa]; intros [|ch s]; simpl; auto.
  - revert s; induction a as [|a IHa]; intros [|ch s]; simpl; auto with arith.
Qed.

Lemma substring_take_drop (k : nat) (s : string) :
  (substring 0 k s ++ Py.drop k s)%string = s.
Proof.
  revert s; induction k as [|k IH]; intros [|ch s]; simpl; try reflexivity.
  now rewrite IH.
Qed.

Lemma drop_length (k : nat) (s : string) :
  String.length (Py.drop k s) = (String.length s - k)%nat.
Proof.
  revert s; induction k as [|k IH]; intros [|ch s]; simpl; auto with arith.
Qed.

Lemma substring_all (k : nat) (s : string) :
  (String.length s <= k)%nat -> substring 0 k s = s.
Proof.
  revert s; induction k as [|k IH]; intros [|ch s]; simpl; intros Hl;
    try reflexivity; try lia.
  rewrite IH; [reflexivity | lia].
Qed.

(** Cutting a string into [m] consecutive pieces of [k] characters loses
    nothing once [m * k] covers its length. *)
Lemma join_pieces (k m : nat) (s : string) :
  (String.length s <= m * k)%nat ->
  Py.join (map (fun j => substring (j * k) k s) (seq 0 m)) = s.
Proof.
  revert s; induction m as [|m IH]; intros s Hl.
  - simpl in *. destruct s; simpl in *; [reflexivity | lia].
  - simpl. rewrite <- seq_shift, map_map.
    rewrite (map_ext _ (fun j => substring (j * k) k (Py.drop k s))).
    + rewrite IH.
      * apply substring_take_drop.
      * rewrite drop_length. simpl in Hl. lia.
    + intros j. simpl. apply substring_drop.
Qed.

(** ** bot_core.chunk_text *)

Example chunk_text_examples :
  BotCore.chunk_text "abcdefghij" 4 = Ok ["abcd"; "efgh"; "ij"]
  /\ BotCore.chunk_text "abcdefgh" 4 = Ok ["abcd"; "efgh"]
  /\ BotCore.chunk_text "abc" 4 = Ok ["abc"]
  /\ BotCore.chunk_text "" 4 = Ok [].
Proof. repeat split; reflexivity. Qed.

(** C9. For every text and every positive size, [chunk_text] returns a list
    of chunks (it does not raise) whose concatenation in order is exactly the
    text, each chunk is at most [size] characters long, and the chunks of the
    empty string are the empty list. *)
Theorem chunk_text_partition (text : string) (size : Z) :
  0 < size ->
  exists chunks,
    BotCore.chunk_text text size = Ok chunks
    /\ Py.join chunks = text
    /\ Forall (fun c => Py.len c <= size) chunks
    /\ (text = "" -> chunks = []).
Proof.
  intros Hsize. unfold BotCore.chunk_text, Py.len.
  destruct (Z.leb_spec (Z.of_nat (String.length text)) size) as [Hle | Hgt].
  - destruct text as [|c text].
    + exists []. repeat split; auto.
    + exists [String c text]. simpl Py.truthy. cbv iota.
      repeat split.
      * simpl. f_equal. clear. induction text; simpl; congruence.
      * constructor; [exact Hle | constructor].
      * discriminate.
  - replace (size =? 0) with false by (symmetry; apply Z.eqb_neq; lia).
    eexists; split; [reflexivity|].
    unfold Py.range.
    replace (0 <? size) with true by (symmetry; apply Z.ltb_lt; lia).
    set (k := Z.to_nat size).
    set (m := Z.to_nat ((Z.of_nat (String.length text) - 0 + size - 1) / size)).
    rewrite map_map.
    rewrite (map_ext _ (fun j => substring (j * k) k text)).
    2:{ intros j. unfold Py.slice. f_equal.
        - subst k. rewrite Z.add_0_l, Z2Nat.inj_mul, Nat2Z.id by lia. reflexivity.
        - subst k. f_equal. lia. }
    repeat split.
    + apply join_pieces.
      assert (Hm : Z.of_nat (String.length text) <= Z.of_nat m * size).
      { subst m. rewrite Z2Nat.id.
        - pose proof (Z.div_mod (Z.of_nat (String.length text) - 0 + size - 1) size
                        ltac:(lia)) as Hdm.
          pose proof (Z.mod_pos_bound
                        (Z.of_nat (String.length text) - 0 + size - 1) size Hsize).
          lia.
        - apply Z.div_pos; lia. }
      subst k. apply Nat2Z.inj_le. rewrite Nat2Z.inj_mul, Z2Nat.id by lia. exact Hm.
    + apply Forall_forall. intros c Hc. apply in_map_iff in Hc.
      destruct Hc as [j [<- _]].
      pose proof (substring_length_le (j * k) k text). subst k. lia.
    + intros ->. simpl in Hgt. lia.
Qed.

Lemma chunk_text_partition_witness :
  0 < 4
  /\ exists chunks,
       BotCore.chunk_text "abcdefghij" 4 = Ok chunks
       /\ Py.join chunks = "abcdefghij"
       /\ Forall (fun c => Py.len c <= 4) chunks
       /\ ("abcdefghij" = "" -> chunks = []).
Proof.
  split; [lia | apply (chunk_text_partition "abcdefghij" 4); lia].
Defined.

(** ** opencode_runner._parse_port_from_base_url *)

Example parse_port_examples :
  Runner._parse_port_from_base_url "http://127.0.0.1:4096" = 4096
  /\ Runner._parse_port_from_base_url "http://localhost" = 80
  /\ Runner._parse_port_from_base_url "https://example.org/api" = 80
  /\ Runner._parse_port_from_base_url "example.org" = 80
  /\ Runner._parse_port_from_base_url "http://host:8080/x:y" = 8080
  /\ Runner._parse_port_from_base_url "http://host:http" = 4096
  /\ Runner._parse_port_from_base_url "http://host:" = 4096.
Proof. repeat split; reflexivity. Qed.

Section ParsePort.
Context {W : Type} `{Runner.OS W}.

Lemma resolve_port_parsed_80 :
  Runner._parse_port_from_base_url Runner.get_base_url = 80 ->
  Runner.resolve_port None = Runner.DEFAULT_PORT
  /\ Runner.resolve_port (Some Runner.DEFAULT_PORT) = Runner.DEFAULT_PORT.
Proof.
  intros H80. unfold Runner.resolve_port. rewrite H80. split; reflexivity.
Qed.

(** C10. [_parse_port_from_base_url] returns an integer for every string:
    the value [int] reads, or the default port 4096 when the body raises,
    which happens exactly when the host-port segment has a colon and what
    follows its last colon is no integer literal.  A URL whose host-port
    segment has no colon gives 80, whatever the scheme.  When the parsed port
    of the configured base URL is 80, [ensure_opencode_running],
    [start_opencode] and [restart_opencode] called without a port work on
    port 4096. *)
Theorem parse_port_total_default_80 :
  (forall url : string,
      (exists n : Z, Runner._parse_port_from_base_url url = n)
      /\ (forall n, Runner._parse_port_body url = Ok n ->
                    Runner._parse_port_from_base_url url = n)
      /\ (forall e, Runner._parse_port_body url = Err e ->
                    Runner._parse_port_from_base_url url = 4096)
      /\ ((exists e, Runner._parse_port_body url = Err e) <->
          (Py.contains (Runner.host_port_of url) ":" = true
           /\ Py.int (Py.split_last ":"%char (Runner.host_port_of url)) = None))
      /\ (Py.contains (Runner.host_port_of url) ":" = false ->
          Runner._parse_port_from_base_url url = 80))
  /\ (Runner._parse_port_from_base_url Runner.get_base_url = 80 ->
      Runner.resolve_port None = 4096
      /\ Runner.resolve_port (Some 4096) = 4096
      /\ (forall log_path cwd st,
             Runner.ensure_opencode_running None log_path cwd st
             = Runner.ensure_opencode_running (Some 4096) log_path cwd st)
      /\ (forall hostname log_path cwd st,
             Runner.start_opencode None hostname log_path cwd st
             = Runner.start_opencode (Some 4096) hostname log_path cwd st)
      /\ (forall log_path cwd st,
             Runner.restart_opencode None log_path cwd st
             = Runner.restart_opencode (Some 4096) log_path cwd st)).
Proof.
  split.
  - intros url. unfold Runner._parse_port_from_base_url, Runner._parse_port_body.
    destruct (Py.contains (Runner.host_port_of url) ":") eqn:Hc.
    + destruct (Py.int (Py.split_last ":"%char (Runner.host_port_of url)))
        as [n|] eqn:Hi.
      * split; [eauto|]. split; [congruence|]. split; [congruence|].
        split; [|congruence].
        split; [intros [e He]; discriminate | intros [_ Hn]; discriminate].
      * split; [eauto|]. split; [congruence|]. split; [reflexivity|].
        split; [|congruence].
        split; [auto | eauto].
    + assert (H80 : (if Py.contains url "https" then 80 else 80) = 80)
        by (destruct (Py.contains url "https"); reflexivity).
      rewrite H80.
      split; [eauto|]. split; [congruence|]. split; [congruence|].
      split; [|reflexivity].
      split; [intros [e He]; discriminate | intros [Hf _]; discriminate].
  - intros H80. destruct (resolve_port_parsed_80 H80) as [Hn Hs].
    change Runner.DEFAULT_PORT with 4096 in Hn, Hs.
    split; [exact Hn|]. split; [exact Hs|].
    unfold Runner.ensure_opencode_running, Runner.start_opencode,
      Runner.restart_opencode.
    rewrite Hn, Hs. repeat split; reflexivity.
Qed.

End ParsePort.

(** ** opencode_client._extract_final_result *)

Lemma is_text_part_iff (p : Client.part) :
  Client.is_text_part p = true
  <-> Client.part_type p = Some "text" /\ exists t, Client.part_text p = Some t.
Proof.
  unfold Client.is_text_part.
  destruct (Client.part_type p) as [ty|], (Client.part_text p) as [t|]; split.
  - intros He. apply String.eqb_eq in He. subst. eauto.
  - intros [Ht _]. injection Ht as ->. reflexivity.
  - discriminate.
  - intros [_ [t Ht]]. discriminate.
  - discriminate.
  - intros [Ht _]. discriminate.
  - discriminate.
  - intros [Ht _]. discriminate.
Qed.

Lemma text_parts_app (l1 l2 : list Client.part) :
  Client.text_parts (l1 ++ l2) = Client.text_parts l1 ++ Client.text_parts l2.
Proof. unfold Client.text_parts. apply flat_map_app. Qed.

Lemma text_parts_none (l : list Client.part) :
  (forall q, In q l -> Client.is_text_part q = false) -> Client.text_parts l = [].
Proof.
  induction l as [|q l IH]; intros Hq; [reflexivity|].
  unfold Client.text_parts in *. simpl. rewrite (Hq q (or_introl eq_refl)).
  simpl. apply IH. intros q' Hin. apply Hq. now right.
Qed.

Example extract_final_result_examples :
  Client._extract_final_result Sample.msg_tool_a_b = "b"
  /\ Client._extract_final_result Sample.msg_tool_only = ""
  /\ Client._extract_final_result {| Client.parts := None |} = ""
  /\ Client._extract_final_result (Sample.msg_of "   ") = "".
Proof. repeat split; reflexivity. Qed.

(** C6, as the specification states it, fails on a message whose last part
    of type "text" carries no text: the specification's reading gives the
    empty string (that part has no text), the code skips the part and returns
    the text of the earlier one. *)
Lemma extract_final_result_skips_textless_part :
  Spec.last_part_of_type_text Sample.msg_a_textless
  = Some Sample.textless_text_part
  /\ Client.part_text Sample.textless_text_part = None
  /\ Spec.extract_final_result Sample.msg_a_textless = ""
  /\ Client._extract_final_result Sample.msg_a_textless = "a"
  /\ Client._extract_final_result Sample.msg_a_textless
     <> Spec.extract_final_result Sample.msg_a_textless.
Proof. repeat split; try reflexivity. discriminate. Qed.

Section ExtractFinalResult.
Context {W : Type} `{BotCore.Deps W}.

(** C6, amended. [_extract_final_result] returns the whitespace-stripped
    text of the last part that has type "text" and carries a text; it returns
    the empty string, without raising, when the message has no such part.
    [handle_message] renders an empty result as the no-textual-result string.
    On the parts [tool], [text "a"], [text " b "] the result is "b". *)
Theorem extract_final_result_last_text_part :
  (forall (m : Client.message) (pre post : list Client.part)
          (p : Client.part) (t : string),
      Client.parts_or_empty m = pre ++ p :: post ->
      Client.part_type p = Some "text" ->
      Client.part_text p = Some t ->
      (forall q, In q post ->
                 ~ (Client.part_type q = Some "text"
                    /\ exists u, Client.part_text q = Some u)) ->
      Client._extract_final_result m = Py.strip t)
  /\ (forall m : Client.message,
         (forall q, In q (Client.parts_or_empty m) ->
                    ~ (Client.part_type q = Some "text"
                       /\ exists u, Client.part_text q = Some u)) ->
         Client._extract_final_result m = "")
  /\ (forall (text : string) (st st1 : BotCore.state W),
         BotCore.deliver text st = (st1, Ok "") ->
         BotCore.handle_message text st = (st1, BotCore.no_text_result))
  /\ Client._extract_final_result Sample.msg_tool_a_b = "b".
Proof.
  assert (Hneg : forall l : list Client.part,
             (forall q, In q l ->
                        ~ (Client.part_type q = Some "text"
                           /\ exists u, Client.part_text q = Some u)) ->
             forall q, In q l -> Client.is_text_part q = false).
  { intros l Hl q Hq. destruct (Client.is_text_part q) eqn:E; [|reflexivity].
    apply is_text_part_iff in E. destruct (Hl q Hq E). }
  split; [|split; [|split]].
  - intros m pre post p t Hparts Hty Htx Hpost.
    unfold Client._extract_final_result. rewrite Hparts.
    rewrite text_parts_app. change (p :: post) with ([p] ++ post).
    rewrite text_parts_app, (text_parts_none post (Hneg post Hpost)).
    assert (Hp : Client.text_parts [p] = [t]).
    { unfold Client.text_parts. simpl.
      replace (Client.is_text_part p) with true
        by (symmetry; apply is_text_part_iff; eauto).
      rewrite Htx. reflexivity. }
    rewrite Hp, app_nil_r, rev_app_distr. reflexivity.
  - intros m Hall. unfold Client._extract_final_result.
    rewrite (text_parts_none _ (Hneg _ Hall)). reflexivity.
  - intros text st st1 Hd. unfold BotCore.handle_message. rewrite Hd. reflexivity.
  - reflexivity.
Qed.

End ExtractFinalResult.

(** ** opencode_client._parse_json *)

Section ParseJson.
Context {W : Type} `{Client.Backend W}.

Lemma occurs_middle (a x b : string) : Spec.occurs x (a ++ x ++ b)%string.
Proof. now exists a, b. Qed.

Lemma occurs_end (a x : string) : Spec.occurs x (a ++ x)%string.
Proof.
  exists a, "". f_equal. clear. induction x; simpl; congruence.
Qed.

Lemma occurs_app_r (x a m : string) : Spec.occurs x m -> Spec.occurs x (a ++ m)%string.
Proof.
  intros [u [v ->]]. exists (a ++ u)%string, v.
  clear. induction a; simpl; congruence.
Qed.

Lemma replace_char_length (a b : ascii) (s : string) :
  String.length (Py.replace_char a b s) = String.length s.
Proof. induction s; simpl; congruence. Qed.

(** C8. [_parse_json] raises a [ValueError] whose message names the
    configured endpoint when the stripped body is empty; when the body is not
    JSON it raises a [ValueError] whose message holds the HTTP status, a
    preview of at most 200 characters of the body and the text of the parse
    error; a value is returned only when [json.loads] produced it. *)
Theorem parse_json_never_defaults (A : Type) (loads : string -> A + string)
    (r : Client.response) :
  let body := Py.strip (Client.text r) in
  let preview := Py.replace_char "010"%char " "%char (substring 0 200 body) in
  (body = "" ->
   exists msg, Client._parse_json loads r = Err (ValueError msg)
               /\ Spec.occurs Client._get_base_url msg
               /\ Spec.occurs (Py.str_of_int (Client.status_code r)) msg)
  /\ (forall e, body <> "" -> loads body = inr e ->
      exists msg, Client._parse_json loads r = Err (ValueError msg)
                  /\ Spec.occurs (Py.str_of_int (Client.status_code r)) msg
                  /\ Spec.occurs preview msg
                  /\ (String.length preview <= 200)%nat
                  /\ Spec.occurs e msg)
  /\ (forall v, Client._parse_json loads r = Ok v ->
                body <> "" /\ loads body = inl v).
Proof.
  intros body preview. unfold Client._parse_json. fold body.
  split; [|split].
  - intros Hb. apply truthy_false_iff in Hb.
    destruct (Py.truthy body); [discriminate|]. unfold negb.
    eexists. split; [reflexivity|]. split.
    + apply occurs_app_r, occurs_app_r, occurs_end.
    + apply occurs_middle.
  - intros e Hb He. apply truthy_true_iff in Hb.
    destruct (Py.truthy body); [|discriminate]. unfold negb.
    rewrite He. fold preview. eexists. split; [reflexivity|].
    split; [|split; [|split]].
    + apply occurs_middle.
    + apply occurs_app_r, occurs_app_r, occurs_middle.
    + subst preview. rewrite replace_char_length. apply substring_length_le.
    + do 4 apply occurs_app_r. apply occurs_end.
  - intros v Hv. destruct (Py.truthy body) eqn:Ht; unfold negb in Hv.
    + split; [now apply truthy_true_iff|].
      destruct (loads body) as [v'|e]; [congruence | discriminate].
    + discriminate.
Qed.

End ParseJson.

(** ** opencode_runner: supervisor *)

Example ensure_when_healthy :
  let r := Runner.ensure_opencode_running None None None (SimOS.start SimOS.healthy) in
  fst (snd r) = true /\ Runner.log (fst r) = [Runner.EvHealth true].
Proof. vm_compute. split; reflexivity. Qed.

Example ensure_when_stopped :
  let r := Runner.ensure_opencode_running None None None (SimOS.start SimOS.stopped) in
  fst (snd r) = true
  /\ Runner.log (fst r)
     = [Runner.EvHealth false; Runner.EvCheckPort 4096 false None;
        Runner.EvMakedirs "/home/bot/bots/2026-01-01" None;
        Runner.EvSpawn ["opencode"; "serve"; "--port"; "4096"; "--hostname"; "127.0.0.1"]
          None "/home/bot/bots/2026-01-01" true (Runner.Spawned 4242);
        Runner.EvSleep 1000; Runner.EvHealth false;
        Runner.EvSleep 1000; Runner.EvHealth false;
        Runner.EvSleep 1000; Runner.EvHealth true].
Proof. vm_compute. split; reflexivity. Qed.

Example ensure_when_port_is_foreign :
  let r := Runner.ensure_opencode_running None None None (SimOS.start SimOS.foreign) in
  fst (snd r) = false
  /\ Runner.log (fst r)
     = [Runner.EvHealth false; Runner.EvCheckPort 4096 true (Some 77);
        Runner.EvHealth false].
Proof. vm_compute. split; reflexivity. Qed.

Example ensure_when_start_is_slow :
  let r := Runner.ensure_opencode_running None None None (SimOS.start SimOS.slow) in
  fst (snd r) = false
  /\ Trace.count Trace.is_spawn (Runner.log (fst r)) = 1%nat
  /\ Trace.count Trace.is_kill (Runner.log (fst r)) = 0%nat
  /\ List.length (Runner.log (fst r)) = 24%nat.
Proof. vm_compute. repeat split; reflexivity. Qed.

Section Supervisor.
Context {W : Type} `{Runner.OS W}.

Import Runner.

Lemma count_app (f : event -> bool) (l1 l2 : list event) :
  Trace.count f (l1 ++ l2) = (Trace.count f l1 + Trace.count f l2)%nat.
Proof. unfold Trace.count. now rewrite filter_app, length_app. Qed.


Lemma is_opencode_healthy_log (st st' : state W) (h : bool) :
  is_opencode_healthy st = (st', h) -> log st' = log st ++ [EvHealth h].
Proof.
  unfold is_opencode_healthy. destruct (http_get_health (world st)) as [w1 reply].
  intros E. injection E as <- <-. reflexivity.
Qed.

Lemma check_port_log (port : Z) (st st' : state W) (in_use : bool)
    (pid : option Z) (cmd : option string) :
  check_port port st = (st', (in_use, pid, cmd)) ->
  log st' = log st ++ [EvCheckPort port in_use pid]
  /\ (in_use = false -> pid = None).
Proof.
  unfold check_port. destruct (connect port (world st)) as [w1 [|]].
  - destruct (_get_process_on_port port w1) as [w2 [pid' cmd']].
    intros E. injection E as <- <- <- <-. split; [reflexivity | discriminate].
  - intros E. injection E as <- <- <- <-. split; reflexivity.
Qed.

Lemma do_sleep_log (ms : Z) (st : state W) :
  log (do_sleep ms st) = log st ++ [EvSleep ms].
Proof. reflexivity. Qed.

Lemma do_kill_log (pid sig : Z) (st st' : state W) (r : kill_result) :
  do_kill pid sig st = (st', r) -> log st' = log st ++ [EvKill pid sig r].
Proof.
  unfold do_kill. destruct (kill pid sig (world st)) as [w1 r'].
  intros E. injection E as <- <-. reflexivity.
Qed.

(** The health loop: at most [n] probes, a second apart, stopping at the
    first healthy one. *)
Lemma wait_healthy_spec (n : nat) (st st' : state W) (ok : bool) :
  wait_healthy n st = (st', ok) ->
  exists evs, log st' = log st ++ evs /\ Trace.bounded_health_poll n 1000 evs ok.
Proof.
  revert st st' ok. induction n as [|n IH]; intros st st' ok; simpl.
  - intros E. injection E as <- <-. exists []. split.
    + now rewrite app_nil_r.
    + exists 0%nat. split; reflexivity.
  - destruct (is_opencode_healthy (do_sleep 1000 st)) as [st2 h] eqn:Eh.
    apply is_opencode_healthy_log in Eh. rewrite do_sleep_log in Eh.
    destruct h.
    + intros E. injection E as <- <-.
      exists [EvSleep 1000; EvHealth true]. split.
      * rewrite Eh, <- app_assoc. reflexivity.
      * exists 0%nat. split; [reflexivity | lia].
    + intros E. destruct (IH _ _ _ E) as [evs [Hlog [failed [Hevs Hb]]]].
      exists ([EvSleep 1000; EvHealth false] ++ evs). split.
      * rewrite Hlog, Eh, <- !app_assoc. reflexivity.
      * exists (S failed). split.
        -- rewrite Hevs. reflexivity.
        -- destruct ok; lia.
Qed.

(** The port loop: at most [n] probes, half a second apart, stopping at the
    first one that finds the port free. *)
Lemma wait_port_free_spec (n : nat) (port : Z) (st st' : state W) (freed : bool) :
  wait_port_free n port st = (st', freed) ->
  exists evs, log st' = log st ++ evs
              /\ Trace.bounded_port_poll n 500 port evs freed.
Proof.
  revert st st' freed. induction n as [|n IH]; intros st st' freed; simpl.
  - intros E. injection E as <- <-. exists []. split.
    + now rewrite app_nil_r.
    + exists []. split; reflexivity.
  - destruct (check_port port (do_sleep 500 st)) as [st2 [[u pid] cmd]] eqn:Ec.
    apply check_port_log in Ec. destruct Ec as [Ec Hpid].
    rewrite do_sleep_log in Ec. destruct u; simpl.
    + intros E. destruct (IH _ _ _ E) as [evs [Hlog [busy [Hevs Hb]]]].
      exists ([EvSleep 500; EvCheckPort port true pid] ++ evs). split.
      * rewrite Hlog, Ec, <- !app_assoc. reflexivity.
      * exists (pid :: busy). split.
        -- rewrite Hevs. reflexivity.
        -- destruct freed; simpl; lia.
    + intros E. injection E as <- <-. rewrite (Hpid eq_refl) in Ec.
      exists [EvSleep 500; EvCheckPort port false None]. split.
      * rewrite Ec, <- app_assoc. reflexivity.
      * exists []. split; [reflexivity | simpl; lia].
Qed.

Lemma resolve_port_idem (port : option Z) :
  resolve_port (Some (resolve_port port)) = resolve_port port.
Proof.
  unfold resolve_port.
  set (q := match port with
            | Some p => if p =? 0 then _parse_port_from_base_url get_base_url else p
            | None => _parse_port_from_base_url get_base_url
            end).
  destruct (Z.eqb_spec q 80) as [E80 | N80].
  - reflexivity.
  - destruct (Z.eqb_spec q 0) as [E0 | N0].
    + assert (Hq : _parse_port_from_base_url get_base_url = q).
      { subst q. destruct port as [p|]; [|reflexivity].
        destruct (Z.eqb_spec p 0); [reflexivity | contradiction]. }
      rewrite Hq. destruct (Z.eqb_spec q 80); [contradiction | reflexivity].
    + destruct (Z.eqb_spec q 80); [contradiction | reflexivity].
Qed.

(** One call of [start_opencode] on an already resolved port. *)
Lemma start_opencode_spec (port : option Z) (log_path cwd : option string)
    (st st' : state W) (ok : bool) (msg : string) :
  start_opencode (Some (resolve_port port)) None log_path cwd st = (st', (ok, msg)) ->
  exists evs,
    log st' = log st ++ evs
    /\ Trace.start_attempt (resolve_port port) (log_target log_path)
         (work_dir_of cwd (world st)) evs ok.
Proof.
  unfold start_opencode. rewrite resolve_port_idem.
  destruct (makedirs (work_dir_of cwd (world st)) (world st)) as [w1 [e|]].
  - intros E. injection E as <- <- <-. eexists. split; [reflexivity|].
    left. exists e. split; reflexivity.
  - cbn [world emit].
    destruct (popen (serve_args (resolve_port port) DEFAULT_HOST)
                (log_target log_path) (work_dir_of cwd (world st)) w1) as [w2 p].
    destruct p; intros E; injection E as <- <- <-;
      (eexists; split; [cbn [log emit]; rewrite <- app_assoc; reflexivity|]);
      right; eexists; split; reflexivity.
Qed.

End Supervisor.

Section EnsureRunning.
Context {W : Type} `{Runner.OS W}.

Import Runner.


End EnsureRunning.

Example restart_when_healthy :
  let r := Runner.restart_opencode None None (Some "/tmp/proj1")
             (SimOS.start SimOS.healthy) in
  fst (snd r) = true
  /\ Runner.log (fst r)
     = [Runner.EvCheckPort 4096 true (Some 100);
        Runner.EvKill 100 15 Runner.Signalled;
        Runner.EvSleep 500; Runner.EvCheckPort 4096 false None;
        Runner.EvSleep 1000;
        Runner.EvMakedirs "/tmp/proj1" None;
        Runner.EvSpawn ["opencode"; "serve"; "--port"; "4096"; "--hostname"; "127.0.0.1"]
          None "/tmp/proj1" true (Runner.Spawned 4242);
        Runner.EvSleep 1000; Runner.EvHealth false;
        Runner.EvSleep 1000; Runner.EvHealth false;
        Runner.EvSleep 1000; Runner.EvHealth true].
Proof. vm_compute. split; reflexivity. Qed.

Example restart_when_term_is_ignored :
  let r := Runner.restart_opencode None None None (SimOS.start SimOS.stubborn) in
  fst (snd r) = true
  /\ Trace.count Trace.is_kill (Runner.log (fst r)) = 2%nat
  /\ In (Runner.EvKill 100 9 Runner.Signalled) (Runner.log (fst r))
  /\ Trace.count Trace.is_spawn (Runner.log (fst r)) = 1%nat.
Proof. vm_compute. repeat split; try reflexivity. tauto. Qed.


Section Restart.
Context {W : Type} `{Runner.OS W}.

Import Runner.

Lemma kill_port_process_spec (port : Z) (st st' : state W) (killed : bool) :
  _kill_port_process port st = (st', killed) ->
  exists evs, log st' = log st ++ evs /\ Trace.termination_phase port evs killed.
Proof.
  unfold _kill_port_process.
  destruct (check_port port st) as [st1 [[u pid] cmd]] eqn:Ec.
  apply check_port_log in Ec. destruct Ec as [Ec Hpid].
  destruct (negb u || negb (truthy_int pid)) eqn:Eno.
  - intros E. injection E as <- <-. eexists. split; [exact Ec|].
    constructor. apply orb_true_iff in Eno.
    destruct Eno as [Hu | Hp]; [left | right]; now apply negb_true_iff.
  - apply orb_false_iff in Eno. destruct Eno as [Hu Hp].
    apply negb_false_iff in Hu, Hp. subst u.
    destruct pid as [q|]; [|discriminate].
    destruct (do_kill q SIGTERM st1) as [st2 kr] eqn:Ek.
    apply do_kill_log in Ek. destruct kr.
    + destruct (wait_port_free 10 port st2) as [st3 freed] eqn:Ew.
      destruct (wait_port_free_spec _ _ _ _ _ Ew) as [pevs [Hlog3 Hpoll]].
      destruct freed.
      * intros E. injection E as <- <-.
        exists ([EvCheckPort port true (Some q); EvKill q SIGTERM Signalled] ++ pevs).
        split; [|now constructor].
        rewrite Hlog3, Ek, Ec, <- !app_assoc. reflexivity.
      * destruct (do_kill q SIGKILL st3) as [st4 kr2] eqn:Ek2.
        apply do_kill_log in Ek2.
        intros E.
        exists ([EvCheckPort port true (Some q); EvKill q SIGTERM Signalled] ++ pevs
                ++ [EvKill q SIGKILL kr2]
                ++ match kr2 with Signalled => [EvSleep 500] | _ => [] end).
        assert (Hk : killed = match kr2 with KillFailed => false | _ => true end
                     /\ log st' = log st4
                          ++ match kr2 with Signalled => [EvSleep 500] | _ => [] end).
        { destruct kr2; injection E as <- <-; split; try reflexivity;
            now rewrite app_nil_r. }
        destruct Hk as [-> Hlog']. split; [|now constructor].
        rewrite Hlog', Ek2, Hlog3, Ek, Ec, <- !app_assoc. reflexivity.
    + intros E. injection E as <- <-. eexists. split; [|apply Trace.term_already_gone].
      rewrite Ek, Ec, <- app_assoc. reflexivity.
    + intros E. injection E as <- <-. eexists. split; [|apply Trace.term_refused].
      rewrite Ek, Ec, <- app_assoc. reflexivity.
Qed.


End Restart.

(** ** bot_core: the stable sort behind [sorted] *)

Section SortLemmas.
Context {A K : Type} (key : A -> K) (lt : K -> K -> bool).

(** [lt] orders the keys of the elements as a strict weak order. *)
Hypothesis lt_asym :
  forall a b : A, lt (key a) (key b) = true -> lt (key b) (key a) = false.
Hypothesis lt_cotrans :
  forall a b c : A,
    lt (key a) (key c) = true ->
    lt (key a) (key b) = true \/ lt (key b) (key c) = true.

Let not_after (a b : A) : Prop := lt (key b) (key a) = false.

Lemma lt_trans_keys (a b c : A) :
  lt (key a) (key b) = true -> lt (key b) (key c) = true ->
  lt (key a) (key c) = true.
Proof.
  intros Hab Hbc. destruct (lt_cotrans a c b Hab) as [Hac | Hcb]; [exact Hac|].
  rewrite (lt_asym _ _ Hbc) in Hcb. discriminate.
Qed.

Lemma insert_sorted_in (x y : A) (l : list A) :
  In y (BotCore.insert_sorted key lt x l) <-> y = x \/ In y l.
Proof.
  induction l as [|z l IH]; simpl.
  - intuition.
  - destruct (lt (key z) (key x)); simpl; rewrite ?IH; intuition.
Qed.

Lemma insert_sorted_sorted (x : A) (l : list A) :
  StronglySorted not_after l ->
  StronglySorted not_after (BotCore.insert_sorted key lt x l).
Proof.
  induction 1 as [|y l Hl IH Hy]; simpl.
  - constructor; constructor.
  - destruct (lt (key y) (key x)) eqn:Eyx.
    + constructor; [exact IH|].
      apply Forall_forall. intros z Hz. apply insert_sorted_in in Hz.
      destruct Hz as [-> | Hz].
      * unfold not_after. now apply lt_asym.
      * rewrite Forall_forall in Hy. now apply Hy.
    + constructor; [constructor; assumption|].
      constructor; [exact Eyx|].
      apply Forall_forall. intros z Hz. rewrite Forall_forall in Hy.
      specialize (Hy z Hz). unfold not_after in *.
      destruct (lt (key z) (key x)) eqn:Ezx; [|reflexivity].
      destruct (lt_cotrans z y x Ezx) as [Hzy | Hyx]; congruence.
Qed.

Lemma stable_sort_sorted (l : list A) :
  StronglySorted not_after (BotCore.stable_sort key lt l).
Proof.
  induction l as [|x l IH]; simpl; [constructor | now apply insert_sorted_sorted].
Qed.

Lemma insert_sorted_nonempty (x : A) (l : list A) :
  BotCore.insert_sorted key lt x l <> [].
Proof. destruct l as [|y l]; simpl; [|destruct (lt (key y) (key x))]; discriminate. Qed.

Lemma stable_sort_nonempty (l : list A) :
  l <> [] -> BotCore.stable_sort key lt l <> [].
Proof.
  destruct l as [|x l]; [congruence|]. intros _. apply insert_sorted_nonempty.
Qed.

Lemma last_cons_nonempty (d y : A) (u : list A) :
  u <> [] -> last (y :: u) d = last u d.
Proof. destruct u; [congruence | reflexivity]. Qed.

(** The greatest element of an insertion: the inserted one when it exceeds
    the old greatest, the old greatest otherwise. *)
Lemma insert_sorted_last (d x : A) (l : list A) :
  l <> [] -> StronglySorted not_after l ->
  last (BotCore.insert_sorted key lt x l) d
  = if lt (key (last l d)) (key x) then x else last l d.
Proof.
  intros Hne Hs. induction Hs as [|y l Hl IH Hy]; [congruence|].
  destruct l as [|z l].
  - simpl. destruct (lt (key y) (key x)); reflexivity.
  - assert (Hz : z :: l <> []) by discriminate.
    specialize (IH Hz).
    change (last (y :: z :: l) d) with (last (z :: l) d).
    change (BotCore.insert_sorted key lt x (y :: z :: l))
      with (if lt (key y) (key x)
            then y :: BotCore.insert_sorted key lt x (z :: l)
            else x :: y :: z :: l).
    destruct (lt (key y) (key x)) eqn:Eyx.
    + rewrite last_cons_nonempty by apply insert_sorted_nonempty. exact IH.
    + change (last (x :: y :: z :: l) d) with (last (z :: l) d).
      destruct (lt (key (last (z :: l) d)) (key x)) eqn:Emx; [|reflexivity].
      exfalso.
      assert (Hin : In (last (z :: l) d) (z :: l)).
      { clear. revert z. induction l as [|a l IHl]; intros z.
        - left. reflexivity.
        - right. apply (IHl a). }
      rewrite Forall_forall in Hy. specialize (Hy _ Hin). unfold not_after in Hy.
      destruct (lt_cotrans _ y _ Emx) as [Hmy | Hyx]; congruence.
Qed.

(** The last element of the stable ascending sort is the last greatest
    element of the input: what follows it there is strictly smaller, what
    precedes it is not greater. *)
Lemma stable_sort_last (d : A) (l : list A) :
  l <> [] ->
  exists before after,
    l = before ++ last (BotCore.stable_sort key lt l) d :: after
    /\ (forall z, In z after ->
                  lt (key z) (key (last (BotCore.stable_sort key lt l) d)) = true)
    /\ (forall z, In z before ->
                  lt (key (last (BotCore.stable_sort key lt l) d)) (key z) = false).
Proof.
  induction l as [|x l IH]; [congruence|]. intros _.
  destruct l as [|y l].
  - exists [], []. simpl. repeat split; intros z [].
  - assert (Hne : y :: l <> []) by discriminate.
    specialize (IH Hne). destruct IH as [before [after [Hl [Hafter Hbefore]]]].
    change (BotCore.stable_sort key lt (x :: y :: l))
      with (BotCore.insert_sorted key lt x (BotCore.stable_sort key lt (y :: l))).
    rewrite insert_sorted_last
      by (auto using stable_sort_nonempty, stable_sort_sorted).
    set (m := last (BotCore.stable_sort key lt (y :: l)) d) in *.
    destruct (lt (key m) (key x)) eqn:Emx.
    + exists [], (y :: l). split; [reflexivity|]. split; [|intros z []].
      intros z Hz. rewrite Hl in Hz. apply in_app_or in Hz.
      destruct Hz as [Hz | [<- | Hz]].
      * specialize (Hbefore z Hz).
        destruct (lt_cotrans m z x Emx) as [Hmz | Hzx]; congruence.
      * exact Emx.
      * apply (lt_trans_keys z m x); auto.
    + exists (x :: before), after. split; [simpl; now rewrite <- Hl|].
      split; [exact Hafter|].
      intros z [<- | Hz]; auto.
Qed.

Lemma rev_head_last (d : A) (l : list A) :
  l <> [] -> exists t, rev l = last l d :: t.
Proof.
  intros Hne. destruct (exists_last Hne) as [l' [a ->]].
  rewrite last_last, rev_app_distr. simpl. eauto.
Qed.

(** The head of [sorted(l, key=key, reverse=True)] is the first greatest
    element of [l]: what precedes it in [l] is strictly smaller, what follows
    it is not greater. *)
Lemma sorted_reverse_head (l : list A) :
  l <> [] ->
  exists sel rest pre post,
    BotCore.sorted key lt true l = sel :: rest
    /\ l = pre ++ sel :: post
    /\ (forall z, In z pre -> lt (key z) (key sel) = true)
    /\ (forall z, In z post -> lt (key sel) (key z) = false).
Proof.
  intros Hne. destruct l as [|d l0]; [congruence|].
  set (l := d :: l0) in *.
  assert (Hrev : rev l <> []).
  { intros E. apply (f_equal (@rev A)) in E. rewrite rev_involutive in E.
    simpl in E. congruence. }
  destruct (stable_sort_last d (rev l) Hrev) as [before [after [Hl [Ha Hb]]]].
  destruct (rev_head_last d (BotCore.stable_sort key lt (rev l))
              (stable_sort_nonempty _ Hrev)) as [t Ht].
  set (sel := last (BotCore.stable_sort key lt (rev l)) d) in *.
  exists sel, t, (rev after), (rev before).
  split; [exact Ht|]. split.
  - apply (f_equal (@rev A)) in Hl. rewrite rev_involutive in Hl.
    rewrite Hl, rev_app_distr. simpl. now rewrite <- app_assoc.
  - split; intros z Hz; apply in_rev in Hz; auto.
Qed.

End SortLemmas.

(** ** bot_core.handle_restart_opencode *)

Example restart_resumes_example :
  BotCore.current_session_id
    (fst (BotCore.handle_restart_opencode None
            (SimBackend.start (Some "s0") SimBackend.mixed_times)))
  = Some "s2".
Proof. reflexivity. Qed.

Lemma key_lt_asym (a b : Client.session) :
  BotCore.key_lt (BotCore.sort_key a) (BotCore.sort_key b) = true ->
  BotCore.key_lt (BotCore.sort_key b) (BotCore.sort_key a) = false.
Proof.
  unfold BotCore.key_lt, BotCore.sort_key.
  destruct (Client.sess_time a) as [ta|], (Client.sess_time b) as [tb|];
    try destruct (Z.eqb_spec ta 0); try destruct (Z.eqb_spec tb 0);
    simpl; try discriminate; try reflexivity.
  intros Hlt. apply Z.ltb_lt in Hlt. apply Z.ltb_ge. lia.
Qed.

Lemma key_lt_cotrans (a b c : Client.session) :
  BotCore.key_lt (BotCore.sort_key a) (BotCore.sort_key c) = true ->
  BotCore.key_lt (BotCore.sort_key a) (BotCore.sort_key b) = true
  \/ BotCore.key_lt (BotCore.sort_key b) (BotCore.sort_key c) = true.
Proof.
  unfold BotCore.key_lt, BotCore.sort_key.
  destruct (Client.sess_time a) as [ta|], (Client.sess_time b) as [tb|],
    (Client.sess_time c) as [tc|];
    try destruct (Z.eqb_spec ta 0); try destruct (Z.eqb_spec tb 0);
    try destruct (Z.eqb_spec tc 0);
    simpl; try discriminate; auto.
  intros Hlt. apply Z.ltb_lt in Hlt.
  destruct (Z.ltb_spec ta tb); [now left|]. right. apply Z.ltb_lt. lia.
Qed.

(** What [key_lt] means on sessions: no activity time sorts below any
    activity time, and two activity times compare as numbers. *)
Lemma key_lt_sessions (a b : Client.session) :
  BotCore.key_lt (BotCore.sort_key a) (BotCore.sort_key b) = true
  <-> (Orchestrator.has_time b = true
       /\ (Orchestrator.has_time a = false
           \/ Orchestrator.time_of a < Orchestrator.time_of b)).
Proof.
  unfold BotCore.key_lt, BotCore.sort_key, Orchestrator.has_time,
    Orchestrator.time_of.
  destruct (Client.sess_time a) as [ta|], (Client.sess_time b) as [tb|];
    try destruct (Z.eqb_spec ta 0); try destruct (Z.eqb_spec tb 0);
    simpl; split; try discriminate; try tauto;
    try (intros [? [? | ?]]; try discriminate; try lia; fail);
    try (intros; split; [reflexivity | left; reflexivity]; fail).
  intros Hlt. apply Z.ltb_lt in Hlt. auto.
Qed.

Section ResumeMostRecent.
Context {W : Type} `{BotCore.Deps W}.

Import Client BotCore.

(** C7. After a successful restart by [handle_restart_opencode], when the
    re-queried session list is not empty, the current session id becomes the
    id of the entry that the sort puts first: the entry with the greatest key
    (an entry with an activity time is above every entry without one; among
    entries with a time the later time is above), and, among equal keys, the
    one the backend listed first.  So whenever some listed session has an
    activity time, the selected one has the latest. *)
Theorem restart_resumes_most_recent (log_path : option string)
    (st st1 st3 : state W) (msg : string) (sessions : list session) :
  call_restart log_path (restart_cwd st) (set_cwd (Some (restart_cwd st)) st)
  = (st1, (true, msg)) ->
  call_list_sessions (set_current None st1) = (st3, Ok sessions) ->
  sessions <> [] ->
  exists pre sel post,
    sessions = pre ++ sel :: post
    /\ handle_restart_opencode log_path st
       = (set_current (sess_id sel) st3, (true, msg))
    /\ (forall s, In s pre -> key_lt (sort_key s) (sort_key sel) = true)
    /\ (forall s, In s post -> key_lt (sort_key sel) (sort_key s) = false)
    /\ (forall s, In s sessions -> Orchestrator.has_time s = true ->
                  Orchestrator.has_time sel = true
                  /\ Orchestrator.time_of s <= Orchestrator.time_of sel).
Proof.
  intros Hr Hl Hne.
  destruct (sorted_reverse_head sort_key key_lt key_lt_asym key_lt_cotrans
              sessions Hne)
    as [sel [rest [pre [post [Hsorted [Hsplit [Hpre Hpost]]]]]]].
  exists pre, sel, post. split; [exact Hsplit|].
  split; [|split; [exact Hpre|split; [exact Hpost|]]].
  - unfold handle_restart_opencode. rewrite Hr. simpl negb. cbv iota.
    rewrite Hl. rewrite Hsorted.
    destruct sessions; [congruence | reflexivity].
  - intros s Hin Hs. rewrite Hsplit in Hin. apply in_app_or in Hin.
    destruct Hin as [Hin | [<- | Hin]].
    + apply Hpre, key_lt_sessions in Hin. destruct Hin as [Hsel [Hf | Hlt]].
      * congruence.
      * split; [exact Hsel | lia].
    + split; [exact Hs | lia].
    + specialize (Hpost s Hin).
      destruct (Orchestrator.has_time sel) eqn:Esel.
      * split; [reflexivity|].
        destruct (Z.lt_ge_cases (Orchestrator.time_of sel) (Orchestrator.time_of s))
          as [Hlt | Hge]; [|lia].
        assert (Hk : key_lt (sort_key sel) (sort_key s) = true)
          by (apply key_lt_sessions; auto).
        congruence.
      * assert (Hk : key_lt (sort_key sel) (sort_key s) = true)
          by (apply key_lt_sessions; auto).
        congruence.
Qed.

End ResumeMostRecent.

Lemma restart_resumes_most_recent_witness :
  exists pre sel post,
    SimBackend.listed SimBackend.mixed_times = pre ++ sel :: post
    /\ BotCore.handle_restart_opencode None
         (SimBackend.start (Some "s0") SimBackend.mixed_times)
       = (BotCore.set_current (Client.sess_id sel)
            (fst (BotCore.call_list_sessions
                    (BotCore.set_current None
                       (fst (BotCore.call_restart None "/home/bot/bots/2026-01-01"
                               (BotCore.set_cwd (Some "/home/bot/bots/2026-01-01")
                                  (SimBackend.start (Some "s0")
                                     SimBackend.mixed_times))))))),
          (true, "restarted"))
    /\ (forall s, In s pre ->
                  BotCore.key_lt (BotCore.sort_key s) (BotCore.sort_key sel) = true)
    /\ (forall s, In s post ->
                  BotCore.key_lt (BotCore.sort_key sel) (BotCore.sort_key s) = false)
    /\ (forall s, In s (SimBackend.listed SimBackend.mixed_times) ->
                  Orchestrator.has_time s = true ->
                  Orchestrator.has_time sel = true
                  /\ Orchestrator.time_of s <= Orchestrator.time_of sel).
Proof.
  apply (restart_resumes_most_recent None
           (SimBackend.start (Some "s0") SimBackend.mixed_times)
           (fst (BotCore.call_restart None "/home/bot/bots/2026-01-01"
                   (BotCore.set_cwd (Some "/home/bot/bots/2026-01-01")
                      (SimBackend.start (Some "s0") SimBackend.mixed_times))))
           (fst (BotCore.call_list_sessions
                   (BotCore.set_current None
                      (fst (BotCore.call_restart None "/home/bot/bots/2026-01-01"
                              (BotCore.set_cwd (Some "/home/bot/bots/2026-01-01")
                                 (SimBackend.start (Some "s0")
                                    SimBackend.mixed_times)))))))
           "restarted" (SimBackend.listed SimBackend.mixed_times));
    [reflexivity | reflexivity | discriminate].
Defined.

(** ** bot_core: the current session pointer *)

Example get_or_create_examples :
  (* a cached id the backend lists is reused *)
  snd (BotCore.get_or_create_session (SimBackend.start (Some "ses_a") SimBackend.stale))
  = Ok "ses_a"
  (* a cached id the backend does not list is dropped for the first listed one *)
  /\ snd (BotCore.get_or_create_session (SimBackend.start (Some "gone") SimBackend.stale))
     = Ok "ses_a"
  (* nothing cached, nothing listed: a session is created *)
  /\ snd (BotCore.get_or_create_session (SimBackend.start None SimBackend.empty))
     = Ok "ses_new"
  /\ BotCore.log (fst (BotCore.get_or_create_session
                         (SimBackend.start None SimBackend.empty)))
     = [BotCore.EvListSessions (Ok []);
        BotCore.EvCreateSession (Ok (SimBackend.ses "ses_new" (Some 1)))].
Proof. repeat split; reflexivity. Qed.

(** C5, as the specification states it, fails: [switch_session] stores any
    id it is given.  With a backend that lists no session, the empty pointer
    satisfies the invariant and the pointer after [switch_session "ghost"]
    does not. *)
Lemma switch_session_breaks_listed_invariant :
  Orchestrator.pointer_is_listed (SimBackend.start None SimBackend.empty)
  /\ ~ Orchestrator.pointer_is_listed
         (BotCore.switch_session "ghost" (SimBackend.start None SimBackend.empty)).
Proof.
  split.
  - intros cur Hcur. discriminate.
  - intros Hinv. destruct (Hinv "ghost" eq_refl eq_refl) as [ss [Hss Hin]].
    simpl in Hss. injection Hss as <-. destruct Hin.
Qed.

Section SessionPointer.
Context {W : Type} `{BotCore.Deps W}.

Import Client BotCore.

Lemma mem_iff (x : string) (ids : list string) : mem x ids = true <-> In x ids.
Proof.
  unfold mem. rewrite existsb_exists. split.
  - intros [y [Hy He]]. apply String.eqb_eq in He. now subst.
  - intros Hin. exists x. split; [exact Hin | apply String.eqb_refl].
Qed.

Lemma call_list_sessions_log (st st' : state W) (r : result (list session)) :
  call_list_sessions st = (st', r) ->
  log st' = log st ++ [EvListSessions r]
  /\ current_session_id st' = current_session_id st.
Proof.
  unfold call_list_sessions. destruct (list_sessions (world st)) as [w' r'].
  intros E. injection E as <- <-. split; reflexivity.
Qed.

Lemma call_create_session_log (st st' : state W) (r : result session) :
  call_create_session st = (st', r) ->
  log st' = log st ++ [EvCreateSession r]
  /\ current_session_id st' = current_session_id st.
Proof.
  unfold call_create_session. destruct (create_session (world st)) as [w' r'].
  intros E. injection E as <- <-. split; reflexivity.
Qed.


(** The fallback of [get_or_create_session]: it never sends; when it returns
    an id the pointer holds that id, which the backend just listed first or
    just created; when it raises the pointer is as it was. *)
Lemma obtain_session_spec (st st' : state W) (r : result string) :
  obtain_session st = (st', r) ->
  exists evs,
    log st' = log st ++ evs
    /\ Orchestrator.sends evs = 0%nat
    /\ match r with
       | Ok i => current_session_id st' = Some i
                 /\ Orchestrator.fresh_session i evs
       | Err _ => current_session_id st' = current_session_id st
       end.
Proof.
  unfold obtain_session, bind, lift.
  destruct (call_list_sessions st) as [st1 r1] eqn:El.
  apply call_list_sessions_log in El. destruct El as [Hl1 Hc1].
  destruct r1 as [sessions | e].
  - destruct sessions as [|first rest].
    + destruct (call_create_session st1) as [st2 r2] eqn:Ec.
      apply call_create_session_log in Ec. destruct Ec as [Hl2 Hc2].
      destruct r2 as [s | e].
      * unfold subscript_id. destruct (sess_id s) as [i|] eqn:Ei.
        -- intros E. injection E as <- <-.
           exists [EvListSessions (Ok []); EvCreateSession (Ok s)].
           split; [simpl; rewrite Hl2, Hl1, <- app_assoc; reflexivity|].
           split; [reflexivity|]. split; [reflexivity|].
           right. exists s. split; [reflexivity | exact Ei].
        -- intros E. injection E as <- <-.
           exists [EvListSessions (Ok []); EvCreateSession (Ok s)].
           split; [rewrite Hl2, Hl1, <- app_assoc; reflexivity|].
           split; [reflexivity|]. congruence.
      * intros E. injection E as <- <-.
        exists [EvListSessions (Ok []); EvCreateSession (Err e)].
        split; [rewrite Hl2, Hl1, <- app_assoc; reflexivity|].
        split; [reflexivity|]. congruence.
    + unfold subscript_id. destruct (sess_id first) as [i|] eqn:Ei.
      * intros E. injection E as <- <-.
        exists [EvListSessions (Ok (first :: rest))].
        split; [simpl; exact Hl1|]. split; [reflexivity|].
        split; [reflexivity|]. left. exists first, rest. split; [reflexivity | exact Ei].
      * intros E. injection E as <- <-.
        exists [EvListSessions (Ok (first :: rest))].
        split; [exact Hl1|]. split; [reflexivity|]. exact Hc1.
  - intros E. injection E as <- <-.
    exists [EvListSessions (Err e)]. split; [exact Hl1|].
    split; [reflexivity|]. exact Hc1.
Qed.


End SessionPointer.

Section PointerInvariant.
Context {W : Type} `{BotCore.Deps W}.

Import Client BotCore.

Lemma get_or_create_empty (st : state W) :
  truthy_opt (current_session_id st) = false ->
  get_or_create_session st = obtain_session st.
Proof.
  unfold get_or_create_session, truthy_opt.
  destruct (current_session_id st) as [cur|]; [|reflexivity].
  intros ->. reflexivity.
Qed.

Lemma get_or_create_cached (st st1 : state W) (cur : string)
    (r : result (list session)) :
  current_session_id st = Some cur -> Py.truthy cur = true ->
  call_list_sessions st = (st1, r) ->
  get_or_create_session st
  = match r with
    | Ok ss => if mem cur (listed_ids ss) then (st1, Ok cur)
               else obtain_session (set_current None st1)
    | Err _ => obtain_session (set_current None st1)
    end.
Proof.
  intros Hcur Ht Hl. unfold get_or_create_session. rewrite Hcur, Ht, Hl.
  destruct r; reflexivity.
Qed.

(** C5, amended.  The pointer is verified lazily, by [get_or_create_session]:
    - a non-empty pointer is checked against the backend's session list; a
      listed id is reused, and when the verification fails (the id is absent,
      or the listing raises) the pointer is reset to empty without an
      exception leaving the check, and the get-or-create fallback runs;
    - when [get_or_create_session] returns an id, the pointer holds that id,
      and the backend listed it or created it during that very call;
    - when [get_or_create_session] raises, the pointer is empty;
    - [switch_session] stores the id it is given without asking the backend,
      so between two calls of [get_or_create_session] a non-empty pointer
      need not be listed. *)
Theorem session_pointer_lazy_verification :
  (forall (st st1 : state W) (cur : string) (r : result (list session)),
      current_session_id st = Some cur -> Py.truthy cur = true ->
      call_list_sessions st = (st1, r) ->
      (forall ss, r = Ok ss -> In cur (listed_ids ss) ->
                  get_or_create_session st = (st1, Ok cur)
                  /\ current_session_id st1 = Some cur)
      /\ (Orchestrator.verification_failed cur (EvListSessions r) ->
          get_or_create_session st = obtain_session (set_current None st1)
          /\ current_session_id (set_current None st1) = None))
  /\ (forall st : state W,
         truthy_opt (current_session_id st) = false ->
         get_or_create_session st = obtain_session st)
  /\ (forall (st st' : state W) (i : string),
         get_or_create_session st = (st', Ok i) ->
         current_session_id st' = Some i
         /\ exists evs,
             log st' = log st ++ evs
             /\ ((exists ss, evs = [EvListSessions (Ok ss)]
                             /\ In i (listed_ids ss)
                             /\ current_session_id st = Some i)
                 \/ (exists cur ev evs',
                        evs = ev :: evs'
                        /\ current_session_id st = Some cur
                        /\ Orchestrator.verification_failed cur ev
                        /\ Orchestrator.fresh_session i evs')
                 \/ Orchestrator.fresh_session i evs))
  /\ (forall (st st' : state W) (e : exn),
         get_or_create_session st = (st', Err e) ->
         truthy_opt (current_session_id st') = false)
  /\ (forall (session_id : string) (st : state W),
         current_session_id (switch_session session_id st) = Some session_id
         /\ log (switch_session session_id st) = log st
         /\ world (switch_session session_id st) = world st).
Proof.
  split; [|split; [exact get_or_create_empty|split; [|split]]].
  - intros st st1 cur r Hcur Ht Hl.
    rewrite (get_or_create_cached st st1 cur r Hcur Ht Hl).
    apply call_list_sessions_log in Hl. destruct Hl as [_ Hc].
    split.
    + intros ss -> Hin. apply mem_iff in Hin. rewrite Hin.
      split; [reflexivity | congruence].
    + intros [[e He] | [ss [He Hnot]]].
      * injection He as ->. split; reflexivity.
      * injection He as ->.
        destruct (mem cur (listed_ids ss)) eqn:Em.
        -- apply mem_iff in Em. contradiction.
        -- split; reflexivity.
  - intros st st' i Hg.
    destruct (truthy_opt (current_session_id st)) eqn:Et.
    + unfold truthy_opt in Et.
      destruct (current_session_id st) as [cur|] eqn:Hcur; [|discriminate].
      destruct (call_list_sessions st) as [st1 r] eqn:Hl.
      rewrite (get_or_create_cached st st1 cur r Hcur Et Hl) in Hg.
      apply call_list_sessions_log in Hl. destruct Hl as [Hlog1 Hc1].
      assert (Hfall :
        forall failed : Orchestrator.verification_failed cur (EvListSessions r),
          obtain_session (set_current None st1) = (st', Ok i) ->
          current_session_id st' = Some i
          /\ exists evs, log st' = log st ++ evs
               /\ ((exists ss, evs = [EvListSessions (Ok ss)]
                               /\ In i (listed_ids ss) /\ Some cur = Some i)
                   \/ (exists cur0 ev evs',
                          evs = ev :: evs' /\ Some cur = Some cur0
                          /\ Orchestrator.verification_failed cur0 ev
                          /\ Orchestrator.fresh_session i evs')
                   \/ Orchestrator.fresh_session i evs)).
      { intros failed Ho. apply obtain_session_spec in Ho.
        destruct Ho as [evs [Hlog [_ [Hp Hfresh]]]]. split; [exact Hp|].
        exists (EvListSessions r :: evs). split.
        - simpl in Hlog. rewrite Hlog, Hlog1, <- app_assoc. reflexivity.
        - right. left. exists cur, (EvListSessions r), evs. auto. }
      destruct r as [ss | e].
      * destruct (mem cur (listed_ids ss)) eqn:Em.
        -- injection Hg as <- <-. split; [congruence|].
           exists [EvListSessions (Ok ss)]. split; [exact Hlog1|].
           left. exists ss. apply mem_iff in Em. auto.
        -- apply Hfall; [|exact Hg]. right. exists ss. split; [reflexivity|].
           intros Hin. apply mem_iff in Hin. congruence.
      * apply Hfall; [|exact Hg]. left. eauto.
    + rewrite (get_or_create_empty st Et) in Hg.
      apply obtain_session_spec in Hg.
      destruct Hg as [evs [Hlog [_ [Hp Hfresh]]]]. split; [exact Hp|].
      exists evs. auto.
  - intros st st' e Hg.
    destruct (truthy_opt (current_session_id st)) eqn:Et.
    + unfold truthy_opt in Et.
      destruct (current_session_id st) as [cur|] eqn:Hcur; [|discriminate].
      destruct (call_list_sessions st) as [st1 r] eqn:Hl.
      rewrite (get_or_create_cached st st1 cur r Hcur Et Hl) in Hg.
      assert (Hfall : obtain_session (set_current None st1) = (st', Err e) ->
                      truthy_opt (current_session_id st') = false).
      { intros Ho. apply obtain_session_spec in Ho.
        destruct Ho as [evs [_ [_ Hp]]]. rewrite Hp. reflexivity. }
      destruct r as [ss | e0]; [|now apply Hfall].
      destruct (mem cur (listed_ids ss)); [discriminate | now apply Hfall].
    + rewrite (get_or_create_empty st Et) in Hg.
      apply obtain_session_spec in Hg.
      destruct Hg as [evs [_ [_ Hp]]]. now rewrite Hp.
  - intros session_id st. repeat split.
Qed.

End PointerInvariant.

(** ** bot_core.handle_message *)

Example handle_message_stale_session :
  let r := BotCore.handle_message "ping" (SimBackend.start (Some "ses_a") SimBackend.stale) in
  snd r = "hi"
  /\ BotCore.log (fst r)
     = [BotCore.EvListSessions (Ok [SimBackend.ses "ses_a" (Some 5)]);
        BotCore.EvSendMessage "ses_a" "ping"
          (Err (HTTPStatusError 404 "Client error '404 Not Found'"));
        BotCore.EvListSessions (Ok [SimBackend.ses "ses_a" (Some 5)]);
        BotCore.EvSendMessage "ses_a" "ping" (Ok "hi")].
Proof. vm_compute. split; reflexivity. Qed.

Example handle_message_timeout :
  let r := BotCore.handle_message "ping"
             (SimBackend.start (Some "ses_a") SimBackend.slow_prompt) in
  snd r = BotCore.timeout_guidance
  /\ Orchestrator.sends (BotCore.log (fst r)) = 1%nat.
Proof. vm_compute. split; reflexivity. Qed.

(** A timeout of the retry is reported in the plain failure form. *)
Example handle_message_timeout_in_retry :
  let r := BotCore.handle_message "ping"
             (SimBackend.start (Some "ses_a") SimBackend.stale_then_timeout) in
  snd r = BotCore.failure_report (TimeoutException "timed out")
  /\ Orchestrator.sends (BotCore.log (fst r)) = 2%nat.
Proof. vm_compute. split; reflexivity. Qed.

Section HandleMessage.
Context {W : Type} `{BotCore.Deps W}.

Import Client BotCore.










End HandleMessage.


(** ** opencode_client.send_message_async_poll *)

Example async_poll_returns_answer :
  exists st',
    Client.send_message_async_poll 30 "ses_a" "ping" (SimHttp.start SimHttp.answers)
    = Some (st', Ok "pong")
    /\ List.length (Client.log st') = 10%nat.
Proof. eexists. vm_compute. split; reflexivity. Qed.

Example async_poll_times_out :
  exists st',
    Client.send_message_async_poll 30 "ses_a" "ping" (SimHttp.start SimHttp.silent)
    = Some (st', Err Polling.poll_timeout)
    /\ 60000 <= Client.monotonic (Client.world st').
Proof. eexists. vm_compute. split; [reflexivity | discriminate]. Qed.

Example async_poll_propagates_poll_failure :
  exists st',
    Client.send_message_async_poll 30 "ses_a" "ping" (SimHttp.start SimHttp.breaks)
    = Some (st', Err (HTTPStatusError 500 "Server error '500 Internal Server Error'")).
Proof. eexists. vm_compute. reflexivity. Qed.

Section AsyncPoll.
Context {W : Type} `{Client.Backend W}.

Import Client.

Lemma request_spec (tmo : Z) (req : http_request) (st st' : state W)
    (r : result response) :
  request tmo req st = (st', r) ->
  log st' = log st ++ [EvRequest tmo req r]
  /\ world st' = fst (http tmo req (world st)).
Proof.
  unfold request. destruct (http tmo req (world st)) as [w' r'].
  intros E. injection E as <- <-. split; reflexivity.
Qed.

Lemma get_messages_spec (session_id : string) (limit : Z) (st st' : state W)
    (r : result (list message)) :
  _get_messages session_id limit st = (st', r) ->
  exists raw,
    log st' = log st
              ++ [EvRequest 15000
                    (GET ("/session/" ++ session_id ++ "/message") (Some limit)) raw]
    /\ Polling.observed raw = r
    /\ world st'
       = fst (http 15000 (GET ("/session/" ++ session_id ++ "/message") (Some limit))
                (world st)).
Proof.
  unfold _get_messages, bind, lift.
  destruct (request 15000 (GET ("/session/" ++ session_id ++ "/message") (Some limit)) st)
    as [st1 raw] eqn:Er.
  apply request_spec in Er. destruct Er as [Hlog Hw].
  destruct raw as [resp | e]; intros E; injection E as <- <-;
    eexists; (split; [exact Hlog|]); split; try reflexivity; exact Hw.
Qed.

(** What the loop did, whenever it ended. *)
Lemma poll_loop_spec (session_id : string) (n_before deadline : Z) (fuel : nat)
    (st st' : state W) (res : result string) :
  poll_loop fuel session_id n_before deadline st = Some (st', res) ->
  exists evs,
    log st' = log st ++ evs
    /\ Polling.poll_outcome session_id n_before deadline evs
         (monotonic (world st')) res.
Proof.
  revert st. induction fuel as [|fuel IH]; intros st; simpl; [discriminate|].
  destruct (Z.ltb_spec (monotonic (world st)) deadline) as [Hlt | Hge].
  - destruct (_get_messages session_id 10
                {| world := sleep 3000 (world st); log := log st ++ [EvSleep 3000] |})
      as [st2 r] eqn:Eg.
    destruct (get_messages_spec _ _ _ _ _ Eg) as [raw [Hlog2 [Hobs _]]].
    simpl in Hlog2.
    assert (Hround : log st2 = log st ++ Polling.poll_round session_id raw).
    { rewrite Hlog2, <- app_assoc. reflexivity. }
    assert (Hrec :
      Polling.decisive n_before
        (match r with Ok m => m | Err _ => [] end) = None ->
      forall messages, r = Ok messages ->
      poll_loop fuel session_id n_before deadline st2 = Some (st', res) ->
      exists evs,
        log st' = log st ++ evs
        /\ Polling.poll_outcome session_id n_before deadline evs
             (monotonic (world st')) res).
    { intros Hdec messages -> Hloop.
      destruct (IH _ Hloop) as [evs [Hlog [quiet [final [Hevs [Hq Hres]]]]]].
      exists (Polling.poll_round session_id raw ++ evs). split.
      - rewrite Hlog, Hround, <- app_assoc. reflexivity.
      - exists (raw :: quiet), final. split; [rewrite Hevs; reflexivity|].
        split; [|exact Hres].
        constructor; [|exact Hq]. exists messages. split; assumption. }
    destruct r as [messages | e].
    + pose proof (Hrec) as Hrec'. unfold Polling.decisive in Hrec'.
      destruct (n_before <? Z.of_nat (Datatypes.length messages)) eqn:Egrow.
      * destruct (Py.truthy (_extract_final_result (last messages {| parts := None |})))
          eqn:Etext.
        -- intros E. injection E as <- <-.
           exists (Polling.poll_round session_id raw). split; [exact Hround|].
           exists [], [raw]. split; [reflexivity|]. split; [constructor|].
           exists raw, messages. split; [reflexivity|]. split; [exact Hobs|].
           split; [now apply Z.ltb_lt|]. split; [reflexivity|].
           now apply truthy_true_iff.
        -- intros Hloop. apply (Hrec' eq_refl messages eq_refl Hloop).
      * intros Hloop. apply (Hrec' eq_refl messages eq_refl Hloop).
    + intros E. injection E as <- <-.
      exists (Polling.poll_round session_id raw). split; [exact Hround|].
      exists [], [raw]. split; [reflexivity|]. split; [constructor|].
      left. exists raw. split; [reflexivity | exact Hobs].
  - intros E. injection E as <- <-. exists []. split; [now rewrite app_nil_r|].
    exists [], []. split; [reflexivity|]. split; [constructor|].
    right. repeat split. exact Hge.
Qed.




Section WithClock.

(** The clock: a sleep of [d] milliseconds moves it by at least [d], and no
    HTTP exchange moves it back. *)
Hypothesis sleep_advances :
  forall (d : Z) (w : W), monotonic w + d <= monotonic (sleep d w).
Hypothesis http_monotone :
  forall (tmo : Z) (req : http_request) (w : W),
    monotonic w <= monotonic (fst (http tmo req w)).



End WithClock.

End AsyncPoll.



(* ===================================================================== *)
(** * Part III. Further properties of the code                            *)
(* ===================================================================== *)

(** ** opencode_runner: what a run looks like *)

Section SupervisorRuns.
Context {W : Type} `{Runner.OS W}.

Import Runner.

Lemma ensure_run_shape (port : option Z) (log_path cwd : option string)
    (st : state W) :
  exists (evs : list event) (work_dir : string),
    log (fst (ensure_opencode_running port log_path cwd st)) = log st ++ evs
    /\ Shape.ensure_run (resolve_port port) (log_target log_path) work_dir evs
         (fst (snd (ensure_opencode_running port log_path cwd st))).
Proof.
  unfold ensure_opencode_running.
  destruct (is_opencode_healthy st) as [st1 h1] eqn:Eh.
  apply is_opencode_healthy_log in Eh. destruct h1.
  - exists [EvHealth true], "". split; [exact Eh | constructor].
  - destruct (check_port (resolve_port port) st1) as [st2 [[u pid] cmd]] eqn:Ec.
    apply check_port_log in Ec. destruct Ec as [Ec Hpid]. destruct u.
    + destruct (is_opencode_healthy st2) as [st3 h2] eqn:Eh2.
      apply is_opencode_healthy_log in Eh2.
      exists [EvHealth false; EvCheckPort (resolve_port port) true pid; EvHealth h2], "".
      split.
      * destruct h2; simpl; rewrite Eh2, Ec, Eh, <- !app_assoc; reflexivity.
      * destruct h2; simpl; constructor.
    + rewrite (Hpid eq_refl) in Ec.
      destruct (start_opencode (Some (resolve_port port)) None log_path cwd st2)
        as [st3 [ok msg]] eqn:Es.
      destruct (start_opencode_spec port log_path cwd st2 st3 ok msg Es)
        as [sevs [Hlog3 Hstart]].
      destruct ok; simpl negb; cbv iota.
      * destruct (wait_healthy 10 st3) as [st4 h3] eqn:Ew.
        destruct (wait_healthy_spec _ _ _ _ Ew) as [pevs [Hlog4 Hpoll]].
        exists ([EvHealth false; EvCheckPort (resolve_port port) false None]
                ++ sevs ++ pevs), (work_dir_of cwd (world st2)).
        split.
        -- destruct h3; simpl; rewrite Hlog4, Hlog3, Ec, Eh, <- !app_assoc;
             reflexivity.
        -- destruct h3; simpl; now apply Shape.ensure_started.
      * exists ([EvHealth false; EvCheckPort (resolve_port port) false None] ++ sevs),
          (work_dir_of cwd (world st2)).
        split.
        -- simpl. rewrite Hlog3, Ec, Eh, <- !app_assoc. reflexivity.
        -- simpl. now apply Shape.ensure_start_failed.
Qed.

Lemma restart_run_shape (port : option Z) (log_path cwd : option string)
    (st : state W) :
  exists (evs : list event) (work_dir : string),
    log (fst (restart_opencode port log_path cwd st)) = log st ++ evs
    /\ Shape.restart_run (resolve_port port) (log_target log_path) work_dir evs
         (fst (snd (restart_opencode port log_path cwd st))).
Proof.
  unfold restart_opencode.
  destruct (_kill_port_process (resolve_port port) st) as [st1 killed] eqn:Ek.
  destruct (kill_port_process_spec _ _ _ _ Ek) as [kevs [Hlog1 Hphase]].
  destruct killed; simpl negb; cbv iota.
  - destruct (start_opencode (Some (resolve_port port)) None log_path cwd
                (do_sleep 1000 st1)) as [st3 [ok msg]] eqn:Es.
    destruct (start_opencode_spec port log_path cwd _ st3 ok msg Es)
      as [sevs [Hlog3 Hstart]].
    rewrite do_sleep_log in Hlog3.
    destruct ok; simpl negb; cbv iota.
    + destruct (wait_healthy 15 st3) as [st4 h] eqn:Ew.
      destruct (wait_healthy_spec _ _ _ _ Ew) as [pevs [Hlog4 Hpoll]].
      exists (kevs ++ [EvSleep 1000] ++ sevs ++ pevs),
        (work_dir_of cwd (world (do_sleep 1000 st1))).
      split.
      * destruct h; simpl; rewrite Hlog4, Hlog3, Hlog1, <- !app_assoc; reflexivity.
      * destruct h; simpl; now apply Shape.restart_started.
    + exists (kevs ++ [EvSleep 1000] ++ sevs),
        (work_dir_of cwd (world (do_sleep 1000 st1))).
      split.
      * simpl. rewrite Hlog3, Hlog1, <- !app_assoc. reflexivity.
      * simpl. now apply Shape.restart_start_failed.
  - exists kevs, "". split; [exact Hlog1 | now apply Shape.restart_signal_refused].
Qed.

End SupervisorRuns.

Section SupervisorFacts.
Context {W : Type} `{Runner.OS W}.

Import Runner.

Lemma last_event_app (l1 l2 : list event) :
  l2 <> [] -> Shape.last_event (l1 ++ l2) = Shape.last_event l2.
Proof.
  intros Hne. unfold Shape.last_event. rewrite rev_app_distr.
  destruct (rev l2) as [|ev t] eqn:E; [|reflexivity].
  apply (f_equal (@rev event)) in E. rewrite rev_involutive in E. contradiction.
Qed.

Lemma last_event_snoc (l : list event) (ev : event) :
  Shape.last_event (l ++ [ev]) = Some ev.
Proof. rewrite last_event_app by discriminate. reflexivity. Qed.

Lemma health_rounds_app (ms : Z) (a b : list bool) :
  Trace.health_rounds ms (a ++ b) = Trace.health_rounds ms a ++ Trace.health_rounds ms b.
Proof. unfold Trace.health_rounds. apply flat_map_app. Qed.

Lemma repeat_snoc {A : Type} (x : A) (n : nat) : repeat x (S n) = repeat x n ++ [x].
Proof. induction n as [|n IH]; [reflexivity|]. simpl in *. now rewrite <- IH. Qed.

(** How a bounded health poll ends. *)
Lemma bounded_health_poll_last (n : nat) (ms : Z) (evs : list event) (ok : bool) :
  Trace.bounded_health_poll (S n) ms evs ok ->
  exists l, evs = l ++ [EvHealth ok].
Proof.
  intros [failed [-> Hb]]. destruct ok.
  - rewrite health_rounds_app. simpl.
    exists (Trace.health_rounds ms (repeat false failed) ++ [EvSleep ms]).
    now rewrite <- app_assoc.
  - subst failed. rewrite app_nil_r, repeat_snoc, health_rounds_app. simpl.
    exists (Trace.health_rounds ms (repeat false n) ++ [EvSleep ms]).
    now rewrite <- app_assoc.
Qed.

Lemma start_attempt_last (p : Z) (lp : option string) (wd : string)
    (evs : list event) (started : bool) :
  Trace.start_attempt p lp wd evs started ->
  exists l ev, evs = l ++ [ev]
               /\ match ev with
                  | EvSpawn _ _ _ _ (Spawned _) => started = true
                  | EvHealth _ => False
                  | _ => started = false
                  end.
Proof.
  intros [[e [-> ->]] | [q [-> ->]]].
  - exists [], (EvMakedirs wd (Some e)). split; reflexivity.
  - exists [EvMakedirs wd None],
      (EvSpawn (serve_args p DEFAULT_HOST) lp wd true q).
    split; [reflexivity|]. destruct q; reflexivity.
Qed.

Lemma termination_phase_refused_last (p : Z) (evs : list event) :
  Trace.termination_phase p evs false ->
  exists l pid sig, evs = l ++ [EvKill pid sig KillFailed].
Proof.
  intros Hph. inversion Hph as [| | pid | | pid polls r Hpolls Hevs Hk]; subst.
  - exists [EvCheckPort p true (Some pid)], pid, SIGTERM. reflexivity.
  - destruct r; try discriminate.
    exists ([EvCheckPort p true (Some pid); EvKill pid SIGTERM Signalled] ++ polls),
      pid, SIGKILL.
    simpl. rewrite <- ?app_assoc. reflexivity.
Qed.

(** X1. [ensure_opencode_running] and [restart_opencode] report success
    exactly when the last thing they did was a health probe that found the
    backend healthy: success is never reported on the strength of a spawn
    alone, and a healthy last probe is never reported as failure. *)
Theorem supervisor_success_iff_last_probe_healthy (port : option Z)
    (log_path cwd : option string) (st : state W) :
  (fst (snd (ensure_opencode_running port log_path cwd st)) = true
   <-> Shape.last_event (log (fst (ensure_opencode_running port log_path cwd st)))
       = Some (EvHealth true))
  /\ (fst (snd (restart_opencode port log_path cwd st)) = true
      <-> Shape.last_event (log (fst (restart_opencode port log_path cwd st)))
          = Some (EvHealth true)).
Proof.
  split.
  - destruct (ensure_run_shape port log_path cwd st) as [evs [wd [Hlog Hrun]]].
    rewrite Hlog.
    destruct Hrun as [| pid h2 | sevs Hs | sevs pevs ok Hs Hp].
    + rewrite last_event_app by discriminate. unfold Shape.last_event. simpl. tauto.
    + rewrite last_event_app by discriminate. unfold Shape.last_event.
      destruct h2; simpl; split; congruence.
    + destruct (start_attempt_last _ _ _ _ _ Hs) as [l [ev [-> Hev]]].
      rewrite !app_assoc, last_event_snoc. split; [discriminate|].
      intros E. injection E as ->. destruct Hev.
    + destruct (bounded_health_poll_last _ _ _ _ Hp) as [l ->].
      rewrite !app_assoc, last_event_snoc. destruct ok; split; congruence.
  - destruct (restart_run_shape port log_path cwd st) as [evs [wd [Hlog Hrun]]].
    rewrite Hlog.
    destruct Hrun as [kevs Hk | kevs sevs Hk Hs | kevs sevs pevs ok Hk Hs Hp].
    + destruct (termination_phase_refused_last _ _ Hk) as [l [pid [sig ->]]].
      rewrite !app_assoc, last_event_snoc. split; discriminate.
    + destruct (start_attempt_last _ _ _ _ _ Hs) as [l [ev [-> Hev]]].
      rewrite !app_assoc, last_event_snoc. split; [discriminate|].
      intros E. injection E as ->. destruct Hev.
    + destruct (bounded_health_poll_last _ _ _ _ Hp) as [l ->].
      rewrite !app_assoc, last_event_snoc. destruct ok; split; congruence.
Qed.

End SupervisorFacts.

Section SupervisorDiscipline.
Context {W : Type} `{Runner.OS W}.

Import Runner.

Lemma count_cons (f : event -> bool) (ev : event) (l : list event) :
  Trace.count f (ev :: l) = ((if f ev then 1 else 0) + Trace.count f l)%nat.
Proof. unfold Trace.count. simpl. destruct (f ev); reflexivity. Qed.

Lemma count_nil (f : event -> bool) : Trace.count f [] = 0%nat.
Proof. reflexivity. Qed.

Lemma count_port_rounds (f : event -> bool) (ms port : Z)
    (busy : list (option Z)) (freed : bool) :
  f (EvSleep ms) = false ->
  (forall pid, f (EvCheckPort port true pid) = false) ->
  f (EvCheckPort port false None) = false ->
  Trace.count f (Trace.port_rounds ms port busy freed) = 0%nat.
Proof.
  intros Hs Hb Hf. unfold Trace.port_rounds. rewrite count_app.
  assert (H0 : Trace.count f
                 (flat_map (fun pid => [EvSleep ms; EvCheckPort port true pid]) busy)
               = 0%nat).
  { induction busy as [|pid busy IH]; [reflexivity|].
    simpl. rewrite !count_cons, Hs, Hb, IH. reflexivity. }
  rewrite H0. destruct freed; [|reflexivity].
  rewrite !count_cons, Hs, Hf. reflexivity.
Qed.

Lemma count_busy_port_rounds (ms port : Z) (busy : list (option Z)) (freed : bool) :
  Trace.count Shape.is_busy_probe (Trace.port_rounds ms port busy freed)
  = List.length busy.
Proof.
  unfold Trace.port_rounds. rewrite count_app.
  assert (H0 : Trace.count Shape.is_busy_probe
                 (flat_map (fun pid => [EvSleep ms; EvCheckPort port true pid]) busy)
               = List.length busy).
  { induction busy as [|pid busy IH]; [reflexivity|].
    simpl. rewrite !count_cons, IH. reflexivity. }
  rewrite H0. destruct freed; simpl; rewrite ?count_cons, ?count_nil; simpl; lia.
Qed.

Lemma in_port_rounds (ms port : Z) (busy : list (option Z)) (freed : bool)
    (ev : event) :
  In ev (Trace.port_rounds ms port busy freed) ->
  ev = EvSleep ms \/ exists u pid, ev = EvCheckPort port u pid.
Proof.
  unfold Trace.port_rounds. intros Hin. apply in_app_or in Hin.
  destruct Hin as [Hin | Hin].
  - apply in_flat_map in Hin. destruct Hin as [pid [_ [<- | [<- | []]]]]; eauto.
  - destruct freed; [|destruct Hin].
    destruct Hin as [<- | [<- | []]]; eauto.
Qed.




Lemma on_port_termination_phase (p : Z) (lp : option string) (evs : list event)
    (killed : bool) :
  Trace.termination_phase p evs killed ->
  Forall (Shape.on_port p lp) evs /\ Trace.count Trace.is_spawn evs = 0%nat.
Proof.
  assert (Hpolls : forall n polls freed,
             Trace.bounded_port_poll n 500 p polls freed ->
             Forall (Shape.on_port p lp) polls
             /\ Trace.count Trace.is_spawn polls = 0%nat).
  { intros n polls freed [busy [-> _]]. split.
    - apply Forall_forall. intros ev Hin. apply in_port_rounds in Hin.
      destruct Hin as [-> | [u [pid ->]]]; simpl; auto.
    - apply count_port_rounds; reflexivity. }
  intros Hph. destruct Hph as [u pid Hno | pid | pid | pid polls Hp | pid polls r Hp].
  - split; [repeat constructor | reflexivity].
  - split; [repeat constructor | reflexivity].
  - split; [repeat constructor | reflexivity].
  - destruct (Hpolls _ _ _ Hp) as [Hf Hc]. split.
    + apply Forall_app. split; [repeat constructor | exact Hf].
    + rewrite count_app, Hc. reflexivity.
  - destruct (Hpolls _ _ _ Hp) as [Hf Hc]. split.
    + apply Forall_app. split; [repeat constructor|].
      apply Forall_app. split; [exact Hf|].
      destruct r; repeat constructor.
    + rewrite !count_app, Hc. destruct r; reflexivity.
Qed.


(** X3. [_kill_port_process] signals with discipline.  It sends at most two
    signals and spawns nothing; every signal goes to the pid that the first
    probe of the port reported as its owner; SIGKILL is sent only after
    SIGTERM was delivered and ten further probes found the port still
    occupied; and it answers [False] exactly when a signal could not be
    sent. *)
Theorem kill_port_process_signal_discipline (port : Z) (st st' : state W)
    (killed : bool) :
  _kill_port_process port st = (st', killed) ->
  exists evs,
    log st' = log st ++ evs
    /\ (Trace.count Trace.is_kill evs <= 2)%nat
    /\ Trace.count Trace.is_spawn evs = 0%nat
    /\ (killed = false <-> existsb Shape.is_refused evs = true)
    /\ (forall pid sig r,
           In (EvKill pid sig r) evs ->
           exists rest, evs = EvCheckPort port true (Some pid) :: rest)
    /\ (forall pid r,
           In (EvKill pid SIGKILL r) evs ->
           In (EvKill pid SIGTERM Signalled) evs
           /\ Trace.count Shape.is_busy_probe evs = 11%nat).
Proof.
  intros Hk. destruct (kill_port_process_spec _ _ _ _ Hk) as [evs [Hlog Hph]].
  exists evs. split; [exact Hlog|].
  destruct (on_port_termination_phase port None _ _ Hph) as [_ Hspawn].
  assert (Hquiet : forall polls freed ev,
             Trace.bounded_port_poll 10 500 port polls freed ->
             In ev polls ->
             Trace.is_kill ev = false /\ Shape.is_refused ev = false).
  { intros polls freed ev [busy [-> _]] Hin. apply in_port_rounds in Hin.
    destruct Hin as [-> | [u [pid ->]]]; split; reflexivity. }
  assert (Hcount : forall polls freed,
             Trace.bounded_port_poll 10 500 port polls freed ->
             Trace.count Trace.is_kill polls = 0%nat
             /\ (existsb Shape.is_refused polls = false)
             /\ (freed = false -> Trace.count Shape.is_busy_probe polls = 10%nat)).
  { intros polls freed Hp. split; [|split].
    - destruct Hp as [busy [-> _]]. apply count_port_rounds; reflexivity.
    - destruct (existsb Shape.is_refused polls) eqn:E; [|reflexivity].
      apply existsb_exists in E. destruct E as [ev [Hin Hr]].
      destruct (Hquiet _ _ _ Hp Hin) as [_ Hr']. congruence.
    - intros ->. destruct Hp as [busy [-> Hlen]].
      rewrite count_busy_port_rounds. exact Hlen. }
  destruct Hph as [u pid0 Hno | pid0 | pid0 | pid0 polls Hp | pid0 polls r0 Hp].
  - split; [unfold Trace.count; simpl; lia|]. split; [exact Hspawn|].
    split; [split; discriminate|]. split.
    + intros pid sig r [E | []]. discriminate.
    + intros pid r [E | []]. discriminate.
  - split; [unfold Trace.count; simpl; lia|]. split; [exact Hspawn|].
    split; [split; discriminate|]. split.
    + intros pid sig r [E | [E | []]]; [discriminate|]. injection E as <- <- <-. eauto.
    + intros pid r [E | [E | []]]; discriminate.
  - split; [unfold Trace.count; simpl; lia|]. split; [exact Hspawn|].
    split; [split; reflexivity|]. split.
    + intros pid sig r [E | [E | []]]; [discriminate|]. injection E as <- <- <-. eauto.
    + intros pid r [E | [E | []]]; discriminate.
  - destruct (Hcount _ _ Hp) as [Hk0 [Hr0 _]].
    split; [rewrite count_app, Hk0; unfold Trace.count; simpl; lia|].
    split; [exact Hspawn|]. split.
    { rewrite existsb_app, Hr0. simpl. split; discriminate. }
    split.
    + intros pid sig r Hin. apply in_app_or in Hin.
      destruct Hin as [[E | [E | []]] | Hin].
      * discriminate.
      * injection E as <- <- <-. simpl. eauto.
      * destruct (Hquiet _ _ _ Hp Hin) as [Hnk _]. discriminate.
    + intros pid r Hin. apply in_app_or in Hin.
      destruct Hin as [[E | [E | []]] | Hin]; try discriminate.
      destruct (Hquiet _ _ _ Hp Hin) as [Hnk _]. discriminate.
  - destruct (Hcount _ _ Hp) as [Hk0 [Hr0 Hbusy]]. specialize (Hbusy eq_refl).
    assert (Htail : forall (f : event -> bool),
               Trace.count f (match r0 with Signalled => [EvSleep 500] | _ => [] end)
               = if f (EvSleep 500) then match r0 with Signalled => 1%nat | _ => 0%nat end
                 else 0%nat).
    { intros f. destruct r0; unfold Trace.count; simpl;
        destruct (f (EvSleep 500)); reflexivity. }
    split.
    { rewrite !count_app, Hk0, Htail. unfold Trace.count. simpl. lia. }
    split; [exact Hspawn|]. split.
    { rewrite !existsb_app, Hr0. destruct r0; simpl; split; congruence. }
    split.
    + intros pid sig r Hin. apply in_app_or in Hin.
      destruct Hin as [[E | [E | []]] | Hin].
      * discriminate.
      * injection E as <- <- <-. simpl. eauto.
      * apply in_app_or in Hin. destruct Hin as [Hin | Hin].
        -- destruct (Hquiet _ _ _ Hp Hin) as [Hnk _]. discriminate.
        -- apply in_app_or in Hin. destruct Hin as [[E | []] | Hin].
           ++ injection E as <- <- <-. simpl. eauto.
           ++ destruct r0; simpl in Hin; try tauto.
              destruct Hin as [E | []]. discriminate.
    + intros pid r Hin. split.
      * apply in_app_or in Hin.
        destruct Hin as [[E | [E | []]] | Hin]; try discriminate.
        apply in_app_or in Hin. destruct Hin as [Hin | Hin].
        -- destruct (Hquiet _ _ _ Hp Hin) as [Hnk _]. discriminate.
        -- apply in_app_or in Hin. destruct Hin as [[E | []] | Hin].
           ++ injection E as <- <-. right. left. reflexivity.
           ++ destruct r0; simpl in Hin; try tauto.
              destruct Hin as [E | []]. discriminate.
      * rewrite !count_app, Hbusy, Htail. unfold Trace.count. simpl. lia.
Qed.

End SupervisorDiscipline.

Lemma kill_port_process_signal_discipline_witness :
  exists evs,
    Runner.log (fst (Runner._kill_port_process 4096 (SimOS.start SimOS.stubborn)))
    = Runner.log (SimOS.start SimOS.stubborn) ++ evs
    /\ (Trace.count Trace.is_kill evs <= 2)%nat
    /\ Trace.count Trace.is_spawn evs = 0%nat
    /\ (snd (Runner._kill_port_process 4096 (SimOS.start SimOS.stubborn)) = false
        <-> existsb Shape.is_refused evs = true)
    /\ (forall pid sig r,
           In (Runner.EvKill pid sig r) evs ->
           exists rest, evs = Runner.EvCheckPort 4096 true (Some pid) :: rest)
    /\ (forall pid r,
           In (Runner.EvKill pid Runner.SIGKILL r) evs ->
           In (Runner.EvKill pid Runner.SIGTERM Runner.Signalled) evs
           /\ Trace.count Shape.is_busy_probe evs = 11%nat).
Proof.
  apply (kill_port_process_signal_discipline 4096 (SimOS.start SimOS.stubborn)
           (fst (Runner._kill_port_process 4096 (SimOS.start SimOS.stubborn)))
           (snd (Runner._kill_port_process 4096 (SimOS.start SimOS.stubborn)))).
  reflexivity.
Defined.

(** ** opencode_client: configuration and single operations *)

Section ClientOperations.
Context {W : Type} `{Client.Backend W}.

Import Client.

(** X4. The message timeout is never below 60 seconds, whatever the
    environment holds; it is 600 seconds when the variable is unset, empty or
    not a number, and otherwise the configured value raised to the floor. *)
Theorem message_timeout_floor_and_default :
  60000 <= _message_timeout
  /\ (OPENCODE_MESSAGE_TIMEOUT = "" \/ float_ms OPENCODE_MESSAGE_TIMEOUT = None ->
      _message_timeout = 600000)
  /\ (forall v, OPENCODE_MESSAGE_TIMEOUT <> "" ->
                float_ms OPENCODE_MESSAGE_TIMEOUT = Some v ->
                _message_timeout = Z.max 60000 v
                /\ (v <= 60000 -> _message_timeout = 60000)
                /\ (60000 <= v -> _message_timeout = v)).
Proof.
  unfold _message_timeout.
  destruct (Py.truthy OPENCODE_MESSAGE_TIMEOUT) eqn:Et.
  - apply truthy_true_iff in Et.
    destruct (float_ms OPENCODE_MESSAGE_TIMEOUT) as [v|] eqn:Ef.
    + split; [lia|]. split.
      * intros [E | E]; [contradiction | discriminate].
      * intros v' _ E. injection E as <-. repeat split; lia.
    + split; [lia|]. split; [reflexivity|]. intros v _ E. discriminate.
  - apply truthy_false_iff in Et. split; [lia|]. split; [reflexivity|].
    intros v Hne. contradiction.
Qed.




End ClientOperations.

(** ** opencode_client.send_message_async_poll: bounds *)

Section AsyncPollBounds.
Context {W : Type} `{Client.Backend W}.

Import Client.

Lemma sleeps_app (l1 l2 : list event) :
  ClientLog.sleeps (l1 ++ l2) = (ClientLog.sleeps l1 + ClientLog.sleeps l2)%nat.
Proof. unfold ClientLog.sleeps. now rewrite filter_app, length_app. Qed.

Lemma requests_app (l1 l2 : list event) :
  ClientLog.requests (l1 ++ l2)
  = (ClientLog.requests l1 + ClientLog.requests l2)%nat.
Proof. unfold ClientLog.requests. now rewrite filter_app, length_app. Qed.

Lemma message_timeout_at_least_a_minute : 60000 <= _message_timeout.
Proof.
  unfold _message_timeout. destruct (Py.truthy OPENCODE_MESSAGE_TIMEOUT); [|lia].
  destruct (float_ms OPENCODE_MESSAGE_TIMEOUT); lia.
Qed.

Hypothesis sleep_advances :
  forall (d : Z) (w : W), monotonic w + d <= monotonic (sleep d w).
Hypothesis http_monotone :
  forall (tmo : Z) (req : http_request) (w : W),
    monotonic w <= monotonic (fst (http tmo req w)).

(** Rounds of the loop, counted: as many polls as sleeps, at least one round
    when the loop starts before the deadline, and the last round started
    before the deadline although every earlier one took three seconds. *)
Lemma poll_loop_rounds (session_id : string) (n_before deadline : Z) (fuel : nat)
    (st st' : state W) (res : result string) :
  poll_loop fuel session_id n_before deadline st = Some (st', res) ->
  exists evs,
    log st' = log st ++ evs
    /\ ClientLog.requests evs = ClientLog.sleeps evs
    /\ (monotonic (world st) < deadline -> (1 <= ClientLog.sleeps evs)%nat)
    /\ (ClientLog.sleeps evs = 0%nat
        \/ monotonic (world st) + 3000 * (Z.of_nat (ClientLog.sleeps evs) - 1)
           < deadline).
Proof.
  revert st. induction fuel as [|fuel IH]; intros st; simpl; [discriminate|].
  destruct (Z.ltb_spec (monotonic (world st)) deadline) as [Hlt | Hge].
  - destruct (_get_messages session_id 10
                {| world := sleep 3000 (world st); log := log st ++ [EvSleep 3000] |})
      as [st2 r] eqn:Eg.
    destruct (get_messages_spec _ _ _ _ _ Eg) as [raw [Hlog2 [_ Hw]]].
    cbn [world log] in Hlog2, Hw.
    set (round := [EvSleep 3000;
                   EvRequest 15000
                     (GET ("/session/" ++ session_id ++ "/message") (Some 10)) raw]).
    assert (Hround : log st2 = log st ++ round).
    { rewrite Hlog2, <- app_assoc. reflexivity. }
    assert (Hclock : monotonic (world st) + 3000 <= monotonic (world st2)).
    { rewrite Hw.
      pose proof (sleep_advances 3000 (world st)).
      pose proof (http_monotone 15000
                    (GET ("/session/" ++ session_id ++ "/message") (Some 10))
                    (sleep 3000 (world st))).
      lia. }
    assert (Hone : (st', res) = (st2, res) ->
                   exists evs,
                     log st' = log st ++ evs
                     /\ ClientLog.requests evs = ClientLog.sleeps evs
                     /\ (monotonic (world st) < deadline ->
                         (1 <= ClientLog.sleeps evs)%nat)
                     /\ (ClientLog.sleeps evs = 0%nat
                         \/ monotonic (world st)
                            + 3000 * (Z.of_nat (ClientLog.sleeps evs) - 1)
                            < deadline)).
    { intros E. injection E as ->. exists round. split; [exact Hround|].
      change (ClientLog.sleeps round) with 1%nat.
      change (ClientLog.requests round) with 1%nat.
      split; [reflexivity|]. split; [intros _; lia|].
      right. lia. }
    assert (Hrec : poll_loop fuel session_id n_before deadline st2 = Some (st', res) ->
                   exists evs,
                     log st' = log st ++ evs
                     /\ ClientLog.requests evs = ClientLog.sleeps evs
                     /\ (monotonic (world st) < deadline ->
                         (1 <= ClientLog.sleeps evs)%nat)
                     /\ (ClientLog.sleeps evs = 0%nat
                         \/ monotonic (world st)
                            + 3000 * (Z.of_nat (ClientLog.sleeps evs) - 1)
                            < deadline)).
    { intros Hloop. destruct (IH _ Hloop) as [evs [Hlog [Heq [_ Hbound]]]].
      exists (round ++ evs). split; [rewrite Hlog, Hround, <- app_assoc; reflexivity|].
      rewrite sleeps_app, requests_app, Heq.
      change (ClientLog.sleeps round) with 1%nat.
      change (ClientLog.requests round) with 1%nat.
      split; [reflexivity|]. split; [intros _; lia|].
      right. destruct Hbound as [-> | Hb]; lia. }
    destruct r as [messages | e].
    + destruct (n_before <? Z.of_nat (Datatypes.length messages)).
      * destruct (Py.truthy (_extract_final_result (last messages {| parts := None |}))).
        -- intros E. injection E as <- <-. now apply Hone.
        -- exact Hrec.
      * exact Hrec.
    + intros E. injection E as <- <-. now apply Hone.
  - intros E. injection E as <- <-. exists []. split; [now rewrite app_nil_r|].
    split; [reflexivity|]. split; [lia | now left].
Qed.

(** X7. What one call of [send_message_async_poll] does, counted.  It stops
    at the failed submit (one request, that exception), or at the failed
    first reading of the message list (two requests, that exception), without
    sleeping; or it polls: at least one round is always made, every round is
    one 3-second sleep and one request, and with [k] rounds
    [3 s * (k - 1)] is below the message timeout (with the default timeout of
    600 s there are at most 200 rounds). *)
Theorem async_poll_round_bounds (fuel : nat) (session_id text : string)
    (st st' : state W) (res : result string) :
  send_message_async_poll fuel session_id text st = Some (st', res) ->
  let submit := POST ("/session/" ++ session_id ++ "/prompt_async") (BodyPrompt text) in
  let read := GET ("/session/" ++ session_id ++ "/message") (Some 10) in
  exists evs,
    log st' = log st ++ evs
    /\ ((exists e, res = Err e /\ evs = [EvRequest 15000 submit (Err e)])
        \/ (exists e resp raw,
               res = Err e
               /\ evs = [EvRequest 15000 submit (Ok resp); EvRequest 15000 read raw]
               /\ Polling.observed raw = Err e)
        \/ (ClientLog.requests evs = (2 + ClientLog.sleeps evs)%nat
            /\ (1 <= ClientLog.sleeps evs)%nat
            /\ 3000 * (Z.of_nat (ClientLog.sleeps evs) - 1) < _message_timeout)).
Proof.
  intros Hsend submit read. revert Hsend. unfold send_message_async_poll.
  fold submit.
  destruct (request 15000 submit st) as [st1 r1] eqn:Ep.
  apply request_spec in Ep. destruct Ep as [Hlog1 _].
  destruct r1 as [resp | e].
  2:{ intros E. injection E as <- <-. eexists. split; [exact Hlog1|].
      left. exists e. split; reflexivity. }
  destruct (_get_messages session_id 10 st1) as [st2 r2] eqn:Eg.
  destruct (get_messages_spec _ _ _ _ _ Eg) as [raw [Hlog2 [Hobs _]]].
  fold read in Hlog2.
  destruct r2 as [before | e].
  2:{ intros E. injection E as <- <-. eexists.
      split; [rewrite Hlog2, Hlog1, <- app_assoc; reflexivity|].
      right. left. exists e, resp, raw. repeat split. exact Hobs. }
  intros Hloop. destruct (poll_loop_rounds _ _ _ _ _ _ _ Hloop)
    as [evs [Hlog [Heq [Hone Hbound]]]].
  pose proof message_timeout_at_least_a_minute as Hmin.
  specialize (Hone ltac:(lia)).
  eexists. split; [rewrite Hlog, Hlog2, Hlog1, <- !app_assoc; reflexivity|].
  right. right. rewrite !sleeps_app, !requests_app, Heq.
  change (ClientLog.sleeps [EvRequest 15000 submit (Ok resp)]) with 0%nat.
  change (ClientLog.requests [EvRequest 15000 submit (Ok resp)]) with 1%nat.
  change (ClientLog.sleeps [EvRequest 15000 read raw]) with 0%nat.
  change (ClientLog.requests [EvRequest 15000 read raw]) with 1%nat.
  split; [lia|]. split; [lia|].
  destruct Hbound as [E0 | Hb]; lia.
Qed.

End AsyncPollBounds.

Lemma async_poll_round_bounds_witness :
  exists evs,
    Client.log SimRuns.answers_final
    = Client.log (SimHttp.start SimHttp.answers) ++ evs
    /\ ((exists e, Ok "pong" = Err e
                   /\ evs = [Client.EvRequest 15000
                               (Client.POST ("/session/" ++ "ses_a" ++ "/prompt_async")
                                  (Client.BodyPrompt "ping")) (Err e)])
        \/ (exists e resp raw,
               Ok "pong" = Err e
               /\ evs = [Client.EvRequest 15000
                           (Client.POST ("/session/" ++ "ses_a" ++ "/prompt_async")
                              (Client.BodyPrompt "ping")) (Ok resp);
                         Client.EvRequest 15000
                           (Client.GET ("/session/" ++ "ses_a" ++ "/message") (Some 10))
                           raw]
               /\ Polling.observed raw = Err e)
        \/ (ClientLog.requests evs = (2 + ClientLog.sleeps evs)%nat
            /\ (1 <= ClientLog.sleeps evs)%nat
            /\ 3000 * (Z.of_nat (ClientLog.sleeps evs) - 1)
               < Client._message_timeout (W := SimHttp.sim))).
Proof.
  refine (async_poll_round_bounds (W := SimHttp.sim) _ _
            30 "ses_a" "ping" (SimHttp.start SimHttp.answers)
            SimRuns.answers_final (Ok "pong") _).
  - intros d w. simpl. lia.
  - intros tmo req w. destruct req; simpl; lia.
  - reflexivity.
Defined.

(** ** bot_core._validate_proj_subdir and handle_new_project *)

Example validate_proj_subdir_examples :
  BotCore._validate_proj_subdir ".." <> None
  /\ BotCore._validate_proj_subdir "a/b" <> None
  /\ BotCore._validate_proj_subdir "" <> None
  /\ BotCore._validate_proj_subdir ".hidden" <> None
  /\ BotCore._validate_proj_subdir "my-proj" = None.
Proof. repeat split; try discriminate. Qed.

Lemma any_char_exists (f : ascii -> bool) (s : string) :
  BotCore.any_char f s = true
  <-> exists c, In c (list_ascii_of_string s) /\ f c = true.
Proof.
  induction s as [|c s IH]; simpl.
  - split; [discriminate | intros [c [[] _]]].
  - rewrite orb_true_iff, IH. split.
    + intros [Hc | [c' [Hin Hf]]]; eauto.
    + intros [c' [[<- | Hin] Hf]]; eauto.
Qed.

Lemma bad_subdir_char_iff (c : ascii) :
  BotCore.bad_subdir_char c = false
  <-> (32 <= nat_of_ascii c)%nat /\ c <> "/"%char /\ c <> "\"%char.
Proof.
  unfold BotCore.bad_subdir_char.
  set (n := nat_of_ascii c).
  assert (H47 : c = "/"%char <-> n = 47%nat).
  { subst n. split; [intros ->; reflexivity|].
    intros E. rewrite <- (ascii_nat_embedding c), E. reflexivity. }
  assert (H92 : c = "\"%char <-> n = 92%nat).
  { subst n. split; [intros ->; reflexivity|].
    intros E. rewrite <- (ascii_nat_embedding c), E. reflexivity. }
  rewrite !orb_false_iff, !Nat.eqb_neq, Nat.ltb_ge. split.
  - intros [[[[[[N47 N92] _] _] _] _] Hge]. repeat split; [exact Hge | |].
    + intros E. apply H47 in E. contradiction.
    + intros E. apply H92 in E. contradiction.
  - intros [Hge [N47 N92]]. repeat split; try lia.
    + intros E. apply H47 in E. contradiction.
    + intros E. apply H92 in E. contradiction.
Qed.

(** X8. [_validate_proj_subdir] accepts a name exactly when it is 1 to 64
    characters long, every character is at or above code 32 and is neither a
    slash nor a backslash, the name does not start with a dot and does not
    contain two dots in a row; otherwise it answers one of its three
    messages. *)
Theorem validate_proj_subdir_accepts_iff (name : string) :
  BotCore._validate_proj_subdir name = None
  <-> (name <> ""
       /\ Py.len name <= 64
       /\ (forall c, In c (list_ascii_of_string name) ->
                     (32 <= nat_of_ascii c)%nat /\ c <> "/"%char /\ c <> "\"%char)
       /\ Py.startswith name "." = false
       /\ Py.contains name ".." = false).
Proof.
  unfold BotCore._validate_proj_subdir.
  destruct (Py.truthy name) eqn:Et; simpl negb; simpl orb.
  2:{ apply truthy_false_iff in Et. split; [discriminate|]. intros [Hne _].
      contradiction. }
  apply truthy_true_iff in Et.
  destruct (Z.ltb_spec 64 (Py.len name)) as [Hlong | Hshort].
  { split; [discriminate|]. intros [_ [Hlen _]]. lia. }
  destruct (BotCore.any_char BotCore.bad_subdir_char name) eqn:Ebad.
  { split; [discriminate|]. intros [_ [_ [Hall _]]].
    apply any_char_exists in Ebad. destruct Ebad as [c [Hin Hbad]].
    apply Hall, bad_subdir_char_iff in Hin. congruence. }
  assert (Hall : forall c, In c (list_ascii_of_string name) ->
                   (32 <= nat_of_ascii c)%nat /\ c <> "/"%char /\ c <> "\"%char).
  { intros c Hin. apply bad_subdir_char_iff.
    destruct (BotCore.bad_subdir_char c) eqn:E; [|reflexivity].
    assert (Hex : BotCore.any_char BotCore.bad_subdir_char name = true)
      by (apply any_char_exists; eauto).
    congruence. }
  destruct (Py.startswith name ".") eqn:Edot; simpl orb.
  { split; [discriminate|]. intros [_ [_ [_ [Hd _]]]]. discriminate. }
  destruct (Py.contains name "..") eqn:Edd.
  { split; [discriminate|]. intros [_ [_ [_ [_ Hd]]]]. discriminate. }
  split; [|reflexivity]. intros _.
  split; [exact Et|]. split; [exact Hshort|]. split; [exact Hall|].
  split; reflexivity.
Qed.

Lemma list_ascii_app (a b : string) :
  list_ascii_of_string (a ++ b) = list_ascii_of_string a ++ list_ascii_of_string b.
Proof. induction a as [|c a IH]; simpl; [reflexivity | now rewrite IH]. Qed.




Lemma prefix_app (n a q : string) :
  String.prefix n a = true -> String.prefix n (a ++ q) = true.
Proof.
  revert a. induction n as [|c n IH]; intros a.
  - intros _. destruct a; [destruct q|]; reflexivity.
  - destruct a as [|d a]; simpl; [discriminate|].
    destruct (ascii_dec c d); [apply IH | discriminate].
Qed.

Lemma contains_app_r (a q n : string) :
  Py.contains a n = true -> Py.contains (a ++ q) n = true.
Proof.
  induction a as [|c a IH]; simpl.
  - rewrite orb_false_r. intros Hp. destruct n; [|discriminate].
    destruct q; reflexivity.
  - rewrite !orb_true_iff. intros [Hp | Hc].
    + left. apply (prefix_app n (String c a) q Hp).
    + right. now apply IH.
Qed.

Lemma contains_app_l (p a n : string) :
  Py.contains a n = true -> Py.contains (p ++ a) n = true.
Proof.
  intros Ha. induction p as [|c p IH]; simpl; [exact Ha|].
  rewrite IH. apply orb_true_r.
Qed.




Section NewProject.
Context {W : Type} `{BotCore.Deps W}.

Import Client BotCore.

Lemma call_restart_state (log_path : option string) (cwd : string)
    (st st1 : state W) (ok : bool) (msg : string) :
  call_restart log_path cwd st = (st1, (ok, msg)) ->
  current_session_id st1 = current_session_id st
  /\ _last_opencode_cwd st1 = _last_opencode_cwd st
  /\ log st1 = log st ++ [EvRestart log_path cwd ok].
Proof.
  unfold call_restart.
  destruct (restart_opencode log_path cwd (world st)) as [w' [ok' msg']].
  intros E. injection E as <- <- <-. repeat split.
Qed.



End NewProject.

(** ** bot_core.chunk_text: sizes of the chunks, sizes that are not positive *)

Lemma substring_length (a k : nat) (s : string) :
  String.length (substring a k s) = Nat.min k (String.length s - a).
Proof.
  revert a k; induction s as [|ch s IH]; intros a k.
  - destruct a, k; reflexivity.
  - destruct a as [|a].
    + destruct k as [|k]; simpl; [reflexivity|]. rewrite IH, Nat.sub_0_r.
      reflexivity.
    + simpl. apply IH.
Qed.

Lemma nth_error_map_seq {A : Type} (f : nat -> A) (m i : nat) (c : A) :
  nth_error (map f (seq 0 m)) i = Some c -> (i < m)%nat /\ c = f i.
Proof.
  intros Hn.
  assert (Hi : (i < m)%nat).
  { assert (Hl : (i < List.length (map f (seq 0 m)))%nat)
      by (apply nth_error_Some; congruence).
    now rewrite length_map, length_seq in Hl. }
  split; [exact Hi|].
  rewrite nth_error_map in Hn.
  destruct (nth_error (seq 0 m) i) as [j|] eqn:Ej; [|discriminate].
  apply nth_error_nth with (d := 0%nat) in Ej. rewrite seq_nth in Ej by exact Hi.
  simpl in Hn, Ej. subst j. congruence.
Qed.

(** X10. For a positive size, [chunk_text] returns ceil(len(text)/size)
    chunks, and the chunk at index [i] holds min(size, len(text) - i*size)
    characters, which is at least one: no chunk is empty, and every chunk
    but the last holds exactly [size] characters. *)
Theorem chunk_text_sizes (text : string) (size : Z) :
  0 < size ->
  exists chunks,
    BotCore.chunk_text text size = Ok chunks
    /\ Z.of_nat (List.length chunks) = (Py.len text + size - 1) / size
    /\ (forall i c, nth_error chunks i = Some c ->
          Py.len c = Z.min size (Py.len text - Z.of_nat i * size)
          /\ 0 < Py.len c).
Proof.
  intros Hsize. unfold BotCore.chunk_text, Py.len.
  set (n := String.length text).
  pose proof (Z.div_mod (Z.of_nat n + size - 1) size ltac:(lia)) as Hdm.
  pose proof (Z.mod_pos_bound (Z.of_nat n + size - 1) size Hsize) as Hmod.
  set (q := (Z.of_nat n + size - 1) / size) in *.
  destruct (Z.leb_spec (Z.of_nat n) size) as [Hle | Hgt].
  - destruct text as [|ch text].
    + exists []. split; [reflexivity|]. split.
      * subst n q. simpl. symmetry. apply Z.div_small. lia.
      * intros [|i] c Hc; discriminate.
    + exists [String ch text]. simpl Py.truthy. cbv iota.
      split; [reflexivity|]. split.
      * assert (Hn : 0 < Z.of_nat n) by (subst n; simpl; lia).
        simpl List.length. nia.
      * intros [|i] c Hc; [|destruct i; discriminate].
        injection Hc as <-. fold n.
        assert (Hn : 0 < Z.of_nat n) by (subst n; simpl; lia).
        lia.
  - replace (size =? 0) with false by (symmetry; apply Z.eqb_neq; lia).
    eexists; split; [reflexivity|].
    unfold Py.range, Py.len. fold n.
    replace (0 <? size) with true by (symmetry; apply Z.ltb_lt; lia).
    replace (Z.of_nat n - 0 + size - 1) with (Z.of_nat n + size - 1) by lia.
    fold q.
    assert (Hq : 0 <= q) by nia.
    rewrite map_map. split.
    + rewrite length_map, length_seq. apply Z2Nat.id. exact Hq.
    + intros i c Hc. apply nth_error_map_seq in Hc. destruct Hc as [Hi ->].
      unfold Py.slice. rewrite substring_length. fold n.
      assert (Hiq : Z.of_nat i < q) by lia.
      assert (Hlt : Z.of_nat i * size < Z.of_nat n) by nia.
      replace (0 + Z.of_nat i * size + size - (0 + Z.of_nat i * size))
        with size by lia.
      replace (0 + Z.of_nat i * size) with (Z.of_nat i * size) by lia.
      rewrite Nat2Z.inj_min, Z2Nat.id by lia.
      rewrite Nat2Z.inj_sub.
      2:{ apply Nat2Z.inj_le. rewrite Z2Nat.id by lia. lia. }
      rewrite Z2Nat.id by lia. lia.
Qed.

Lemma chunk_text_sizes_witness :
  0 < 4
  /\ exists chunks,
       BotCore.chunk_text "abcdefghij" 4 = Ok chunks
       /\ Z.of_nat (List.length chunks) = (Py.len "abcdefghij" + 4 - 1) / 4
       /\ (forall i c, nth_error chunks i = Some c ->
             Py.len c = Z.min 4 (Py.len "abcdefghij" - Z.of_nat i * 4)
             /\ 0 < Py.len c).
Proof.
  split; [lia | apply (chunk_text_sizes "abcdefghij" 4); lia].
Defined.

(** X11. A size that is not positive.  With size 0 the empty text gives no
    chunk and every other text raises the [ValueError] of [range]; with a
    negative size the answer is the empty list whatever the text, so the text
    is dropped without an error. *)
Theorem chunk_text_nonpositive_size (text : string) (size : Z) :
  size <= 0 ->
  BotCore.chunk_text text size
  = if (size =? 0) && Py.truthy text
    then Err (ValueError "range() arg 3 must not be zero")
    else Ok [].
Proof.
  intros Hsize. unfold BotCore.chunk_text, Py.len.
  destruct (Z.eqb_spec size 0) as [-> | Hneg]; simpl andb.
  - destruct text as [|ch text]; [reflexivity|].
    simpl Py.truthy. cbv iota.
    destruct (Z.leb_spec (Z.of_nat (String.length (String ch text))) 0) as [H0|H0];
      [simpl in H0; lia | reflexivity].
  - destruct (Z.leb_spec (Z.of_nat (String.length text)) size) as [H0|H0]; [lia|].
    unfold Py.range.
    destruct (Z.ltb_spec 0 size) as [Hp|_]; [lia|].
    replace (Z.to_nat ((0 - Z.of_nat (String.length text) - size - 1) / - size))
      with 0%nat; [reflexivity|].
    symmetry.
    assert (Hq : (0 - Z.of_nat (String.length text) - size - 1) / - size <= 0).
    { destruct (Z.eq_dec (Z.of_nat (String.length text)) 0) as [E|E].
      - rewrite E. rewrite Z.div_small by lia. lia.
      - apply Z.lt_succ_r. apply Z.div_lt_upper_bound; lia. }
    lia.
Qed.

Lemma chunk_text_nonpositive_size_witness :
  -3 <= 0
  /\ BotCore.chunk_text "abc" (-3)
     = if (-3 =? 0) && Py.truthy "abc"
       then Err (ValueError "range() arg 3 must not be zero")
       else Ok [].
Proof.
  split; [lia | apply (chunk_text_nonpositive_size "abc" (-3)); lia].
Defined.

(** ** bot_core.handle_message: the reply is never empty *)

Lemma chunk_text_nonempty (text : string) (size : Z) :
  0 < size -> text <> "" ->
  exists c cs, BotCore.chunk_text text size = Ok (c :: cs).
Proof.
  intros Hsize Hne. unfold BotCore.chunk_text.
  destruct (Z.leb_spec (Py.len text) size) as [Hle | Hgt].
  - apply truthy_true_iff in Hne. rewrite Hne. eauto.
  - replace (size =? 0) with false by (symmetry; apply Z.eqb_neq; lia).
    unfold Py.range.
    replace (0 <? size) with true by (symmetry; apply Z.ltb_lt; lia).
    assert (Hq : 1 <= (Py.len text - 0 + size - 1) / size).
    { apply Z.div_le_lower_bound; lia. }
    destruct (Z.to_nat ((Py.len text - 0 + size - 1) / size)) as [|m] eqn:Em;
      [lia|].
    simpl. eauto.
Qed.

Lemma append_nonempty (a b : string) : a <> "" -> (a ++ b)%string <> "".
Proof. destruct a; [congruence | discriminate]. Qed.

Lemma render_nonempty (result : string) : BotCore.render result <> "".
Proof.
  unfold BotCore.render. destruct (Py.truthy result) eqn:E; simpl.
  - now apply truthy_true_iff.
  - discriminate.
Qed.

Lemma failure_report_nonempty (e : exn) : BotCore.failure_report e <> "".
Proof. unfold BotCore.failure_report. apply append_nonempty. discriminate. Qed.

Section Replies.
Context {W : Type} `{BotCore.Deps W}.

Import Client BotCore.

(** X12. Whatever the backend does, the reply of [handle_message] is not the
    empty string, so [chunk_text] at its default size
    ([MAX_MESSAGE_LENGTH], 4096) always yields at least one chunk for it:
    the user is never left without an answer. *)
Theorem handle_message_reply_never_empty (text : string) (st : state W) :
  snd (handle_message text st) <> ""
  /\ exists c cs,
       chunk_text (snd (handle_message text st)) Handlers.MAX_MESSAGE_LENGTH
       = Ok (c :: cs).
Proof.
  assert (Hne : snd (handle_message text st) <> "").
  { unfold handle_message.
    destruct (deliver text st) as [st1 [result | e]]; simpl.
    - apply render_nonempty.
    - destruct e as [m | code m | m | m | m]; simpl;
        try (apply failure_report_nonempty); try discriminate.
      destruct (code =? 404); simpl.
      + destruct (deliver text (set_current None st1)) as [st3 [result | e']];
          simpl; [apply render_nonempty | apply failure_report_nonempty].
      + apply (failure_report_nonempty (HTTPStatusError code m)). }
  split; [exact Hne|].
  apply chunk_text_nonempty; [reflexivity | exact Hne].
Qed.

End Replies.

(** ** bot_core.handle_start_opencode, handle_restart_opencode: what they
       leave in the state *)

Section SupervisionHandlers.
Context {W : Type} `{BotCore.Deps W}.

Import Client BotCore.

Lemma sorted_head_listed (sessions : list session) (first : session)
    (rest : list session) :
  sorted sort_key key_lt true sessions = first :: rest -> In first sessions.
Proof.
  intros Hs. destruct sessions as [|d l]; [discriminate|].
  destruct (sorted_reverse_head sort_key key_lt key_lt_asym key_lt_cotrans
              (d :: l) ltac:(discriminate))
    as [sel [rest' [pre [post [Hsorted [Hsplit _]]]]]].
  rewrite Hsorted in Hs. injection Hs as <- _.
  rewrite Hsplit. apply in_or_app. right. now left.
Qed.

(** X13. [handle_start_opencode] asks the runner once to make sure the
    backend runs, hands its verdict back, never touches the session pointer,
    and remembers the default directory only when the runner succeeded and no
    directory was remembered.  [handle_restart_opencode] restarts once, in the
    remembered directory (the default one when none, or an empty one, is
    remembered), and remembers that directory even when the restart fails.
    A failed restart lists nothing and keeps the session pointer; a
    successful one lists the sessions once and leaves the pointer empty or
    holding the id of one of the listed sessions. *)
Theorem supervision_handlers_effects (log_path : option string) (st : state W) :
  (exists ok,
      log (fst (handle_start_opencode log_path st))
      = log st ++ [EvEnsure log_path ok]
      /\ fst (snd (handle_start_opencode log_path st)) = ok
      /\ current_session_id (fst (handle_start_opencode log_path st))
         = current_session_id st
      /\ _last_opencode_cwd (fst (handle_start_opencode log_path st))
         = match _last_opencode_cwd st with
           | Some c => Some c
           | None =>
               if ok
               then Some (_default_cwd
                            (world (fst (handle_start_opencode log_path st))))
               else None
           end)
  /\ (exists ok evs,
         log (fst (handle_restart_opencode log_path st))
         = log st ++ EvRestart log_path (restart_cwd st) ok :: evs
         /\ fst (snd (handle_restart_opencode log_path st)) = ok
         /\ _last_opencode_cwd (fst (handle_restart_opencode log_path st))
            = Some (restart_cwd st)
         /\ if ok then
              exists lr,
                evs = [EvListSessions lr]
                /\ (current_session_id (fst (handle_restart_opencode log_path st))
                    = None
                    \/ exists ss s,
                        lr = Ok ss /\ In s ss
                        /\ current_session_id
                             (fst (handle_restart_opencode log_path st))
                           = sess_id s)
            else
              evs = []
              /\ current_session_id (fst (handle_restart_opencode log_path st))
                 = current_session_id st).
Proof.
  split.
  - unfold handle_start_opencode, call_ensure.
    destruct (ensure_opencode_running log_path (world st)) as [w' [ok msg]].
    exists ok. cbn [emit _last_opencode_cwd].
    destruct ok; destruct (_last_opencode_cwd st) as [c|] eqn:Ec; cbn;
      rewrite ?Ec; repeat split.
  - unfold handle_restart_opencode, call_restart.
    cbn [world set_cwd].
    destruct (restart_opencode log_path (restart_cwd st) (world st))
      as [w' [ok msg]].
    destruct ok; simpl negb; cbv iota.
    + exists true.
      unfold call_list_sessions. cbn [world set_current emit].
      destruct (list_sessions w') as [w'' lr].
      exists [EvListSessions lr].
      destruct lr as [ss | e].
      * destruct ss as [|s0 ss0].
        -- cbn. rewrite <- app_assoc. repeat split.
           exists (Ok []). split; [reflexivity | now left].
        -- destruct (sorted sort_key key_lt true (s0 :: ss0))
             as [|first rest] eqn:Es.
           ++ cbn. rewrite <- app_assoc. repeat split.
              exists (Ok (s0 :: ss0)). split; [reflexivity | now left].
           ++ cbn. rewrite <- app_assoc. repeat split.
              exists (Ok (s0 :: ss0)). split; [reflexivity|]. right.
              exists (s0 :: ss0), first. repeat split.
              eapply sorted_head_listed; eassumption.
      * cbn. rewrite <- app_assoc. repeat split.
        exists (Err e). split; [reflexivity | now left].
    + exists false, []. cbn. repeat split.
Qed.

End SupervisionHandlers.

(** ** bot_core.handle_new_session, handle_switch_session *)

Section SessionCommands.
Context {W : Type} `{BotCore.Deps W}.

Import Client BotCore.

Lemma handle_switch_session_title (session_id : string) (st : state W) :
  handle_switch_session session_id st
  = match call_list_sessions st with
    | (st1, Ok sessions) =>
        (switch_session session_id st1,
         ("已切换到会话: " ++ Handlers.reported_title session_id sessions)%string)
    | (st1, Err e) => (st1, ("切换失败: " ++ exn_str e)%string)
    end.
Proof. reflexivity. Qed.

Lemma reported_title_unlisted (session_id : string) (sessions : list session) :
  (forall s, In s sessions -> sess_id s <> Some session_id) ->
  Handlers.reported_title session_id sessions = "(无标题)".
Proof.
  intros Hno. unfold Handlers.reported_title.
  destruct (find _ sessions) as [s|] eqn:Ef; [|reflexivity].
  apply find_some in Ef. destruct Ef as [Hin Hid].
  destruct (sess_id s) as [i|] eqn:Ei; [|discriminate].
  apply String.eqb_eq in Hid. subst i. now apply Hno in Hin.
Qed.

(** X14. The two session commands.  [handle_new_session] asks the backend
    for one new session and nothing else; the pointer becomes the id of that
    session, and stays as it was when the creation fails or the answer has no
    id.  [handle_switch_session] lists the sessions once and creates nothing;
    when the listing succeeds the pointer becomes the requested id whether or
    not the list holds it (an id that is not listed is reported with the
    title placeholder), and when the listing fails the pointer stays as it
    was.  Neither changes the remembered directory. *)
Theorem session_commands_effects (st : state W) :
  (exists r,
      log (fst (handle_new_session st)) = log st ++ [EvCreateSession r]
      /\ _last_opencode_cwd (fst (handle_new_session st)) = _last_opencode_cwd st
      /\ match r with
         | Ok s =>
             match sess_id s with
             | Some i =>
                 current_session_id (fst (handle_new_session st)) = Some i
                 /\ snd (handle_new_session st) = "已切换到新会话。"
             | None =>
                 current_session_id (fst (handle_new_session st))
                 = current_session_id st
                 /\ snd (handle_new_session st) = "创建会话失败: 'id'"
             end
         | Err e =>
             current_session_id (fst (handle_new_session st))
             = current_session_id st
             /\ snd (handle_new_session st)
                = ("创建会话失败: " ++ exn_str e)%string
         end)
  /\ (forall session_id,
         exists r,
           log (fst (handle_switch_session session_id st))
           = log st ++ [EvListSessions r]
           /\ _last_opencode_cwd (fst (handle_switch_session session_id st))
              = _last_opencode_cwd st
           /\ match r with
              | Ok sessions =>
                  current_session_id (fst (handle_switch_session session_id st))
                  = Some session_id
                  /\ ((forall s, In s sessions -> sess_id s <> Some session_id) ->
                      snd (handle_switch_session session_id st)
                      = "已切换到会话: (无标题)")
              | Err e =>
                  current_session_id (fst (handle_switch_session session_id st))
                  = current_session_id st
                  /\ snd (handle_switch_session session_id st)
                     = ("切换失败: " ++ exn_str e)%string
              end).
Proof.
  split.
  - unfold handle_new_session, bind, lift, call_create_session.
    destruct (create_session (world st)) as [w' r]. exists r.
    destruct r as [s | e]; [|cbn; repeat split].
    unfold subscript_id. destruct (sess_id s) as [i|]; cbn; repeat split.
  - intros session_id. rewrite handle_switch_session_title.
    unfold call_list_sessions.
    destruct (list_sessions (world st)) as [w' r]. exists r.
    destruct r as [sessions | e]; cbn; repeat split.
    intros Hno. now rewrite reported_title_unlisted.
Qed.

End SessionCommands.

(** ** bot_core.strip_leading_for_command *)

Lemma lstrip_split (s : string) :
  exists ws,
    s = (ws ++ Py.lstrip s)%string
    /\ (forall c, In c (list_ascii_of_string ws) -> Py.isspace c = true)
    /\ Py.lstrip (Py.lstrip s) = Py.lstrip s.
Proof.
  induction s as [|c s [ws [Hs [Hws Hfix]]]].
  - exists "". repeat split. intros c [].
  - simpl. destruct (Py.isspace c) eqn:Ec.
    + exists (String c ws). simpl. split; [now rewrite <- Hs|].
      split; [|exact Hfix]. intros d [<- | Hd]; auto.
    + exists "". simpl. rewrite Ec. repeat split. intros d [].
Qed.

Lemma drop_unprintable_split (s : string) :
  exists np,
    s = (np ++ Handlers.drop_unprintable s)%string
    /\ (forall c, In c (list_ascii_of_string np) -> Handlers.isprintable c = false)
    /\ match Handlers.drop_unprintable s with
       | EmptyString => True
       | String c _ => Handlers.isprintable c = true
       end.
Proof.
  induction s as [|c s [np [Hs [Hnp Hhead]]]].
  - exists "". repeat split. intros c [].
  - simpl. destruct (Handlers.isprintable c) eqn:Ec.
    + exists "". repeat split; [intros d [] | exact Ec].
    + exists (String c np). simpl. split; [now rewrite <- Hs|].
      split; [|exact Hhead]. intros d [<- | Hd]; auto.
Qed.

(** X15. [strip_leading_for_command] cuts the text in three: leading white
    space, then characters that are not printable, then the result; the part
    after the white space does not begin with white space, and the result is
    empty or begins with a printable character.  The white space is removed
    once only: a space that follows a removed unprintable character stays at
    the head of the result.  The argument [None] gives the empty string. *)
Theorem strip_leading_for_command_cuts (s : string) :
  (exists ws np,
      s = (ws ++ np ++ Handlers.strip_leading_for_command (Some s))%string
      /\ (forall c, In c (list_ascii_of_string ws) -> Py.isspace c = true)
      /\ (forall c, In c (list_ascii_of_string np) ->
                    Handlers.isprintable c = false)
      /\ Py.lstrip (np ++ Handlers.strip_leading_for_command (Some s))
         = (np ++ Handlers.strip_leading_for_command (Some s))%string
      /\ match Handlers.strip_leading_for_command (Some s) with
         | EmptyString => True
         | String c _ => Handlers.isprintable c = true
         end)
  /\ (forall c, Py.isspace c = false -> Handlers.isprintable c = false ->
                Handlers.strip_leading_for_command
                  (Some (String c (String " " s)))
                = String " " s)
  /\ Handlers.strip_leading_for_command None = "".
Proof.
  split; [|split; [|reflexivity]].
  - unfold Handlers.strip_leading_for_command.
    destruct (lstrip_split s) as [ws [Hs [Hws Hfix]]].
    destruct (drop_unprintable_split (Py.lstrip s)) as [np [Hl [Hnp Hhead]]].
    exists ws, np. rewrite <- Hl. repeat split; auto.
  - intros c Hsp Hpr. unfold Handlers.strip_leading_for_command.
    simpl. rewrite Hsp. simpl. rewrite Hpr. reflexivity.
Qed.

(** ** bot_core.handle_opencode_status *)

Section StatusReport.
Context {W : Type} `{Runner.OS W}.

Import Runner.

(** X16. [handle_opencode_status] only looks: it probes the port once, then
    the health endpoint once, and does nothing else.  The port it reports is
    the one [ensure_opencode_running] and [restart_opencode] work on, except
    when the configured URL names port 443: the status then reports the
    default port while the supervisor works on 443.  When nothing listens on
    the port the report has exactly the three lines port, in use: no,
    healthy. *)
Theorem status_report_probes_only (st : state W) :
  Status.status_port (W := W)
  = (if _parse_port_from_base_url (get_base_url (W := W)) =? 443
     then DEFAULT_PORT else resolve_port (W := W) None)
  /\ (_parse_port_from_base_url (get_base_url (W := W)) = 443 ->
      resolve_port (W := W) None = 443
      /\ Status.status_port (W := W) = DEFAULT_PORT)
  /\ exists in_use pid healthy,
       log (fst (Status.handle_opencode_status st))
       = log st ++ [EvCheckPort Status.status_port in_use pid; EvHealth healthy]
       /\ (in_use = false ->
           snd (Status.handle_opencode_status st)
           = ("OpenCode 状态:" ++ Handlers.nl
              ++ "端口: " ++ Py.str_of_int Status.status_port ++ Handlers.nl
              ++ "占用: 否" ++ Handlers.nl
              ++ "健康: " ++ Status.yes_no healthy)%string).
Proof.
  split; [|split].
  - unfold Status.status_port, resolve_port.
    destruct (Z.eqb_spec (_parse_port_from_base_url get_base_url) 443) as [E|N].
    + rewrite E. reflexivity.
    + rewrite orb_false_r. reflexivity.
  - intros E. unfold Status.status_port, resolve_port. rewrite E.
    split; reflexivity.
  - unfold Status.handle_opencode_status.
    destruct (check_port Status.status_port st) as [st1 [[in_use pid] cmd]] eqn:Ec.
    destruct (is_opencode_healthy st1) as [st2 healthy] eqn:Eh.
    exists in_use, pid, healthy.
    apply is_opencode_healthy_log in Eh.
    pose proof Ec as Ec'. apply check_port_log in Ec'.
    destruct Ec' as [Hlog Hpid]. split.
    + cbn [fst]. rewrite Eh, Hlog, <- app_assoc. reflexivity.
    + intros ->. cbn [snd].
      unfold check_port in Ec.
      destruct (connect Status.status_port (world st)) as [w1 [|]].
      * destruct (_get_process_on_port Status.status_port w1) as [w2 [p c]].
        discriminate.
      * injection Ec as _ <- <-. reflexivity.
Qed.

End StatusReport.

(** ** bot_core.handle_session_list *)

Lemma string_append_assoc (a b c : string) :
  ((a ++ b) ++ c)%string = (a ++ (b ++ c))%string.
Proof. induction a as [|x a IH]; simpl; [reflexivity | now rewrite IH]. Qed.

Section SessionList.
Context {W : Type} `{BotCore.Deps W}.

Import Client BotCore.

(** X17. [handle_session_list] only reads: it asks the backend for the
    session list once and leaves the session pointer and the remembered
    directory as they were, also when the pointer names a session that is not
    listed.  A failing listing is reported with its message, an empty list
    with the invitation to send a message, and a list that is not empty with
    one line per session under the heading, the line of a session whose id is
    the pointer carrying the current mark at its end. *)
Theorem session_list_reads_only (st : state W) :
  exists r,
    log (fst (Handlers.handle_session_list st)) = log st ++ [EvListSessions r]
    /\ current_session_id (fst (Handlers.handle_session_list st))
       = current_session_id st
    /\ _last_opencode_cwd (fst (Handlers.handle_session_list st))
       = _last_opencode_cwd st
    /\ match r with
       | Err e =>
           snd (Handlers.handle_session_list st)
           = ("获取会话失败: " ++ exn_str e)%string
       | Ok [] =>
           snd (Handlers.handle_session_list st)
           = "当前无会话，发送任意消息将自动创建。"
       | Ok sessions =>
           exists lines,
             snd (Handlers.handle_session_list st)
             = ("会话列表（点击下方按钮切换当前会话）:" ++ Handlers.nl
                ++ Handlers.join_with Handlers.nl lines)%string
             /\ List.length lines = List.length sessions
             /\ forall i s line,
                  nth_error sessions i = Some s ->
                  nth_error lines i = Some line ->
                  line = Handlers.session_line (current_session_id st) s
                  /\ (forall cur, current_session_id st = Some cur ->
                                  sess_id s = Some cur ->
                                  exists body, line = (body ++ " [当前]")%string)
       end.
Proof.
  unfold Handlers.handle_session_list, call_list_sessions.
  destruct (list_sessions (world st)) as [w' r]. exists r.
  destruct r as [sessions | e]; [|cbn; repeat split].
  destruct sessions as [|s0 ss]; [cbn; repeat split|].
  cbn [fst snd emit log current_session_id _last_opencode_cwd].
  split; [reflexivity|]. split; [reflexivity|]. split; [reflexivity|].
  exists (map (Handlers.session_line (current_session_id st)) (s0 :: ss)).
  split; [reflexivity|]. split; [apply length_map|].
  intros i s line Hs Hl.
  rewrite nth_error_map, Hs in Hl. simpl in Hl. injection Hl as <-.
  split; [reflexivity|].
  intros cur Hcur Hid. unfold Handlers.session_line.
  rewrite Hcur, Hid, String.eqb_refl.
  exists ("• " ++ substring 0 8 cur ++ "… "
          ++ match sess_title s with
             | Some t => if Py.truthy t then t else "(无标题)"
             | None => "(无标题)"
             end)%string.
  rewrite !string_append_assoc. reflexivity.
Qed.

End SessionList.

(** ** bot_core._format_session_messages *)

Lemma rstrip_app (a b : string) :
  Py.rstrip (a ++ b)
  = if Py.truthy (Py.rstrip b) then (a ++ Py.rstrip b)%string else Py.rstrip a.
Proof.
  induction a as [|c a IH].
  - simpl. destruct (Py.rstrip b); reflexivity.
  - simpl. rewrite IH. destruct (Py.rstrip b) as [|d r] eqn:Eb; simpl.
    + reflexivity.
    + destruct a; reflexivity.
Qed.

Lemma rstrip_idem (s : string) : Py.rstrip (Py.rstrip s) = Py.rstrip s.
Proof.
  induction s as [|c s IH]; [reflexivity|].
  simpl. destruct (Py.rstrip s) as [|d r] eqn:Es.
  - destruct (Py.isspace c) eqn:Ec; [reflexivity|]. simpl. now rewrite Ec.
  - change (Py.rstrip (String c (String d r))) with
      (match Py.rstrip (String d r) with
       | EmptyString => if Py.isspace c then EmptyString else String c EmptyString
       | r' => String c r'
       end).
    rewrite IH. reflexivity.
Qed.

Lemma prefix_refl (s : string) : String.prefix s s = true.
Proof.
  induction s as [|c s IH]; [reflexivity|]. simpl.
  destruct (ascii_dec c c); [exact IH | congruence].
Qed.

Lemma contains_refl (s : string) : Py.contains s s = true.
Proof.
  destruct s as [|c s]; [reflexivity|].
  unfold Py.contains. rewrite (prefix_refl (String c s)). reflexivity.
Qed.

Lemma contains_infix (a r b : string) : Py.contains (a ++ r ++ b) r = true.
Proof. apply contains_app_l, contains_app_r, contains_refl. Qed.

Lemma append_nil_r (s : string) : (s ++ "")%string = s.
Proof. induction s as [|c s IH]; simpl; [reflexivity | now rewrite IH]. Qed.

Lemma join_with_cons (sep x y : string) (l : list string) :
  Handlers.join_with sep (x :: y :: l)
  = (x ++ sep ++ Handlers.join_with sep (y :: l))%string.
Proof. reflexivity. Qed.

Lemma join_with_in (sep r : string) (l : list string) :
  In r l -> exists a b, Handlers.join_with sep l = (a ++ r ++ b)%string.
Proof.
  induction l as [|x l IH]; [intros []|].
  destruct l as [|y l].
  - intros [<- | []]. exists "", "". simpl. now rewrite append_nil_r.
  - rewrite join_with_cons. intros [<- | Hin].
    + exists "", (sep ++ Handlers.join_with sep (y :: l))%string. reflexivity.
    + destruct (IH Hin) as [a [b Hab]]. rewrite Hab.
      exists (x ++ sep ++ a)%string, b. now rewrite !string_append_assoc.
Qed.

Lemma message_blocks_text (i : nat) (msg : Client.message) (t : string) :
  In t (Client.text_parts (Client.parts_or_empty msg)) ->
  Py.strip t <> "" ->
  In (Py.strip t) (Handlers.message_blocks i msg).
Proof.
  intros Hin Hne. unfold Handlers.message_blocks.
  apply in_or_app. right. apply in_or_app. left.
  apply in_flat_map. exists t. split; [exact Hin|].
  apply truthy_true_iff in Hne. rewrite Hne. now left.
Qed.

Lemma blocks_from_message (i : nat) (messages : list Client.message)
    (msg : Client.message) :
  In msg messages ->
  exists j, incl (Handlers.message_blocks j msg) (Handlers.blocks_from i messages).
Proof.
  revert i. induction messages as [|m ms IH]; intros i; [intros []|].
  intros [<- | Hin].
  - exists i. intros x Hx. cbn [Handlers.blocks_from].
    apply in_or_app. now left.
  - destruct (IH (S i) Hin) as [j Hj]. exists j.
    intros x Hx. cbn [Handlers.blocks_from].
    apply in_or_app. right. now apply Hj.
Qed.

Lemma extract_final_result_block (i : nat) (msg : Client.message) :
  Client._extract_final_result msg <> "" ->
  In (Client._extract_final_result msg) (Handlers.message_blocks i msg).
Proof.
  unfold Client._extract_final_result.
  destruct (rev (Client.text_parts (Client.parts_or_empty msg))) as [|t l] eqn:Er;
    [congruence|].
  intros Hne. apply message_blocks_text; [|exact Hne].
  apply in_rev. rewrite Er. now left.
Qed.

(** The joined blocks of a list of messages that is not empty start with the
    first heading, and so do they once stripped. *)
Lemma format_joined_head (msg : Client.message) (rest : list Client.message) :
  exists b,
    Handlers.join_with Handlers.nl (Handlers.blocks_from 0 (msg :: rest))
    = ("## Message 1" ++ b)%string.
Proof.
  assert (Hb : exists y l,
             Handlers.blocks_from 0 (msg :: rest)
             = ("## Message 1" ++ Handlers.nl)%string :: y :: l).
  { cbn [Handlers.blocks_from]. unfold Handlers.message_blocks.
    change (Py.str_of_int (Z.of_nat 0 + 1)) with "1".
    destruct (flat_map _ (Client.text_parts (Client.parts_or_empty msg)))
      as [|y l]; simpl; eauto. }
  destruct Hb as [y [l ->]]. rewrite join_with_cons.
  eexists. rewrite string_append_assoc. reflexivity.
Qed.

Lemma strip_headed (b : string) :
  Py.strip ("## Message 1" ++ b) = Py.rstrip ("## Message 1" ++ b)
  /\ exists b', Py.rstrip ("## Message 1" ++ b) = ("## Message 1" ++ b')%string.
Proof.
  split; [reflexivity|].
  rewrite rstrip_app. destruct (Py.truthy (Py.rstrip b)).
  - eexists. reflexivity.
  - exists "". reflexivity.
Qed.

(** X18. [_format_session_messages] never returns the empty string: for no
    message it returns the placeholder, and for at least one message the
    text begins with the heading of the first message.  Every final result
    that [_extract_final_result] reads from one of the messages (the text the
    user was sent as the reply), when it is not empty, appears in the
    export. *)
Theorem format_session_messages_holds_results :
  Handlers._format_session_messages [] = "(无内容)"
  /\ (forall messages, Handlers._format_session_messages messages <> "")
  /\ (forall msg rest,
         Py.startswith (Handlers._format_session_messages (msg :: rest))
           "## Message 1" = true)
  /\ (forall messages msg,
         In msg messages ->
         Client._extract_final_result msg <> "" ->
         Py.contains (Handlers._format_session_messages messages)
           (Client._extract_final_result msg) = true).
Proof.
  assert (Hhead : forall msg rest,
             exists b',
               Handlers._format_session_messages (msg :: rest)
               = ("## Message 1" ++ b')%string
               /\ Handlers._format_session_messages (msg :: rest)
                  = Py.rstrip (Handlers.join_with Handlers.nl
                                 (Handlers.blocks_from 0 (msg :: rest)))).
  { intros msg rest. unfold Handlers._format_session_messages.
    destruct (format_joined_head msg rest) as [b Hb]. rewrite Hb.
    destruct (strip_headed b) as [Hs [b' Hb']].
    rewrite Hs, Hb'. exists b'. split; reflexivity. }
  split; [reflexivity|]. split; [|split].
  - intros [|msg rest]; [discriminate|].
    destruct (Hhead msg rest) as [b' [-> _]]. discriminate.
  - intros msg rest. destruct (Hhead msg rest) as [b' [-> _]].
    apply prefix_app, prefix_refl.
  - intros messages msg Hin Hne.
    destruct messages as [|m0 ms]; [destruct Hin|].
    destruct (Hhead m0 ms) as [_ [_ ->]].
    destruct (blocks_from_message 0 (m0 :: ms) msg Hin) as [j Hj].
    pose proof (extract_final_result_block j msg Hne) as Hblock.
    apply Hj in Hblock.
    destruct (join_with_in Handlers.nl _ _ Hblock) as [a [b Hab]].
    rewrite Hab.
    assert (Hr : Py.rstrip (Client._extract_final_result msg)
                 = Client._extract_final_result msg).
    { unfold Client._extract_final_result.
      destruct (rev _) as [|t l]; [reflexivity|].
      unfold Py.strip. apply rstrip_idem. }
    rewrite <- string_append_assoc, rstrip_app.
    destruct (Py.truthy (Py.rstrip b)).
    + rewrite string_append_assoc. apply contains_infix.
    + rewrite rstrip_app, Hr.
      apply truthy_true_iff in Hne. rewrite Hne.
      apply contains_app_l, contains_refl.
Qed.

(** ** opencode_runner._parse_port_from_base_url: a port that is written is
       the port that is read *)

Ltac eval_digit :=
  match goal with
  | |- context [Py.digit_value ?c] =>
      let v := eval vm_compute in (Py.digit_value c) in
      change (Py.digit_value c) with v
  end.

Lemma int_digits_of_uint_acc (d : Decimal.uint) (acc : positive) :
  Py.int_digits (Z.pos acc) true (NilEmpty.string_of_uint d)
  = Some (Z.pos (Pos.of_uint_acc d acc)).
Proof.
  revert acc. induction d as [|d IH|d IH|d IH|d IH|d IH|d IH|d IH|d IH|d IH|d IH];
    intros acc; [reflexivity|..];
    cbn [NilEmpty.string_of_uint Py.int_digits Pos.of_uint_acc];
    change (Py.is_digit _) with true; cbv iota;
    rewrite <- IH; f_equal; eval_digit; lia.
Qed.

Lemma int_digits_of_uint (d : Decimal.uint) (b : bool) :
  d <> Decimal.Nil ->
  Py.int_digits 0 b (NilEmpty.string_of_uint d) = Some (Z.of_N (Pos.of_uint d)).
Proof.
  revert b. induction d as [|d IH|d IH|d IH|d IH|d IH|d IH|d IH|d IH|d IH|d IH];
    intros b Hne; [congruence|..];
    cbn [NilEmpty.string_of_uint Py.int_digits Pos.of_uint];
    change (Py.is_digit _) with true; cbv iota;
    eval_digit; cbn [Z.mul Z.add];
    try (rewrite int_digits_of_uint_acc; reflexivity).
  destruct d; [reflexivity|..]; apply IH; discriminate.
Qed.

Lemma string_of_uint_digits (d : Decimal.uint) (c : ascii) :
  In c (list_ascii_of_string (NilEmpty.string_of_uint d)) -> Py.is_digit c = true.
Proof.
  induction d as [|d IH|d IH|d IH|d IH|d IH|d IH|d IH|d IH|d IH|d IH];
    simpl; intros Hin; [contradiction|..];
    (destruct Hin as [<- | Hin]; [reflexivity | now apply IH]).
Qed.

(** [str(n)] of a natural number: digits only, at least one, and [int_digits]
    reads the number back. *)
Lemma str_of_int_digits (n : Z) :
  0 <= n ->
  Py.str_of_int n <> ""
  /\ (forall c, In c (list_ascii_of_string (Py.str_of_int n)) ->
                Py.is_digit c = true)
  /\ Py.int_digits 0 false (Py.str_of_int n) = Some n.
Proof.
  intros Hn. unfold Py.str_of_int. destruct n as [|p|p]; [| |lia].
  - repeat split; [discriminate|]. intros c [<- | []]. reflexivity.
  - cbn [Z.to_int NilZero.string_of_int].
    pose proof (Unsigned.to_uint_nonnil p) as Hnil.
    assert (E : NilZero.string_of_uint (Pos.to_uint p)
                = NilEmpty.string_of_uint (Pos.to_uint p)).
    { destruct (Pos.to_uint p); [congruence|..]; reflexivity. }
    rewrite E. split; [|split].
    + destruct (Pos.to_uint p); [congruence|..]; discriminate.
    + apply string_of_uint_digits.
    + rewrite int_digits_of_uint by exact Hnil.
      now rewrite Unsigned.of_to.
Qed.

Lemma is_digit_plain (c : ascii) :
  Py.is_digit c = true ->
  Py.isspace c = false /\ c <> "/"%char /\ c <> ":"%char
  /\ c <> "+"%char /\ c <> "-"%char.
Proof.
  unfold Py.is_digit, Py.isspace. intros Hd.
  apply andb_true_iff in Hd. destruct Hd as [H1 H2].
  apply Nat.leb_le in H1. apply Nat.leb_le in H2.
  split; [|repeat split; intros ->; vm_compute in H1, H2; lia].
  set (n := nat_of_ascii c) in *.
  destruct (Nat.leb_spec 9 n), (Nat.leb_spec n 13), (Nat.leb_spec 28 n),
    (Nat.leb_spec n 32), (Nat.eqb_spec n 133), (Nat.eqb_spec n 160);
    simpl; try reflexivity; lia.
Qed.

Lemma lstrip_plain (c : ascii) (s : string) :
  Py.isspace c = false -> Py.lstrip (String c s) = String c s.
Proof. intros Hc. simpl. now rewrite Hc. Qed.

Lemma rstrip_plain (s : string) :
  (forall c, In c (list_ascii_of_string s) -> Py.isspace c = false) ->
  Py.rstrip s = s.
Proof.
  induction s as [|c s IH]; [reflexivity|]. intros Hall.
  simpl. rewrite IH by (intros d Hd; apply Hall; now right).
  destruct s; [|reflexivity]. rewrite (Hall c) by now left. reflexivity.
Qed.

Lemma int_unsigned (c : ascii) (r : string) :
  c <> "+"%char -> c <> "-"%char ->
  Py.strip (String c r) = String c r ->
  Py.int (String c r) = Py.int_digits 0 false (String c r).
Proof.
  intros Hp Hm Hs. unfold Py.int. rewrite Hs.
  destruct (ascii_dec c "+") as [->|_]; [congruence|].
  destruct (ascii_dec c "-") as [->|_]; [congruence|].
  destruct c as [[|] [|] [|] [|] [|] [|] [|] [|]]; try reflexivity; congruence.
Qed.

(** [int(str(n))] is [n] for a natural number. *)
Lemma int_str_of_int (n : Z) : 0 <= n -> Py.int (Py.str_of_int n) = Some n.
Proof.
  intros Hn. destruct (str_of_int_digits n Hn) as [Hne [Hdig Hval]].
  destruct (Py.str_of_int n) as [|c r] eqn:Es; [congruence|].
  assert (Hc : Py.is_digit c = true) by (apply Hdig; now left).
  destruct (is_digit_plain c Hc) as [Hsp [_ [_ [Hp Hm]]]].
  rewrite int_unsigned; auto.
  unfold Py.strip. rewrite lstrip_plain by exact Hsp.
  apply rstrip_plain. intros d Hd. now apply is_digit_plain, Hdig.
Qed.

Lemma contains_char_absent (sep : ascii) (s : string) :
  (forall c, In c (list_ascii_of_string s) -> c <> sep) ->
  Py.contains s (String sep "") = false.
Proof.
  induction s as [|c s IH]; intros Hall; [reflexivity|].
  simpl. rewrite IH by (intros d Hd; apply Hall; now right).
  destruct (ascii_dec sep c) as [->|_]; [|reflexivity].
  exfalso. apply (Hall c); [now left | reflexivity].
Qed.

Lemma contains_char_present (sep : ascii) (a b : string) :
  Py.contains (a ++ String sep b) (String sep "") = true.
Proof.
  apply contains_app_l. simpl.
  destruct (ascii_dec sep sep); [|congruence]. destruct b; reflexivity.
Qed.

Lemma split_first_absent (sep : ascii) (s : string) :
  (forall c, In c (list_ascii_of_string s) -> c <> sep) ->
  Py.split_first sep s = s.
Proof.
  induction s as [|c s IH]; intros Hall; [reflexivity|].
  simpl. rewrite IH by (intros d Hd; apply Hall; now right).
  destruct (Ascii.eqb_spec c sep) as [->|_]; [|reflexivity].
  exfalso. apply (Hall sep); [now left | reflexivity].
Qed.

Lemma split_first_app (sep : ascii) (a b : string) :
  (forall c, In c (list_ascii_of_string a) -> c <> sep) ->
  Py.split_first sep (a ++ String sep b) = a.
Proof.
  induction a as [|c a IH]; intros Hall; simpl.
  - now rewrite Ascii.eqb_refl.
  - rewrite IH by (intros d Hd; apply Hall; now right).
    destruct (Ascii.eqb_spec c sep) as [->|_]; [|reflexivity].
    exfalso. apply (Hall sep); [now left | reflexivity].
Qed.

Lemma split_last_absent (sep : ascii) (s : string) :
  (forall c, In c (list_ascii_of_string s) -> c <> sep) ->
  Py.split_last sep s = s.
Proof.
  destruct s as [|c s]; intros Hall; [reflexivity|].
  simpl. rewrite contains_char_absent by (intros d Hd; apply Hall; now right).
  destruct (Ascii.eqb_spec c sep) as [->|_]; [|reflexivity].
  exfalso. apply (Hall sep); [now left | reflexivity].
Qed.

Lemma split_last_app (sep : ascii) (a d : string) :
  (forall c, In c (list_ascii_of_string d) -> c <> sep) ->
  Py.split_last sep (a ++ String sep d) = d.
Proof.
  intros Hd. induction a as [|c a IH].
  - simpl. rewrite Ascii.eqb_refl. now apply split_last_absent.
  - change (Py.split_last sep (String c a ++ String sep d)) with
      (if Ascii.eqb c sep then Py.split_last sep (a ++ String sep d)
       else if Py.contains (a ++ String sep d) (String sep EmptyString)
            then Py.split_last sep (a ++ String sep d)
            else String c (a ++ String sep d)).
    rewrite contains_char_present, IH. destruct (Ascii.eqb c sep); reflexivity.
Qed.

(** The host-port segment of a URL made of a host without slash, a colon,
    the decimal port and a path. *)
Lemma host_port_segment (host path : string) (n : Z) :
  0 <= n ->
  (forall c, In c (list_ascii_of_string host) -> c <> "/"%char) ->
  path = "" \/ Py.startswith path "/" = true ->
  Py.split_first "/"%char (host ++ ":" ++ Py.str_of_int n ++ path)
  = (host ++ ":" ++ Py.str_of_int n)%string.
Proof.
  intros Hn Hhost Hpath.
  destruct (str_of_int_digits n Hn) as [_ [Hdig _]].
  assert (Hseg : forall c,
             In c (list_ascii_of_string (host ++ ":" ++ Py.str_of_int n)) ->
             c <> "/"%char).
  { intros c Hc. rewrite list_ascii_app in Hc. apply in_app_or in Hc.
    destruct Hc as [Hc | [<- | Hc]]; [now apply Hhost | discriminate |].
    now apply is_digit_plain, Hdig. }
  destruct Hpath as [-> | Hp].
  - rewrite append_nil_r. now apply split_first_absent.
  - destruct path as [|c path]; [discriminate Hp|].
    change (Py.startswith (String c path) "/")
      with (if ascii_dec "/" c then String.prefix "" path else false) in Hp.
    destruct (ascii_dec "/" c) as [<-|]; [|discriminate].
    replace (host ++ ":" ++ Py.str_of_int n ++ String "/" path)%string
      with ((host ++ ":" ++ Py.str_of_int n) ++ String "/" path)%string
      by (rewrite !string_append_assoc; reflexivity).
    now apply split_first_app.
Qed.

Lemma parse_port_of_segment (url host : string) (n : Z) :
  0 <= n ->
  Runner.host_port_of url = (host ++ ":" ++ Py.str_of_int n)%string ->
  Runner._parse_port_from_base_url url = n.
Proof.
  intros Hn Hseg.
  destruct (str_of_int_digits n Hn) as [_ [Hdig _]].
  unfold Runner._parse_port_from_base_url, Runner._parse_port_body.
  rewrite Hseg.
  change (host ++ ":" ++ Py.str_of_int n)%string
    with (host ++ String ":" (Py.str_of_int n))%string.
  rewrite contains_char_present, split_last_app, int_str_of_int; auto.
  intros c Hc. now apply is_digit_plain, Hdig.
Qed.

(** X19. A port that is written in the URL is the port that is read: for a
    host without a slash, a natural number [n] and a path that is empty or
    begins with a slash, [_parse_port_from_base_url] gives [n] for
    ["http://" + host + ":" + str(n) + path] and for the same URL with
    ["https://"].  The host may hold colons of its own, and the number is not
    checked against the range of TCP ports. *)
Theorem parse_port_reads_written_port (host path : string) (n : Z) :
  0 <= n ->
  (forall c, In c (list_ascii_of_string host) -> c <> "/"%char) ->
  path = "" \/ Py.startswith path "/" = true ->
  Runner._parse_port_from_base_url
    ("http://" ++ host ++ ":" ++ Py.str_of_int n ++ path) = n
  /\ Runner._parse_port_from_base_url
       ("https://" ++ host ++ ":" ++ Py.str_of_int n ++ path) = n.
Proof.
  intros Hn Hhost Hpath.
  pose proof (host_port_segment host path n Hn Hhost Hpath) as Hseg.
  split; apply (parse_port_of_segment _ host n Hn).
  - unfold Runner.host_port_of.
    replace (Py.startswith ("http://" ++ host ++ ":" ++ Py.str_of_int n ++ path)
               "http://") with true
      by (symmetry; apply prefix_app, prefix_refl).
    exact Hseg.
  - unfold Runner.host_port_of.
    replace (Py.startswith ("https://" ++ host ++ ":" ++ Py.str_of_int n ++ path)
               "http://") with false by reflexivity.
    replace (Py.startswith ("https://" ++ host ++ ":" ++ Py.str_of_int n ++ path)
               "https://") with true
      by (symmetry; apply prefix_app, prefix_refl).
    exact Hseg.
Qed.

Lemma parse_port_reads_written_port_witness :
  0 <= 5000
  /\ (forall c, In c (list_ascii_of_string "[::1]") -> c <> "/"%char)
  /\ ("/api" = "" \/ Py.startswith "/api" "/" = true)
  /\ Runner._parse_port_from_base_url
       ("http://" ++ "[::1]" ++ ":" ++ Py.str_of_int 5000 ++ "/api") = 5000
  /\ Runner._parse_port_from_base_url
       ("https://" ++ "[::1]" ++ ":" ++ Py.str_of_int 5000 ++ "/api") = 5000.
Proof.
  assert (Hhost : forall c, In c (list_ascii_of_string "[::1]") -> c <> "/"%char).
  { simpl. intros c Hc. intuition (subst; discriminate). }
  assert (Hpath : "/api" = "" \/ Py.startswith "/api" "/" = true)
    by (right; reflexivity).
  split; [lia|]. split; [exact Hhost|]. split; [exact Hpath|].
  apply (parse_port_reads_written_port "[::1]" "/api" 5000); [lia | exact Hhost | exact Hpath].
Defined.

(** ** bot_core.get_or_create_session, handle_message: how much they ask of
       the backend *)

Section BackendBudget.
Context {W : Type} `{BotCore.Deps W}.

Import Client BotCore.

Lemma calls_app (p : event -> bool) (a b : list event) :
  Handlers.calls p (a ++ b) = (Handlers.calls p a + Handlers.calls p b)%nat.
Proof. unfold Handlers.calls. now rewrite filter_app, length_app. Qed.

Lemma budget_refl (st : state W) : Handlers.within_budget 0 0 0 st st.
Proof.
  exists []. rewrite app_nil_r. repeat split; auto.
Qed.

Lemma budget_set_current (o : option string) (st : state W) :
  Handlers.within_budget 0 0 0 st (set_current o st).
Proof.
  exists []. cbn. rewrite app_nil_r. repeat split; auto.
Qed.

Lemma budget_trans (l1 c1 s1 l2 c2 s2 : nat) (st st1 st2 : state W) :
  Handlers.within_budget l1 c1 s1 st st1 ->
  Handlers.within_budget l2 c2 s2 st1 st2 ->
  Handlers.within_budget (l1 + l2) (c1 + c2) (s1 + s2) st st2.
Proof.
  intros [e1 [H1 [Hl1 [Hc1 [Hs1 [Hv1 Hd1]]]]]] [e2 [H2 [Hl2 [Hc2 [Hs2 [Hv2 Hd2]]]]]].
  exists (e1 ++ e2). rewrite H2, H1, <- app_assoc, !calls_app.
  repeat split; try lia. congruence.
Qed.

Lemma budget_weaken (l1 c1 s1 l2 c2 s2 : nat) (st st' : state W) :
  Handlers.within_budget l1 c1 s1 st st' ->
  (l1 <= l2)%nat -> (c1 <= c2)%nat -> (s1 <= s2)%nat ->
  Handlers.within_budget l2 c2 s2 st st'.
Proof.
  intros [e [H1 [Hl [Hc [Hs [Hv Hd]]]]]] L C S.
  exists e. repeat split; auto; lia.
Qed.

Lemma budget_list (st : state W) :
  Handlers.within_budget 1 0 0 st (fst (call_list_sessions st)).
Proof.
  unfold call_list_sessions. destruct (list_sessions (world st)) as [w' r].
  exists [EvListSessions r]. cbn. repeat split; auto.
Qed.

Lemma budget_create (st : state W) :
  Handlers.within_budget 0 1 0 st (fst (call_create_session st)).
Proof.
  unfold call_create_session. destruct (create_session (world st)) as [w' r].
  exists [EvCreateSession r]. cbn. repeat split; auto.
Qed.

Lemma budget_send (sid text : string) (st : state W) :
  Handlers.within_budget 0 0 1 st (fst (call_send_message sid text st)).
Proof.
  unfold call_send_message. destruct (send_message sid text (world st)) as [w' r].
  exists [EvSendMessage sid text r]. cbn. repeat split; auto.
Qed.

Lemma budget_obtain (st : state W) :
  Handlers.within_budget 1 1 0 st (fst (obtain_session st)).
Proof.
  unfold obtain_session, bind, lift.
  pose proof (budget_list st) as Hl.
  destruct (call_list_sessions st) as [st1 [sessions | e]]; cbn [fst] in *.
  - destruct sessions as [|first rest].
    + pose proof (budget_create st1) as Hc.
      destruct (call_create_session st1) as [st2 [s | e]]; cbn [fst] in *.
      * destruct (subscript_id s) as [i | e]; cbn [fst].
        -- apply (budget_trans 1 0 0 0 1 0 st st1 _ Hl).
           apply (budget_trans 0 1 0 0 0 0 st1 st2 _ Hc).
           apply budget_set_current.
        -- apply (budget_trans 1 0 0 0 1 0 st st1 _ Hl Hc).
      * apply (budget_trans 1 0 0 0 1 0 st st1 _ Hl Hc).
    + destruct (subscript_id first) as [i | e]; cbn [fst].
      * apply (budget_weaken 1 0 0).
        -- apply (budget_trans 1 0 0 0 0 0 st st1 _ Hl). apply budget_set_current.
        -- lia.
        -- lia.
        -- lia.
      * apply (budget_weaken 1 0 0); auto.
  - apply (budget_weaken 1 0 0); auto.
Qed.

Lemma budget_get_or_create (st : state W) :
  Handlers.within_budget 2 1 0 st (fst (get_or_create_session st)).
Proof.
  assert (Hob : Handlers.within_budget 2 1 0 st (fst (obtain_session st))).
  { apply (budget_weaken 1 1 0); [apply budget_obtain | lia | lia | lia]. }
  unfold get_or_create_session.
  destruct (current_session_id st) as [cur|]; [|exact Hob].
  destruct (Py.truthy cur); [|exact Hob].
  pose proof (budget_list st) as Hl.
  assert (Hfall : forall st1,
             Handlers.within_budget 1 0 0 st st1 ->
             Handlers.within_budget 2 1 0 st
               (fst (obtain_session (set_current None st1)))).
  { intros st1 H1.
    apply (budget_trans 1 0 0 1 1 0 st st1 _ H1).
    apply (budget_trans 0 0 0 1 1 0 st1 (set_current None st1) _).
    - apply budget_set_current.
    - apply budget_obtain. }
  destruct (call_list_sessions st) as [st1 [sessions | e]]; cbn [fst] in Hl.
  - destruct (mem cur (listed_ids sessions)).
    + cbn [fst]. apply (budget_weaken 1 0 0); auto.
    + now apply Hfall.
  - now apply Hfall.
Qed.

Lemma budget_deliver (text : string) (st : state W) :
  Handlers.within_budget 2 1 1 st (fst (deliver text st)).
Proof.
  unfold deliver, bind.
  pose proof (budget_get_or_create st) as Hg.
  destruct (get_or_create_session st) as [st1 [sid | e]]; cbn [fst] in Hg.
  - apply (budget_trans 2 1 0 0 0 1 st st1 _ Hg). apply budget_send.
  - cbn [fst]. apply (budget_weaken 2 1 0); auto.
Qed.

Lemma budget_deliver_fresh (text : string) (st : state W) :
  current_session_id st = None ->
  Handlers.within_budget 1 1 1 st (fst (deliver text st)).
Proof.
  intros Hcur. unfold deliver, bind, get_or_create_session. rewrite Hcur.
  pose proof (budget_obtain st) as Hg.
  destruct (obtain_session st) as [st1 [sid | e]]; cbn [fst] in Hg.
  - apply (budget_trans 1 1 0 0 0 1 st st1 _ Hg). apply budget_send.
  - cbn [fst]. apply (budget_weaken 1 1 0); auto.
Qed.

(** X20. What one call costs the backend.  [get_or_create_session] asks for
    the session list at most twice and creates at most one session;
    [handle_message], retry included, asks for the list at most three times,
    creates at most two sessions and sends at most two messages.  Neither
    calls the runner (no start, no restart), and neither changes the
    remembered directory. *)
Theorem message_path_backend_budget (text : string) (st : state W) :
  Handlers.within_budget 2 1 0 st (fst (get_or_create_session st))
  /\ Handlers.within_budget 3 2 2 st (fst (handle_message text st)).
Proof.
  split; [apply budget_get_or_create|].
  unfold handle_message.
  pose proof (budget_deliver text st) as Hd.
  destruct (deliver text st) as [st1 [result | e]]; cbn [fst] in Hd.
  - cbn [fst]. apply (budget_weaken 2 1 1); auto.
  - assert (Hplain : Handlers.within_budget 3 2 2 st st1)
      by (apply (budget_weaken 2 1 1); auto).
    destruct e as [m | code m | m | m | m]; try exact Hplain.
    destruct (code =? 404); [|exact Hplain].
    pose proof (budget_deliver_fresh text (set_current None st1) eq_refl) as Hr.
    assert (Hretry : Handlers.within_budget 3 2 2 st
                       (fst (deliver text (set_current None st1)))).
    { apply (budget_trans 2 1 1 1 1 1 st st1 _ Hd).
      apply (budget_trans 0 0 0 1 1 1 st1 (set_current None st1) _).
      - apply budget_set_current.
      - exact Hr. }
    destruct (deliver text (set_current None st1)) as [st3 [result | e']];
      exact Hretry.
Qed.

End BackendBudget.
